(** * goes16ci.models: network builders, training drivers and the min-max scaler

    A shallow embedding of [goes16ci/models.py].

    - Python integers are [Z]; Python floats (and numpy's float64) are Rocq's
      primitive binary64 [float]s, so [int(num_filters * growth)] and
      [int(np.log2(a) - np.log2(b))] round exactly as they do in the program.
    - The only numpy routine whose value is not an IEEE operation, [np.log2],
      is an interface ([NumPy]); theorems state what they need of it.
    - Exceptions are the [Raise] branch of [result]; the training drivers run
      in a small state-and-exception monad over a trace of engine calls.
    - Keras layers are descriptors; calling one on a symbolic tensor applies
      Keras' static shape rule (and its shape checks) and extends the graph.
    - A numpy array is its dtype, its shape and its elements.  The dtypes
      are numpy's two defaults: [float64], whose arithmetic is binary64, and
      [int64], whose arithmetic wraps around and whose conversions are those
      of C.  Arrays live in a store where a claim is about allocation.
    - Writes to standard output ([print]) are not modelled. *)

From Stdlib Require Import ZArith List String Ascii Bool Lia.
From Stdlib Require Import Uint63 Floats.
From Stdlib Require Import DecimalString.
Import ListNotations.
Open Scope string_scope.
Open Scope Z_scope.

Set Implicit Arguments.
Set Warnings "-inexact-float".

(* ================================================================== *)
(** ** Python values, exceptions and the error monad *)

Inductive exn :=
| ValueError (msg : string)
| IndexError (msg : string)
| OverflowError (msg : string)
| RuntimeError (msg : string)
| AttributeError (msg : string)
| KeyError (msg : string).

Inductive result (A : Type) :=
| Ok (a : A)
| Raise (e : exn).
Arguments Ok {A} a.
Arguments Raise {A} e.

Definition rbind {A B} (m : result A) (k : A -> result B) : result B :=
  match m with
  | Ok a => k a
  | Raise e => Raise e
  end.

Declare Scope result_scope.
Delimit Scope result_scope with result.
Notation "x <- m ;; k" := (rbind m (fun x => k))
  (at level 100, m at next level, right associativity) : result_scope.
Notation "' p <- m ;; k" := (rbind m (fun p => k))
  (at level 100, p pattern, m at next level, right associativity) : result_scope.
Open Scope result_scope.

Definition is_ok {A} (r : result A) : bool :=
  match r with Ok _ => true | Raise _ => false end.

Definition is_ValueError {A} (r : result A) : bool :=
  match r with Raise (ValueError _) => true | _ => false end.

(** A Python number: [int] or [float]. *)
Inductive pynum :=
| PyInt (z : Z)
| PyFloat (f : float).

(** [float(z)] as [int * float] performs it: round to nearest even,
    [OverflowError] beyond the binary64 range. *)
Definition py_float_of_int (z : Z) : result float :=
  let f := SF2Prim (binary_normalize prec emax z 0 false) in
  if is_infinity f
  then Raise (OverflowError "int too large to convert to float")
  else Ok f.

(** Truncation toward zero of a finite binary64 value. *)
Definition sf_trunc (s : bool) (m : positive) (e : Z) : Z :=
  let mag := if 0 <=? e then Z.pos m * 2 ^ e else Z.pos m / 2 ^ (- e) in
  if s then - mag else mag.

(** Floor of a finite binary64 value. *)
Definition sf_floor (s : bool) (m : positive) (e : Z) : Z :=
  let sm := if s then Z.neg m else Z.pos m in
  if 0 <=? e then sm * 2 ^ e else sm / 2 ^ (- e).

(** [int(f)] on a float. *)
Definition py_int_of_float (f : float) : result Z :=
  match Prim2SF f with
  | S754_zero _ => Ok 0
  | S754_finite s m e => Ok (sf_trunc s m e)
  | S754_infinity _ => Raise (OverflowError "cannot convert float infinity to integer")
  | S754_nan => Raise (ValueError "cannot convert float NaN to integer")
  end.

(** [math.floor(f)] on a float, the reading of "floor" in the specification. *)
Definition py_floor_of_float (f : float) : result Z :=
  match Prim2SF f with
  | S754_zero _ => Ok 0
  | S754_finite s m e => Ok (sf_floor s m e)
  | S754_infinity _ => Raise (OverflowError "cannot convert float infinity to integer")
  | S754_nan => Raise (ValueError "cannot convert float NaN to integer")
  end.

(** [n * g] for an int [n]. *)
Definition py_mul_int (n : Z) (g : pynum) : result pynum :=
  match g with
  | PyInt z => Ok (PyInt (n * z))
  | PyFloat f => nf <- py_float_of_int n ;; Ok (PyFloat (nf * f)%float)
  end.

(** [int(x)]. *)
Definition py_int (x : pynum) : result Z :=
  match x with
  | PyInt z => Ok z
  | PyFloat f => py_int_of_float f
  end.

(** [math.floor(x)]. *)
Definition py_floor (x : pynum) : result Z :=
  match x with
  | PyInt z => Ok z
  | PyFloat f => py_floor_of_float f
  end.

(** A number is non-negative: an int [>= 0], or a float whose sign bit is
    clear (NaN excluded). *)
Definition pynum_nonneg (x : pynum) : Prop :=
  match x with
  | PyInt z => 0 <= z
  | PyFloat f =>
      match Prim2SF f with
      | S754_zero s | S754_infinity s | S754_finite s _ _ => s = false
      | S754_nan => False
      end
  end.

(** [str.lower()] on ASCII text. *)
Definition lower_ascii (c : ascii) : ascii :=
  let n := nat_of_ascii c in
  if ((65 <=? n) && (n <=? 90))%nat then ascii_of_nat (n + 32) else c.

Fixpoint py_lower (s : string) : string :=
  match s with
  | EmptyString => EmptyString
  | String c r => String (lower_ascii c) (py_lower r)
  end.

(** The decimal digits of a non-negative integer. *)
Definition digits (z : Z) : string := NilZero.string_of_uint (N.to_uint (Z.to_N z)).

(** ["{0:02d}".format(z)]: sign-aware zero padding to width 2. *)
Definition format_02d (z : Z) : string :=
  if z <? 0 then "-" ++ digits (- z)
  else let d := digits z in
       if (String.length d <? 2)%nat then "0" ++ d else d.

(** [t[i]] on a tuple. *)
Definition tuple_index {A} (t : list A) (i : nat) : result A :=
  match nth_error t i with
  | Some a => Ok a
  | None => Raise (IndexError "tuple index out of range")
  end.

(** [for c in range(n): s = body(c, s)], counting from [c]. *)
Fixpoint for_range_from {S} (c : Z) (n : nat) (body : Z -> S -> result S) (s : S)
  : result S :=
  match n with
  | O => Ok s
  | S n' => s' <- body c s ;; for_range_from (c + 1) n' body s'
  end.

Definition for_range {S} (n : Z) (body : Z -> S -> result S) (s : S) : result S :=
  for_range_from 0 (Z.to_nat n) body s.

(** The part of numpy that is not IEEE arithmetic. *)
Class NumPy := { np_log2 : Z -> float }.

(* ================================================================== *)
(** ** Keras: layers, symbolic tensors and static shapes

    A shape leaves the batch axis out: an image tensor has three entries. *)

Module Keras.

(** Layer constructors with the arguments the program passes.  Every
    convolution of the program has stride 1 and [padding="same"]; every
    pooling layer the default 2x2 window with stride 2. *)
Inductive layer :=
| Conv2D (filters kernel_size : Z) (data_format : string) (name : option string)
| Activation (activation : string) (name : string)
| LeakyReLU (alpha : pynum) (name : string)
| MaxPool2D (data_format : string) (name : string)
| AveragePooling2D (data_format : string) (name : string)
| BatchNormalization (axis : Z) (name : string)
| Flatten (name : string)
| Dropout (rate : pynum) (name : string)
| Dense (units : Z) (name : string).

(** The graph behind a symbolic tensor. *)
Inductive node :=
| InputNode (shape : list Z) (name : string)
| Apply (l : layer) (arg : node)
| AddNode (a b : node).

Record tensor := { t_shape : list Z; t_node : node }.

Definition Input (shape : list Z) (name : string) : tensor :=
  {| t_shape := shape; t_node := InputNode shape name |}.

(** [K.normalize_data_format]. *)
Definition normalize_data_format (value : string) : result string :=
  let df := py_lower value in
  if (df =? "channels_first")%string || (df =? "channels_last")%string
  then Ok df
  else Raise (ValueError "The data_format argument must be one of channels_first, channels_last").

Definition ndim_error {A} : result A :=
  Raise (ValueError "Input 0 is incompatible with layer: expected ndim=4").

(** A 2x2, stride-2, unpadded pooling window along one axis. *)
Definition pool_length (n : Z) : result Z :=
  if n <? 2 then Raise (ValueError "Negative dimension size caused by subtracting 2")
  else Ok (n / 2).

Definition pool_shape (data_format : string) (sh : list Z) : result (list Z) :=
  df <- normalize_data_format data_format ;;
  match sh with
  | [a; b; c] =>
      if (df =? "channels_first")%string
      then (h <- pool_length b ;; w <- pool_length c ;; Ok [a; h; w])
      else (h <- pool_length a ;; w <- pool_length b ;; Ok [h; w; c])
  | _ => ndim_error
  end.

Definition prod (sh : list Z) : Z := fold_right Z.mul 1 sh.

(** The output shape of a layer called on a tensor of shape [sh]: Keras'
    shape rule and its check of the number of axes.  What Keras checks of a
    layer's own arguments (a filter or unit count that is not positive, an
    unknown activation name) and of empty axes is not modelled: the model can
    return a shape where Keras raises, so the properties of built networks
    are stated for the builds that return. *)
Definition output_shape (l : layer) (sh : list Z) : result (list Z) :=
  match l with
  | Conv2D filters _ data_format _ =>
      df <- normalize_data_format data_format ;;
      match sh with
      | [a; b; c] =>
          if (df =? "channels_first")%string then Ok [filters; b; c]
          else Ok [a; b; filters]
      | _ => ndim_error
      end
  | MaxPool2D data_format _ => pool_shape data_format sh
  | AveragePooling2D data_format _ => pool_shape data_format sh
  | Activation _ _ | LeakyReLU _ _ | Dropout _ _ | BatchNormalization _ _ => Ok sh
  | Flatten _ =>
      if (List.length sh <? 2)%nat
      then Raise (ValueError "Input 0 is incompatible with layer flatten: expected min_ndim=3")
      else Ok [prod sh]
  | Dense units _ =>
      match sh with
      | [] => Raise (ValueError "Input 0 is incompatible with layer: expected min_ndim=2")
      | _ => Ok (removelast sh ++ [units])%list
      end
  end.

(** [layer(tensor)]. *)
Definition call (l : layer) (t : tensor) : result tensor :=
  sh <- output_shape l (t_shape t) ;;
  Ok {| t_shape := sh; t_node := Apply l (t_node t) |}.

(** The element-wise broadcast rule of merge layers on aligned axes. *)
Fixpoint broadcast_aligned (s1 s2 : list Z) : result (list Z) :=
  match s1, s2 with
  | i :: r1, j :: r2 =>
      d <- (if i =? 1 then Ok j
            else if j =? 1 then Ok i
            else if i =? j then Ok i
            else Raise (ValueError "Operands could not be broadcast together")) ;;
      r <- broadcast_aligned r1 r2 ;;
      Ok (d :: r)
  | _, _ => Ok []
  end.

Definition elemwise_shape (s1 s2 : list Z) : result (list Z) :=
  let '(s1, s2) := if (List.length s1 <? List.length s2)%nat then (s2, s1) else (s1, s2) in
  let k := (List.length s1 - List.length s2)%nat in
  r <- broadcast_aligned (skipn k s1) s2 ;;
  Ok (firstn k s1 ++ r)%list.

(** [Add()([y, x])]. *)
Definition Add (y x : tensor) : result tensor :=
  sh <- elemwise_shape (t_shape y) (t_shape x) ;;
  Ok {| t_shape := sh; t_node := AddNode (t_node y) (t_node x) |}.

(** [t.shape[-1].value]: the last axis, the batch axis ([None]) included. *)
Definition last_dim_value (t : tensor) : option Z :=
  last (map Some (t_shape t)) None.

(** The layers on the main path of a graph, input first.  The second
    operand of an addition is an ancestor of the first. *)
Fixpoint layers (n : node) : list layer :=
  match n with
  | InputNode _ _ => []
  | Apply l a => (layers a ++ [l])%list
  | AddNode a _ => layers a
  end.

Definition is_pooling (l : layer) : bool :=
  match l with MaxPool2D _ _ | AveragePooling2D _ _ => true | _ => false end.

Definition is_conv (l : layer) : bool :=
  match l with Conv2D _ _ _ _ => true | _ => false end.

Inductive optimizer :=
| Adam (lr : pynum)
| SGD (lr momentum : pynum).

Record compile_args :=
  { c_optimizer : optimizer; c_loss : string; c_metrics : option (list string) }.

(** What a model computes: a graph, or a graph replicated over devices. *)
Inductive network :=
| Model (inputs outputs : tensor)
| multi_gpu_model (model : network) (gpus : Z) (cpu_merge cpu_relocation : bool).

(** A model object: its network and what [compile] bound to it. *)
Record model := { net : network; compiled : option compile_args }.

Definition compile (m : model) (opt : optimizer) (loss : string)
           (metrics : option (list string)) : model :=
  {| net := net m;
     compiled := Some {| c_optimizer := opt; c_loss := loss; c_metrics := metrics |} |}.

Definition is_replicated (n : network) : bool :=
  match n with
  | Model _ _ => false
  | multi_gpu_model _ _ _ _ => true
  end.

Fixpoint output_of (n : network) : tensor :=
  match n with
  | Model _ o => o
  | multi_gpu_model m _ _ _ => output_of m
  end.

End Keras.

(* ================================================================== *)
(** ** numpy arrays

    An array is its dtype, its shape and its elements in row-major order.
    The dtypes are the two numpy gives to Python numbers: [float64], with
    elements [PyFloat f], and [int64], with elements [PyInt z] for
    [-2^63 <= z < 2^63].  The same type holds the numpy and pandas scalars
    ([np.float64], [np.int64]) and the Python numbers the scaler combines
    them with; a Python integer is taken within the int64 range.  Arrays of
    other dtypes are outside the model. *)

Module np.

Inductive dtype := float_ | int_.

Record ndarray := { dtype_of : dtype; shape : list nat; data : list pynum }.

Definition size_of (sh : list nat) : nat := fold_right Nat.mul 1%nat sh.

Definition int64_min : Z := - 2 ^ 63.
Definition int64_max : Z := 2 ^ 63 - 1.

(** Two's-complement wrap-around of int64 arithmetic. *)
Definition wrap64 (z : Z) : Z := (z + 2 ^ 63) mod 2 ^ 64 - 2 ^ 63.

(** The conversion of an int64 to float64: round to nearest even. *)
Definition float_of_int (z : Z) : float :=
  SF2Prim (binary_normalize prec emax z 0 false).

Definition to_float (a : pynum) : float :=
  match a with
  | PyInt z => float_of_int z
  | PyFloat f => f
  end.

(** [a - b], [a * b] and [a + b] between an element and a scalar: int64
    arithmetic when both are integers, binary64 arithmetic otherwise. *)
Definition arith (on_int : Z -> Z -> Z) (on_float : float -> float -> float)
           (a b : pynum) : pynum :=
  match a, b with
  | PyInt x, PyInt y => PyInt (wrap64 (on_int x y))
  | _, _ => PyFloat (on_float (to_float a) (to_float b))
  end.

Definition sub : pynum -> pynum -> pynum := arith Z.sub PrimFloat.sub.
Definition mul : pynum -> pynum -> pynum := arith Z.mul PrimFloat.mul.
Definition add : pynum -> pynum -> pynum := arith Z.add PrimFloat.add.

(** [a / b] is true division: always in binary64; a zero divisor gives an
    infinity or a NaN (and a warning), not an exception. *)
Definition truediv (a b : pynum) : pynum :=
  PyFloat (to_float a / to_float b)%float.

(** The integer a float is truncated to, when it has one in the int64
    range. *)
Definition truncate (f : float) : option Z :=
  match Prim2SF f with
  | S754_zero _ => Some 0
  | S754_finite s m e =>
      let z := sf_trunc s m e in
      if (int64_min <=? z) && (z <=? int64_max) then Some z else None
  | S754_infinity _ | S754_nan => None
  end.

(** The C conversion of a double to int64: truncation toward zero.  For a
    NaN, an infinity or a value beyond the range C leaves the result
    undefined; this is the value x86-64 gives. *)
Definition cast_int64 (f : float) : Z :=
  match truncate f with
  | Some z => z
  | None => int64_min
  end.

(** The value an element of dtype [d] holds after [a] is assigned to it:
    numpy's casting assignment. *)
Definition store (d : dtype) (a : pynum) : pynum :=
  match d, a with
  | float_, _ => PyFloat (to_float a)
  | int_, PyInt z => PyInt (wrap64 z)
  | int_, PyFloat f => PyInt (cast_int64 f)
  end.

(** A Python number that numpy takes as the scalar operand of an int64 or
    float64 array: an integer has to be in the int64 range. *)
Definition scalar (a : pynum) : Prop :=
  match a with
  | PyInt z => int64_min <= z <= int64_max
  | PyFloat _ => True
  end.

(** An element of dtype [d]. *)
Definition has_dtype (d : dtype) (a : pynum) : Prop :=
  match d, a with
  | float_, PyFloat _ => True
  | int_, PyInt z => int64_min <= z <= int64_max
  | _, _ => False
  end.

(** The invariant every array satisfies. *)
Definition wf (x : ndarray) : Prop :=
  List.length (data x) = size_of (shape x) /\
  Forall (has_dtype (dtype_of x)) (data x).

Definition zero (d : dtype) : pynum :=
  match d with
  | float_ => PyFloat 0
  | int_ => PyInt 0
  end.

(** [np.zeros(shape, dtype=dtype)]. *)
Definition zeros (sh : list nat) (d : dtype) : ndarray :=
  {| dtype_of := d; shape := sh; data := repeat (zero d) (size_of sh) |}.

(** [x.shape[1]]. *)
Definition shape1 (x : ndarray) : result nat := tuple_index (shape x) 1.

(** Elements per (example, variable) pair, and the variable a flat position
    belongs to. *)
Definition inner (sh : list nat) : nat := size_of (skipn 2 sh).

Definition var_of (sh : list nat) (p : nat) : nat :=
  ((p / inner sh) mod (nth 1 sh O))%nat.

Fixpoint imap_from {A B} (i : nat) (f : nat -> A -> B) (l : list A) : list B :=
  match l with
  | [] => []
  | a :: r => f i a :: imap_from (S i) f r
  end.

Definition imap {A B} (f : nat -> A -> B) (l : list A) : list B := imap_from O f l.

(** The element at flat position [p]. *)
Definition at_ (x : ndarray) (p : nat) : pynum := nth p (data x) (PyInt 0).

(** The elements of [x[:, v]], in order. *)
Definition take1 (x : ndarray) (v : nat) : list pynum :=
  map snd (filter (fun pq => (var_of (shape x) (fst pq) =? v)%nat)
                  (combine (seq O (List.length (data x))) (data x))).

(** [dst[:, v] = rhs], where the element-wise right-hand side is given by
    flat position: slices of equally shaped arrays are aligned. *)
Definition assign1 (dst : ndarray) (v : nat) (rhs : nat -> pynum) : ndarray :=
  {| dtype_of := dtype_of dst;
     shape := shape dst;
     data := imap (fun p old => if (var_of (shape dst) p =? v)%nat
                                then store (dtype_of dst) (rhs p) else old)
                  (data dst) |}.

(** The steps of the reductions [min] and [max]: on floats a NaN, once met,
    is kept.  The elements are taken in order; but for the sign of a zero,
    the order does not change the result. *)
Definition minimum (a b : pynum) : pynum :=
  match a, b with
  | PyInt x, PyInt y => PyInt (Z.min x y)
  | _, _ =>
      let fa := to_float a in
      let fb := to_float b in
      PyFloat (if (fa <=? fb)%float || is_nan fa then fa else fb)
  end.

Definition maximum (a b : pynum) : pynum :=
  match a, b with
  | PyInt x, PyInt y => PyInt (Z.max x y)
  | _, _ =>
      let fa := to_float a in
      let fb := to_float b in
      PyFloat (if (fb <=? fa)%float || is_nan fa then fa else fb)
  end.

(** [a.min()] and [a.max()] on the elements of an array. *)
Definition min (l : list pynum) : result pynum :=
  match l with
  | [] => Raise (ValueError
                   "zero-size array to reduction operation minimum which has no identity")
  | a :: r => Ok (fold_left minimum r a)
  end.

Definition max (l : list pynum) : result pynum :=
  match l with
  | [] => Raise (ValueError
                   "zero-size array to reduction operation maximum which has no identity")
  | a :: r => Ok (fold_left maximum r a)
  end.

End np.

(* ================================================================== *)
(** ** Stateful code: a state-and-exception monad

    A raised exception keeps the state reached so far, as Python does. *)

Definition M (St A : Type) : Type := St -> result A * St.

Definition ret {St A} (a : A) : M St A := fun s => (Ok a, s).

Definition bind {St A B} (m : M St A) (k : A -> M St B) : M St B :=
  fun s => match m s with
           | (Ok a, s') => k a s'
           | (Raise e, s') => (Raise e, s')
           end.

Definition raise {St A} (e : exn) : M St A := fun s => (Raise e, s).

Definition lift {St A} (r : result A) : M St A := fun s => (r, s).

Definition get {St} : M St St := fun s => (Ok s, s).

(** [try: body finally: cleanup]. *)
Definition finally {St A} (body : M St A) (cleanup : M St unit) : M St A :=
  fun s => match body s with
           | (r, s') =>
               match cleanup s' with
               | (Ok _, s'') => (r, s'')
               | (Raise e, s'') => (Raise e, s'')
               end
           end.

Declare Scope py_scope.
Delimit Scope py_scope with py.
Notation "x <- m ;; k" := (bind m (fun x => k))
  (at level 100, m at next level, right associativity) : py_scope.
Notation "' p <- m ;; k" := (bind m (fun p => k))
  (at level 100, p pattern, m at next level, right associativity) : py_scope.
Notation "m ;; k" := (bind m (fun _ => k))
  (at level 100, right associativity) : py_scope.

(** [for v in vs: body(v)]. *)
Fixpoint for_each {St A} (vs : list A) (body : A -> M St unit) : M St unit :=
  match vs with
  | [] => ret tt
  | v :: r => (body v ;; for_each r body)%py
  end.

(* ================================================================== *)
(** ** The tensor engine as the drivers see it

    The world is the trace of calls made to the engine, oldest first, and
    whether the engine's training loop fails in this run. *)

Module Engine.

Record ConfigProto := {
  allow_soft_placement : bool;
  intra_op_parallelism_threads : option Z;
  inter_op_parallelism_threads : option Z;
  gpu_allow_growth : bool
}.

Inductive event :=
| np_random_seed (seed : Z)
| tf_set_random_seed (seed : Z)
| Session_create (config : ConfigProto)
| K_set_session
| K_set_floatx (dtype : string)
| device_enter (name : string)
| device_exit (name : string)
| Model_fit (m : Keras.model) (x y : np.ndarray) (batch_size epochs verbose : Z)
            (validation_data : option (np.ndarray * option np.ndarray))
| save_model (m : Keras.model) (path : string)
| Session_close.

Record world := { trace : list event; fit_error : option exn }.

Definition Py (A : Type) : Type := M world A.

Definition emit (e : event) : Py unit :=
  fun w => (Ok tt, {| trace := (trace w ++ [e])%list; fit_error := fit_error w |}).

(** [with K.tf.device(name): body]. *)
Definition with_device {A} (name : string) (body : Py A) : Py A :=
  (emit (device_enter name) ;; finally body (emit (device_exit name)))%py.

(** [model.fit(x, y, batch_size=..., epochs=..., verbose=..., validation_data=...)].
    Keras refuses a model that was not compiled (RuntimeError, with the text
    of Keras 2.2); a compiled model is trained, and the call is recorded
    before the training loop can fail. *)
Definition fit (m : Keras.model) (x y : np.ndarray) (batch_size epochs verbose : Z)
           (validation_data : option (np.ndarray * option np.ndarray)) : Py unit :=
  match Keras.compiled m with
  | None => raise (RuntimeError "You must compile a model before training/testing. Use `model.compile(optimizer, loss)`.")
  | Some _ =>
      (emit (Model_fit m x y batch_size epochs verbose validation_data) ;;
       w <- get ;;
       match fit_error w with
       | Some e => raise e
       | None => ret tt
       end)%py
  end.

Definition is_close (e : event) : bool :=
  match e with Session_close => true | _ => false end.

(** The batch sizes handed to the engine's [fit], in call order. *)
Definition fit_batches (tr : list event) : list Z :=
  flat_map (fun e => match e with
                     | Model_fit _ _ _ b _ _ _ => [b]
                     | _ => []
                     end) tr.

(** The models handed to the engine's [fit], in call order. *)
Definition fitted_models (tr : list event) : list Keras.model :=
  flat_map (fun e => match e with
                     | Model_fit m _ _ _ _ _ _ => [m]
                     | _ => []
                     end) tr.

(** The (model, path) pairs handed to [save_model], in call order. *)
Definition saved (tr : list event) : list (Keras.model * string) :=
  flat_map (fun e => match e with
                     | save_model m p => [(m, p)]
                     | _ => []
                     end) tr.

Definition start (err : option exn) : world := {| trace := []; fit_error := err |}.

End Engine.

(* ================================================================== *)
(** ** StandardConvNet *)

Module StandardConvNet.

(** The keyword arguments of [__init__], with their defaults. *)
Record hyperparameters := {
  min_filters : Z;
  filter_growth_rate : pynum;
  filter_width : Z;
  min_data_width : Z;
  hidden_activation : string;
  output_activation : string;
  pooling : string;
  use_dropout : bool;
  dropout_alpha : pynum;
  data_format : string;
  optimizer : string;
  loss : string;
  leaky_alpha : pynum;
  metrics : option (list string);
  learning_rate : pynum;
  batch_size : Z;
  epochs : Z;
  verbose : Z
}.

Definition defaults : hyperparameters := {|
  min_filters := 16;
  filter_growth_rate := PyInt 2;
  filter_width := 5;
  min_data_width := 4;
  hidden_activation := "relu";
  output_activation := "sigmoid";
  pooling := "mean";
  use_dropout := false;
  dropout_alpha := PyFloat 0.0;
  data_format := "channels_first";
  optimizer := "adam";
  loss := "mse";
  leaky_alpha := PyFloat 0.1;
  metrics := None;
  learning_rate := PyFloat 0.00001;
  batch_size := 256;
  epochs := 10;
  verbose := 0
|}.

(** The object: its attributes and the two model slots. *)
Record t := {
  hp : hyperparameters;
  model : option Keras.model;
  parallel_model : option Keras.model
}.

Definition __init__ (kw : hyperparameters) : t :=
  {| hp := kw; model := None; parallel_model := None |}.

Definition set_model (self : t) (m : Keras.model) : t :=
  {| hp := hp self; model := Some m; parallel_model := parallel_model self |}.

Definition set_batch_size (self : t) (b : Z) : t :=
  let h := hp self in
  {| hp := {| min_filters := min_filters h;
              filter_growth_rate := filter_growth_rate h;
              filter_width := filter_width h;
              min_data_width := min_data_width h;
              hidden_activation := hidden_activation h;
              output_activation := output_activation h;
              pooling := pooling h;
              use_dropout := use_dropout h;
              dropout_alpha := dropout_alpha h;
              data_format := data_format h;
              optimizer := optimizer h;
              loss := loss h;
              leaky_alpha := leaky_alpha h;
              metrics := metrics h;
              learning_rate := learning_rate h;
              batch_size := b;
              epochs := epochs h;
              verbose := verbose h |};
     model := model self;
     parallel_model := parallel_model self |}.

(** [int(np.log2(input_shape[1]) - np.log2(self.min_data_width))]. *)
Definition num_conv_layers `{NumPy} (self : t) (input_shape : list Z) : result Z :=
  w <- tuple_index input_shape 1 ;;
  py_int_of_float (np_log2 w - np_log2 (min_data_width (hp self)))%float.

(** [int(num_filters * self.filter_growth_rate)]. *)
Definition next_filters (self : t) (num_filters : Z) : result Z :=
  p <- py_mul_int num_filters (filter_growth_rate (hp self)) ;;
  py_int p.

(** The hidden activation layer with the given name. *)
Definition hidden_layer (self : t) (name : string) : Keras.layer :=
  if (hidden_activation (hp self) =? "leaky")%string
  then Keras.LeakyReLU (leaky_alpha (hp self)) name
  else Keras.Activation (hidden_activation (hp self)) name.

(** The pooling layer of stage [c]. *)
Definition pooling_layer (self : t) (c : Z) : Keras.layer :=
  if (py_lower (pooling (hp self)) =? "max")%string
  then Keras.MaxPool2D (data_format (hp self)) ("pooling_" ++ format_02d c)
  else Keras.AveragePooling2D (data_format (hp self)) ("pooling_" ++ format_02d c).

(** The body of the stage loop on the pair [(num_filters, scn_model)]. *)
Definition stage (self : t) (c : Z) (st : Z * Keras.tensor) : result (Z * Keras.tensor) :=
  let '(num_filters, scn_model) := st in
  scn_model <- Keras.call (Keras.Conv2D num_filters (filter_width (hp self))
                             (data_format (hp self)) (Some ("conv_" ++ format_02d c)))
                          scn_model ;;
  scn_model <- Keras.call (hidden_layer self ("hidden_activation_" ++ format_02d c))
                          scn_model ;;
  num_filters <- next_filters self num_filters ;;
  scn_model <- Keras.call (pooling_layer self c) scn_model ;;
  Ok (num_filters, scn_model).

(** Flatten, optional dropout, dense output, output activation. *)
Definition tail (self : t) (output_size : Z) (m : Keras.tensor) : result Keras.tensor :=
  m <- Keras.call (Keras.Flatten "flatten") m ;;
  m <- (if use_dropout (hp self)
        then Keras.call (Keras.Dropout (dropout_alpha (hp self)) "dense_dropout") m
        else Ok m) ;;
  m <- Keras.call (Keras.Dense output_size "dense_output") m ;;
  Keras.call (Keras.Activation (output_activation (hp self)) "activation_output") m.

Definition build_network `{NumPy} (self : t) (input_shape : list Z) (output_size : Z)
  : result t :=
  let input_layer := Keras.Input input_shape "scn_input" in
  n <- num_conv_layers self input_shape ;;
  let num_filters := min_filters (hp self) in
  '(_, scn_model) <- for_range n (stage self) (num_filters, input_layer) ;;
  scn_model <- tail self output_size scn_model ;;
  Ok (set_model self {| Keras.net := Keras.Model input_layer scn_model;
                        Keras.compiled := None |}).

Definition the_optimizer (self : t) : Keras.optimizer :=
  if (optimizer (hp self) =? "adam")%string
  then Keras.Adam (learning_rate (hp self))
  else Keras.SGD (learning_rate (hp self)) (PyFloat 0.99).

Definition no_model {A} : result A :=
  Raise (AttributeError "'NoneType' object has no attribute").

(** [self.model.compile(opt, self.loss, metrics=self.metrics)]. *)
Definition compile_model (self : t) : result t :=
  match model self with
  | Some m =>
      Ok (set_model self (Keras.compile m (the_optimizer self) (loss (hp self))
                                        (metrics (hp self))))
  | None => no_model
  end.

Definition compile_parallel_model (self : t) : result t :=
  match parallel_model self with
  | Some m =>
      Ok {| hp := hp self; model := model self;
            parallel_model :=
              Some (Keras.compile m (the_optimizer self) (loss (hp self))
                                  (metrics (hp self))) |}
  | None => no_model
  end.

(** [get_data_shapes(x, y)] on the shapes of the two arrays. *)
Definition get_data_shapes (x_shape y_shape : list Z) : result (list Z * Z) :=
  if negb (List.length x_shape =? 4)%nat
  then Raise (ValueError "Input data does not have dimensions (examples, y, x, predictor)")
  else
    output_size <- (if (List.length y_shape =? 1)%nat then Ok 1
                    else tuple_index y_shape 1) ;;
    Ok (List.tl x_shape, output_size).

(** [fit], with the [build_network] the object's class provides. *)
Definition fit_with (build : t -> list Z -> Z -> result t)
           (self : t) (x y : np.ndarray) (val_x val_y : option np.ndarray)
           (do_build : bool) : Engine.Py t :=
  (self <- (if do_build
            then lift ('(x_shape, y_size) <-
                          get_data_shapes (map Z.of_nat (np.shape x))
                                          (map Z.of_nat (np.shape y)) ;;
                       self <- build self x_shape y_size ;;
                       compile_model self)%result
            else ret self) ;;
   let val_data := match val_x with
                   | None => None
                   | Some vx => Some (vx, val_y)
                   end in
   match model self with
   | None => lift no_model
   | Some m =>
       Engine.fit m x y (batch_size (hp self)) (epochs (hp self)) (verbose (hp self))
                  val_data ;;
       ret self
   end)%py.

Definition fit `{NumPy} := fit_with build_network.

End StandardConvNet.

(* ================================================================== *)
(** ** ResNet: a StandardConvNet whose stages are residual blocks *)

Module ResNet.
Import StandardConvNet.

Definition __init__ (kw : hyperparameters) : t := StandardConvNet.__init__ kw.

Definition residual_block (self : t) (filters : Z) (in_layer : Keras.tensor)
           (layer_number : Z) : result Keras.tensor :=
  let norm_axis :=
    if (data_format (hp self) =? "channels_first")%string then 1 else -1 in
  let nn := format_02d layer_number in
  x <- (if negb (match Keras.last_dim_value in_layer with
                 | Some d => d =? filters
                 | None => false
                 end)
        then Keras.call (Keras.Conv2D filters (filter_width (hp self))
                           (data_format (hp self)) None) in_layer
        else Ok in_layer) ;;
  y <- Keras.call (Keras.BatchNormalization norm_axis ("bn_res_" ++ nn ++ "_a")) x ;;
  y <- Keras.call (hidden_layer self ("res_activation_" ++ nn ++ "_a")) y ;;
  y <- Keras.call (Keras.Conv2D filters (filter_width (hp self))
                     (data_format (hp self)) (Some ("res_conv_" ++ nn ++ "_a"))) y ;;
  y <- Keras.call (Keras.BatchNormalization norm_axis ("bn_res_" ++ nn ++ "_b")) y ;;
  y <- Keras.call (hidden_layer self ("res_activation_" ++ nn ++ "_b")) y ;;
  y <- Keras.call (Keras.Conv2D filters (filter_width (hp self))
                     (data_format (hp self)) (Some ("res_conv_" ++ nn ++ "_b"))) y ;;
  Keras.Add y x.

Definition stage (self : t) (c : Z) (st : Z * Keras.tensor) : result (Z * Keras.tensor) :=
  let '(num_filters, res_model) := st in
  res_model <- residual_block self num_filters res_model c ;;
  num_filters <- next_filters self num_filters ;;
  res_model <- Keras.call (pooling_layer self c) res_model ;;
  Ok (num_filters, res_model).

Definition build_network `{NumPy} (self : t) (input_shape : list Z) (output_size : Z)
  : result t :=
  let input_layer := Keras.Input input_shape "scn_input" in
  n <- num_conv_layers self input_shape ;;
  let num_filters := min_filters (hp self) in
  '(_, res_model) <- for_range n (stage self) (num_filters, input_layer) ;;
  res_model <- tail self output_size res_model ;;
  Ok (set_model self {| Keras.net := Keras.Model input_layer res_model;
                        Keras.compiled := None |}).

Definition fit `{NumPy} := StandardConvNet.fit_with build_network.

End ResNet.

(* ================================================================== *)
(** ** Training drivers *)

Import StandardConvNet.

Definition cpu_config (num_processors : Z) : Engine.ConfigProto :=
  {| Engine.allow_soft_placement := false;
     Engine.intra_op_parallelism_threads := Some 1;
     Engine.inter_op_parallelism_threads := Some num_processors;
     Engine.gpu_allow_growth := false |}.

Definition gpu_config : Engine.ConfigProto :=
  {| Engine.allow_soft_placement := false;
     Engine.intra_op_parallelism_threads := None;
     Engine.inter_op_parallelism_threads := None;
     Engine.gpu_allow_growth := true |}.

Definition train_conv_net_cpu `{NumPy}
           (train_data train_labels : np.ndarray) (val_data val_labels : option np.ndarray)
           (conv_net_hyperparameters : hyperparameters) (num_processors seed : Z)
  : Engine.Py unit :=
  (Engine.emit (Engine.np_random_seed seed) ;;
   Engine.emit (Engine.tf_set_random_seed seed) ;;
   Engine.emit (Engine.Session_create (cpu_config num_processors)) ;;
   Engine.emit Engine.K_set_session ;;
   Engine.with_device "/cpu:0"
     (let scn := StandardConvNet.__init__ conv_net_hyperparameters in
      StandardConvNet.fit scn train_data train_labels val_data val_labels true) ;;
   Engine.emit Engine.Session_close ;;
   ret tt)%py.

(** ["goes16_resnet_gpus_{0:02d}.h5".format(num_gpus)]. *)
Definition model_path (num_gpus : Z) : string :=
  "goes16_resnet_gpus_" ++ format_02d num_gpus ++ ".h5".

(** [scn.model = multi_gpu_model(scn.model, gpus=..., cpu_merge=..., cpu_relocation=...)]. *)
Definition replicate (scn : t) (num_gpus : Z) (cpu_merge cpu_relocation : bool)
  : result t :=
  match model scn with
  | Some m =>
      Ok (set_model scn
            {| Keras.net := Keras.multi_gpu_model (Keras.net m) num_gpus
                                                  cpu_merge cpu_relocation;
               Keras.compiled := None |})
  | None => no_model
  end.

Definition train_conv_net_gpu `{NumPy}
           (train_data train_labels : np.ndarray) (val_data val_labels : option np.ndarray)
           (conv_net_hyperparameters : hyperparameters) (num_gpus seed : Z)
           (dtype : string) (cpu_relocation cpu_merge : bool)
  : Engine.Py unit :=
  (Engine.emit (Engine.np_random_seed seed) ;;
   Engine.emit (Engine.Session_create gpu_config) ;;
   Engine.emit Engine.K_set_session ;;
   Engine.emit (Engine.tf_set_random_seed seed) ;;
   Engine.emit (Engine.K_set_floatx dtype) ;;
   scn <- (if num_gpus =? 1
           then Engine.with_device "/gpu:0"
                  (let scn := ResNet.__init__ conv_net_hyperparameters in
                   scn <- ResNet.fit scn train_data train_labels val_data val_labels true ;;
                   ret (Some scn))
           else if 1 <? num_gpus
           then (let scn := ResNet.__init__ conv_net_hyperparameters in
                 let scn := set_batch_size scn (batch_size (hp scn) * num_gpus) in
                 scn <- lift ('(x_shape, y_size) <-
                                 get_data_shapes (map Z.of_nat (np.shape train_data))
                                                 (map Z.of_nat (np.shape train_labels)) ;;
                              scn <- ResNet.build_network scn x_shape y_size ;;
                              scn <- replicate scn num_gpus cpu_merge cpu_relocation ;;
                              compile_model scn)%result ;;
                 scn <- ResNet.fit scn train_data train_labels val_data val_labels true ;;
                 ret (Some scn))
           else ret None) ;;
   match scn with
   | Some scn =>
       match model scn with
       | Some m => Engine.emit (Engine.save_model m (model_path num_gpus))
       | None => lift no_model
       end
   | None => ret tt
   end ;;
   Engine.emit Engine.Session_close ;;
   ret tt)%py.

(* ================================================================== *)
(** ** MinMaxScaler2D

    [scale_values] is the data frame indexed by variable number: one row per
    variable with its [min] and [max] and, once fitted, its [range].  The
    columns [min] and [max] hold what [x[:, v].min()] and [x[:, v].max()]
    return, an int64 or a float64.  The column [range] is absent ([None])
    until [fit] first assigns to it; pandas then adds it as a float64 column,
    so a range is stored as a float64.  The scalars [out_min], [out_max] and
    [out_range] are Python numbers; where one of them meets an array, an
    integer is taken to be in the int64 range, as numpy requires. *)

Module MinMaxScaler2D.

Record row := { r_min : pynum; r_max : pynum; r_range : option pynum }.

Record t := {
  out_min : pynum;
  out_max : pynum;
  out_range : pynum;
  scale_values : option (list row)
}.

(** [a - b] between Python numbers: exact on integers, binary64 when a float
    takes part. *)
Definition py_sub (a b : pynum) : result pynum :=
  match a, b with
  | PyInt x, PyInt y => Ok (PyInt (x - y))
  | PyInt x, PyFloat g => f <- py_float_of_int x ;; Ok (PyFloat (f - g)%float)
  | PyFloat f, PyInt y => g <- py_float_of_int y ;; Ok (PyFloat (f - g)%float)
  | PyFloat f, PyFloat g => Ok (PyFloat (f - g)%float)
  end.

(** [a != k] for a small integer literal [k]. *)
Definition py_ne (a : pynum) (k : Z) : bool :=
  match a with
  | PyInt z => negb (z =? k)
  | PyFloat f => negb (f =? np.float_of_int k)%float
  end.

Definition __init__ (out_min out_max : pynum) (scale_values : option (list row))
  : result t :=
  out_range <- py_sub out_max out_min ;;
  Ok {| out_min := out_min; out_max := out_max; out_range := out_range;
        scale_values := scale_values |}.

Definition set_scale_values (sv : option (list row)) : M t unit :=
  fun self => (Ok tt, {| out_min := out_min self; out_max := out_max self;
                         out_range := out_range self; scale_values := sv |}).

Fixpoint update_nth {A} (n : nat) (f : A -> A) (l : list A) : list A :=
  match l, n with
  | [], _ => []
  | a :: r, O => f a :: r
  | a :: r, S n' => a :: update_nth n' f r
  end.

Definition frame : M t (list row) :=
  (self <- get ;;
   match scale_values self with
   | Some rows => ret rows
   | None => raise (AttributeError "'NoneType' object has no attribute")
   end)%py.

(** [self.scale_values.loc[v, ...]], read and written. *)
Definition loc (v : nat) : M t row :=
  (rows <- frame ;;
   match nth_error rows v with
   | Some r => ret r
   | None => raise (KeyError "the label is not in the index")
   end)%py.

Definition loc_set (v : nat) (f : row -> row) : M t unit :=
  (rows <- frame ;; set_scale_values (Some (update_nth v f rows)))%py.

(** A row of [pd.DataFrame(0, index=variables, columns=["min", "max"])]. *)
Definition zero_row : row := {| r_min := PyInt 0; r_max := PyInt 0; r_range := None |}.

Definition fit (x : np.ndarray) : M t unit :=
  (n <- lift (np.shape1 x) ;;
   let variables := seq O n in
   set_scale_values (Some (repeat zero_row n)) ;;
   for_each variables (fun v =>
     mn <- lift (np.min (np.take1 x v)) ;;
     loc_set v (fun r => {| r_min := mn; r_max := r_max r; r_range := r_range r |}) ;;
     mx <- lift (np.max (np.take1 x v)) ;;
     loc_set v (fun r => {| r_min := r_min r; r_max := mx; r_range := r_range r |}) ;;
     r <- loc v ;;
     loc_set v (fun r' => {| r_min := r_min r'; r_max := r_max r';
                             r_range := Some (np.store np.float_ (np.sub (r_max r) (r_min r))) |})))%py.

(** [for v in vs: acc = body(v, acc)], for a loop that rebinds a local. *)
Fixpoint for_fold {St A B} (vs : list A) (body : A -> B -> M St B) (acc : B) : M St B :=
  match vs with
  | [] => ret acc
  | v :: r => (acc' <- body v acc ;; for_fold r body acc')%py
  end.

(** [self.out_min != 0 or self.out_max != 1]. *)
Definition rescales (self : t) : bool :=
  py_ne (out_min self) 0 || py_ne (out_max self) 1.

(** One turn of the loop of [transform] on variable [v]. *)
Definition transform_var (x : np.ndarray) (v : nat) (x_new : np.ndarray)
  : M t np.ndarray :=
  (r <- loc v ;;
   rg <- match r_range r with
         | Some rg => ret rg
         | None => raise (KeyError "range")
         end ;;
   let x_new := np.assign1 x_new v
                  (fun p => np.truediv (np.sub (np.at_ x p) (r_min r)) rg) in
   self <- get ;;
   ret (if rescales self
        then np.assign1 x_new v
               (fun p => np.add (np.mul (np.at_ x_new p) (out_range self)) (out_min self))
        else x_new))%py.

Definition transform (x : np.ndarray) : M t np.ndarray :=
  (n <- lift (np.shape1 x) ;;
   rows <- frame ;;
   if negb (n =? List.length rows)%nat
   then raise (ValueError "Input x does not have the correct number of variables")
   else
     let x_new := np.zeros (np.shape x) (np.dtype_of x) in
     for_fold (seq O (List.length rows)) (transform_var x) x_new)%py.


(** *** [transform] on arrays held in a store

    Above, arrays are values and the slice assignments of [transform] rebind
    a local.  Here the same statements run on a store of arrays, with
    references for the names [x] and [x_new]: [np.zeros] allocates, a slice
    assignment writes the array it names in place, and the reference of
    [x_new] is returned. *)

Module InStore.

Definition ref : Type := nat.

(** The scaler object and the arrays allocated so far. *)
Definition state : Type := (t * list np.ndarray)%type.

Definition on_self {A} (m : M t A) : M state A :=
  fun st => let '(r, self') := m (fst st) in (r, (self', snd st)).

Definition alloc (a : np.ndarray) : M state ref :=
  fun st => (Ok (List.length (snd st)), (fst st, (snd st ++ [a])%list)).

(** The array a name refers to; a reference outside the store does not
    occur in a Python program. *)
Definition deref (r : ref) : M state np.ndarray :=
  fun st => match nth_error (snd st) r with
            | Some a => (Ok a, st)
            | None => (Raise (RuntimeError "dangling reference"), st)
            end.

(** [dst[:, v] = rhs], in place. *)
Definition assign1 (dst : ref) (v : nat) (rhs : nat -> pynum) : M state unit :=
  (a <- deref dst ;;
   fun st => (Ok tt, (fst st, update_nth dst (fun _ => np.assign1 a v rhs) (snd st))))%py.

(** One turn of the loop of [transform] on variable [v]. *)
Definition transform_var (x x_new : ref) (v : nat) : M state unit :=
  (r <- on_self (loc v) ;;
   rg <- match r_range r with
         | Some rg => ret rg
         | None => raise (KeyError "range")
         end ;;
   ax <- deref x ;;
   assign1 x_new v (fun p => np.truediv (np.sub (np.at_ ax p) (r_min r)) rg) ;;
   self <- on_self get ;;
   if rescales self
   then (cur <- deref x_new ;;
         assign1 x_new v
           (fun p => np.add (np.mul (np.at_ cur p) (out_range self)) (out_min self)))
   else ret tt)%py.

Definition transform (x : ref) : M state ref :=
  (ax <- deref x ;;
   n <- lift (np.shape1 ax) ;;
   rows <- on_self frame ;;
   if negb (n =? List.length rows)%nat
   then raise (ValueError "Input x does not have the correct number of variables")
   else
     x_new <- alloc (np.zeros (np.shape ax) (np.dtype_of ax)) ;;
     for_each (seq O (List.length rows)) (transform_var x x_new) ;;
     ret x_new)%py.

End InStore.

End MinMaxScaler2D.

(* ================================================================== *)
(** ** Reading a built network *)

(** The layers of a built network, on its main path. *)
Definition graph_of (self : t) : list Keras.layer :=
  match model self with
  | Some m => Keras.layers (Keras.t_node (Keras.output_of (Keras.net m)))
  | None => []
  end.

Definition num_stages (self : t) : nat :=
  List.length (filter Keras.is_pooling (graph_of self)).

(** The filter counts of the named convolutions, input first. *)
Definition named_conv_filters (ls : list Keras.layer) : list Z :=
  flat_map (fun l => match l with
                     | Keras.Conv2D f _ _ (Some _) => [f]
                     | _ => []
                     end) ls.

(** The class of a network object, which selects its [build_network]. *)
Inductive net_class := Plain | Residual.

Definition build `{NumPy} (cls : net_class) : t -> list Z -> Z -> result t :=
  match cls with
  | Plain => StandardConvNet.build_network
  | Residual => ResNet.build_network
  end.

Definition convs_per_stage (cls : net_class) : nat :=
  match cls with Plain => 1%nat | Residual => 2%nat end.

(** The filter sequence in the specification's words: [filters[0]] is
    [min_filters] and [filters[i+1]] is the floor of [filters[i]] times the
    growth rate. *)
Fixpoint spec_filter (m : Z) (g : pynum) (i : nat) : result Z :=
  match i with
  | O => Ok m
  | S i' => f <- spec_filter m g i' ;; p <- py_mul_int f g ;; py_floor p
  end.

(* ================================================================== *)
(** ** Concrete inputs used by the examples below *)

(** A base-2 logarithm that is exact on powers of two and returns the
    correctly rounded binary64 value at 7 and 28, as the C library does.  It
    stands for [np.log2] at these arguments only, the ones the examples use;
    the value it gives elsewhere, NaN, is not read by any of them, and the
    theorems are stated for every [NumPy]. *)
Definition log2_table (z : Z) : float :=
  if z =? 28 then 0x1.33abb3faa0216p+2%float
  else if z =? 7 then 0x1.675767f54042dp+1%float
  else if (0 <? z) && (2 ^ Z.log2 z =? z) then of_uint63 (Uint63.of_Z (Z.log2 z))
  else nan.

Definition libm : NumPy := {| np_log2 := log2_table |}.

(** Hyperparameters that differ from the defaults in the data layout and in
    the minimum data width. *)
Definition with_layout (df : string) (width : Z) : hyperparameters :=
  {| min_filters := 16;
     filter_growth_rate := PyInt 2;
     filter_width := 5;
     min_data_width := width;
     hidden_activation := "relu";
     output_activation := "sigmoid";
     pooling := "mean";
     use_dropout := false;
     dropout_alpha := PyFloat 0.0;
     data_format := df;
     optimizer := "adam";
     loss := "mse";
     leaky_alpha := PyFloat 0.1;
     metrics := None;
     learning_rate := PyFloat 0.00001;
     batch_size := 256;
     epochs := 10;
     verbose := 0 |}.

(** Two examples of 16x16 images with 3 channels, channels last, and their
    scalar labels. *)
Definition images : np.ndarray := np.zeros [2; 16; 16; 3]%nat np.float_.
Definition labels : np.ndarray := np.zeros [2]%nat np.float_.

(** A rank-3 array: no predictor axis. *)
Definition flat_images : np.ndarray := np.zeros [2; 16; 16]%nat np.float_.

(** Sample arrays of shape (2, 2, 1, 2): two variables, four values each. *)
Definition float_sample : np.ndarray :=
  {| np.dtype_of := np.float_; np.shape := [2; 2; 1; 2]%nat;
     np.data := map PyFloat [1; 2; 10; 20; 3; 5; 30; 40]%float |}.

Definition int_sample : np.ndarray :=
  {| np.dtype_of := np.int_; np.shape := [2; 2; 1; 2]%nat;
     np.data := map PyInt [1; 2; 10; 20; 3; 5; 30; 40] |}.

(** The scaler [MinMaxScaler2D()] with its default output range. *)
Definition default_scaler : MinMaxScaler2D.t :=
  {| MinMaxScaler2D.out_min := PyInt 0; MinMaxScaler2D.out_max := PyInt 1;
     MinMaxScaler2D.out_range := PyInt 1; MinMaxScaler2D.scale_values := None |}.

(* ================================================================== *)
(** ** Auxiliary definitions for the properties *)

(** The sign bit is clear, or the value is NaN. *)
Definition sf_pos (x : spec_float) : Prop :=
  match x with
  | S754_zero s | S754_infinity s | S754_finite s _ _ => s = false
  | S754_nan => True
  end.

Definition spec_step (g : pynum) (f : Z) : result Z :=
  p <- py_mul_int f g ;; py_floor p.

Definition stage_layers (t : Keras.tensor) : list Keras.layer :=
  Keras.layers (Keras.t_node t).

Definition poolings (ls : list Keras.layer) : nat :=
  List.length (filter Keras.is_pooling ls).

(** What one stage of either network adds to the graph. *)
Definition stage_adds (per : nat)
           (stage : Z -> Z * Keras.tensor -> result (Z * Keras.tensor)) self : Prop :=
  forall c f t f' t',
    stage c (f, t) = Ok (f', t') ->
    next_filters self f = Ok f' /\
    exists ls, stage_layers t' = (stage_layers t ++ ls)%list /\
               named_conv_filters ls = repeat f per /\
               poolings ls = 1%nat.

Definition stage_of (cls : net_class) (self : t)
  : Z -> Z * Keras.tensor -> result (Z * Keras.tensor) :=
  match cls with
  | Plain => StandardConvNet.stage self
  | Residual => ResNet.stage self
  end.

(** The world after more calls. *)
Definition log (w : Engine.world) (es : list Engine.event) : Engine.world :=
  {| Engine.trace := (Engine.trace w ++ es)%list; Engine.fit_error := Engine.fit_error w |}.

(** What [fit] does before it calls the engine when [build=True]. *)
Definition prepare {NP : NumPy} (cls : net_class) (self : t) (x y : np.ndarray)
  : result t :=
  '(x_shape, y_size) <- get_data_shapes (map Z.of_nat (np.shape x))
                                        (map Z.of_nat (np.shape y)) ;;
  self <- build cls self x_shape y_size ;;
  compile_model self.

(** What the multiple-accelerator branch does before it calls [fit]. *)
Definition prepare_replicated {NP : NumPy} (scn : t) (x y : np.ndarray)
           (num_gpus : Z) (cpu_merge cpu_relocation : bool) : result t :=
  '(x_shape, y_size) <- get_data_shapes (map Z.of_nat (np.shape x))
                                        (map Z.of_nat (np.shape y)) ;;
  scn <- ResNet.build_network scn x_shape y_size ;;
  scn <- replicate scn num_gpus cpu_merge cpu_relocation ;;
  compile_model scn.

(** The [validation_data] argument [fit] passes on. *)
Definition val_data_of (val_x val_y : option np.ndarray)
  : option (np.ndarray * option np.ndarray) :=
  match val_x with
  | None => None
  | Some vx => Some (vx, val_y)
  end.

(** The engine call a prepared object makes. *)
Definition fit_event (self : t) (m : Keras.model) (x y : np.ndarray)
           (val_x val_y : option np.ndarray) : Engine.event :=
  Engine.Model_fit m x y (batch_size (hp self)) (epochs (hp self)) (verbose (hp self))
                   (val_data_of val_x val_y).

(** The outcome of the single-device driver run from world [w]. *)
Definition cpu_outcome {NP : NumPy} (x y : np.ndarray) (vx vy : option np.ndarray)
           (kw : hyperparameters) (num_processors seed : Z) (w : Engine.world)
  : result unit * Engine.world :=
  let w0 := log w [Engine.np_random_seed seed; Engine.tf_set_random_seed seed;
                   Engine.Session_create (cpu_config num_processors);
                   Engine.K_set_session; Engine.device_enter "/cpu:0"] in
  match prepare Plain (StandardConvNet.__init__ kw) x y with
  | Raise e => (Raise e, log w0 [Engine.device_exit "/cpu:0"])
  | Ok s =>
      match model s with
      | Some m =>
          match Engine.fit_error w with
          | Some e => (Raise e, log w0 [fit_event s m x y vx vy;
                                        Engine.device_exit "/cpu:0"])
          | None => (Ok tt, log w0 [fit_event s m x y vx vy;
                                    Engine.device_exit "/cpu:0"; Engine.Session_close])
          end
      | None => (no_model, log w0 [Engine.device_exit "/cpu:0"])
      end
  end.

(** The outcome of [fit] followed by the save and the session close, with
    the events [around] the training call. *)
Definition fit_save_close {NP : NumPy} (scn : t) (x y : np.ndarray)
           (vx vy : option np.ndarray) (num_gpus : Z) (after : list Engine.event)
           (w0 : Engine.world) : result unit * Engine.world :=
  match prepare Residual scn x y with
  | Raise e => (Raise e, log w0 after)
  | Ok s =>
      match model s with
      | Some m =>
          match Engine.fit_error w0 with
          | Some e => (Raise e, log w0 (fit_event s m x y vx vy :: after))
          | None => (Ok tt, log w0 (fit_event s m x y vx vy :: after ++
                                      [Engine.save_model m (model_path num_gpus);
                                       Engine.Session_close]))
          end
      | None => (no_model, log w0 after)
      end
  end.

(** The outcome of the accelerator driver run from world [w]. *)
Definition gpu_outcome {NP : NumPy} (x y : np.ndarray) (vx vy : option np.ndarray)
           (kw : hyperparameters) (num_gpus seed : Z) (dtype : string)
           (cpu_relocation cpu_merge : bool) (w : Engine.world)
  : result unit * Engine.world :=
  let w0 := log w [Engine.np_random_seed seed; Engine.Session_create gpu_config;
                   Engine.K_set_session; Engine.tf_set_random_seed seed;
                   Engine.K_set_floatx dtype] in
  if num_gpus =? 1 then
    fit_save_close (ResNet.__init__ kw) x y vx vy num_gpus
                   [Engine.device_exit "/gpu:0"]
                   (log w0 [Engine.device_enter "/gpu:0"])
  else if 1 <? num_gpus then
    match prepare_replicated
            (set_batch_size (ResNet.__init__ kw) (batch_size kw * num_gpus))
            x y num_gpus cpu_merge cpu_relocation with
    | Raise e => (Raise e, w0)
    | Ok scn => fit_save_close scn x y vx vy num_gpus [] w0
    end
  else (Ok tt, log w0 [Engine.Session_close]).

(** The Keras model a build makes, apart from the object that stores it. *)
Definition core {NP : NumPy} (cls : net_class) (self : t) (input_shape : list Z)
           (output_size : Z) : result Keras.model :=
  n <- num_conv_layers self input_shape ;;
  '(_, t') <- for_range n (stage_of cls self)
                (min_filters (hp self), Keras.Input input_shape "scn_input") ;;
  out <- StandardConvNet.tail self output_size t' ;;
  Ok {| Keras.net := Keras.Model (Keras.Input input_shape "scn_input") out;
        Keras.compiled := None |}.

Definition graph_result {NP : NumPy} (cls : net_class) (self : t) (x y : np.ndarray)
  : result Keras.model :=
  '(x_shape, y_size) <- get_data_shapes (map Z.of_nat (np.shape x))
                                        (map Z.of_nat (np.shape y)) ;;
  core cls self x_shape y_size.

(** An object reduced to what a build reads of it. *)
Definition norm (self : t) : t :=
  {| hp := hp (set_batch_size self 0); model := None; parallel_model := None |}.

Definition compiled_by (self : t) (m : Keras.model) : Keras.model :=
  Keras.compile m (the_optimizer self) (loss (hp self)) (metrics (hp self)).

(** The two decimal digits of a number below 100. *)
Definition two_digits (k : Z) : string :=
  String (ascii_of_nat (48 + Z.to_nat (k / 10)))
         (String (ascii_of_nat (48 + Z.to_nat (k mod 10))) EmptyString).

(** The row [fit] computes for variable [v] of [x]. *)
Definition fitted_row (x : np.ndarray) (v : nat) (r : MinMaxScaler2D.row) : Prop :=
  exists mn mx,
    r = {| MinMaxScaler2D.r_min := mn; MinMaxScaler2D.r_max := mx;
           MinMaxScaler2D.r_range := Some (np.store np.float_ (np.sub mx mn)) |} /\
    np.min (np.take1 x v) = Ok mn /\ np.max (np.take1 x v) = Ok mx.

(** The frame [fit] leaves for [x]: one fitted row per variable. *)
Definition fitted_frame (x : np.ndarray) (rows : list MinMaxScaler2D.row) : Prop :=
  np.shape1 x = Ok (List.length rows) /\
  forall v, (v < List.length rows)%nat ->
            exists r, nth_error rows v = Some r /\ fitted_row x v r.

(** The two slice assignments of one turn of the loop of [transform]. *)
Definition scale_slice (self : MinMaxScaler2D.t) (x : np.ndarray) (v : nat)
           (r : MinMaxScaler2D.row) (rg : pynum) (x_new : np.ndarray) : np.ndarray :=
  let x_new := np.assign1 x_new v
                 (fun p => np.truediv (np.sub (np.at_ x p) (MinMaxScaler2D.r_min r)) rg) in
  if MinMaxScaler2D.rescales self
  then np.assign1 x_new v
         (fun p => np.add (np.mul (np.at_ x_new p) (MinMaxScaler2D.out_range self))
                          (MinMaxScaler2D.out_min self))
  else x_new.

(** The quotient [(q - min) / range] as numpy computes it: in binary64. *)
Definition quotient (r : MinMaxScaler2D.row) (rg q : pynum) : float :=
  (np.to_float (np.sub q (MinMaxScaler2D.r_min r)) / np.to_float rg)%float.

(** The value [transform] leaves where the input holds [q], for a variable
    with row [r] and range [rg], in an array of dtype [d]: the quotient
    stored at that dtype and, unless the output range is the default one,
    rescaled and stored again. *)
Definition scaled_value (self : MinMaxScaler2D.t) (d : np.dtype)
           (r : MinMaxScaler2D.row) (rg : pynum) (q : pynum) : pynum :=
  let t1 := np.store d (PyFloat (quotient r rg q)) in
  if MinMaxScaler2D.rescales self
  then np.store d (np.add (np.mul t1 (MinMaxScaler2D.out_range self))
                          (MinMaxScaler2D.out_min self))
  else t1.

Definition expected (self : MinMaxScaler2D.t) (x : np.ndarray)
           (rows : list MinMaxScaler2D.row) (p : nat) : pynum :=
  match nth_error rows (np.var_of (np.shape x) p) with
  | Some r =>
      match MinMaxScaler2D.r_range r with
      | Some rg => scaled_value self (np.dtype_of x) r rg (np.at_ x p)
      | None => np.zero (np.dtype_of x)
      end
  | None => np.zero (np.dtype_of x)
  end.



(** Every row of the frame has its range. *)
Definition ranged (rows : list MinMaxScaler2D.row) : Prop :=
  forall r, In r rows -> MinMaxScaler2D.r_range r <> None.

(** [np.log2] is exact on the powers of two up to 2^62. *)
Definition log2_exact_on_powers {NP : NumPy} : Prop :=
  forall a, 0 <= a <= 62 -> np_log2 (2 ^ a) = of_uint63 (Uint63.of_Z a).

(** The unnamed convolutions of a graph: the projections of its shortcuts. *)
Definition projections (ls : list Keras.layer) : nat :=
  List.length (filter (fun l => match l with
                                | Keras.Conv2D _ _ _ None => true
                                | _ => false
                                end) ls).

(** The layers that follow the stages of either network. *)
Definition tail_list (self : t) (output_size : Z) : list Keras.layer :=
  app [Keras.Flatten "flatten"]
      (app (if use_dropout (hp self)
            then [Keras.Dropout (dropout_alpha (hp self)) "dense_dropout"] else [])
           [Keras.Dense output_size "dense_output";
            Keras.Activation (output_activation (hp self)) "activation_output"]).

(** The layers stage [c] of the plain network adds for [f] filters. *)
Definition plain_stage_list (self : t) (c f : Z) : list Keras.layer :=
  [Keras.Conv2D f (filter_width (hp self)) (data_format (hp self))
                (Some ("conv_" ++ format_02d c));
   hidden_layer self ("hidden_activation_" ++ format_02d c);
   pooling_layer self c].

(** The normalisation axis of the residual block. *)
Definition norm_axis (self : t) : Z :=
  if (data_format (hp self) =? "channels_first")%string then 1 else -1.

(** The layers residual block [c] adds for [f] filters, with or without
    the projection of the shortcut, and the pooling layer after it. *)
Definition residual_stage_list (self : t) (c f : Z) (projected : bool)
  : list Keras.layer :=
  let nn := format_02d c in
  app (if projected
       then [Keras.Conv2D f (filter_width (hp self)) (data_format (hp self)) None]
       else [])
      [Keras.BatchNormalization (norm_axis self) ("bn_res_" ++ nn ++ "_a");
       hidden_layer self ("res_activation_" ++ nn ++ "_a");
       Keras.Conv2D f (filter_width (hp self)) (data_format (hp self))
                    (Some ("res_conv_" ++ nn ++ "_a"));
       Keras.BatchNormalization (norm_axis self) ("bn_res_" ++ nn ++ "_b");
       hidden_layer self ("res_activation_" ++ nn ++ "_b");
       Keras.Conv2D f (filter_width (hp self)) (data_format (hp self))
                    (Some ("res_conv_" ++ nn ++ "_b"));
       pooling_layer self c].

(** The block projects its shortcut: the test of [residual_block]. *)
Definition projects (filters : Z) (in_layer : Keras.tensor) : bool :=
  negb (match Keras.last_dim_value in_layer with
        | Some d => d =? filters
        | None => false
        end).

(** [fs] are the filter counts of consecutive stages starting at [f]: each
    is the [next_filters] of the one before, and the loop computes the next
    count after the last stage too. *)
Fixpoint filter_chain (self : t) (f : Z) (fs : list Z) : Prop :=
  match fs with
  | [] => True
  | g :: r => g = f /\ exists f', next_filters self f = Ok f' /\ filter_chain self f' r
  end.

(** The additions on the main path of a graph. *)
Fixpoint additions (n : Keras.node) : nat :=
  match n with
  | Keras.InputNode _ _ => O
  | Keras.Apply _ a => additions a
  | Keras.AddNode a _ => S (additions a)
  end.

Definition is_max_pool (l : Keras.layer) : bool :=
  match l with Keras.MaxPool2D _ _ => true | _ => false end.

Definition is_average_pool (l : Keras.layer) : bool :=
  match l with Keras.AveragePooling2D _ _ => true | _ => false end.

Definition is_batch_norm (l : Keras.layer) : bool :=
  match l with Keras.BatchNormalization _ _ => true | _ => false end.

(** Stage numbers paired with filter counts, from stage [c] on. *)
Fixpoint numbered (c : Z) (fs : list Z) : list (Z * Z) :=
  match fs with
  | [] => []
  | f :: r => (c, f) :: numbered (c + 1) r
  end.

(** Stage numbers, filter counts and projection flags of residual stages. *)
Fixpoint flagged (c : Z) (fs : list Z) (ps : list bool) : list (Z * Z * bool) :=
  match fs, ps with
  | f :: r, p :: q => (c, f, p) :: flagged (c + 1) r q
  | _, _ => []
  end.

Definition count_layers (b : Keras.layer -> bool) (ls : list Keras.layer) : nat :=
  List.length (filter b ls).

(** What each layer of a built network owes to the hyperparameters: the
    hidden activations are [LeakyReLU(leaky_alpha)] when the configured name
    is "leaky" and [Activation(name)] otherwise; poolings, convolutions and
    normalisations carry the configured layout, kernel and axis. *)
Definition configured (self : t) (l : Keras.layer) : Prop :=
  match l with
  | Keras.LeakyReLU alpha _ =>
      hidden_activation (hp self) = "leaky" /\ alpha = leaky_alpha (hp self)
  | Keras.Activation a name =>
      (a = hidden_activation (hp self) /\ hidden_activation (hp self) <> "leaky") \/
      (a = output_activation (hp self) /\ name = "activation_output")
  | Keras.Conv2D _ k df _ => k = filter_width (hp self) /\ df = data_format (hp self)
  | Keras.MaxPool2D df _ =>
      df = data_format (hp self) /\ py_lower (pooling (hp self)) = "max"
  | Keras.AveragePooling2D df _ =>
      df = data_format (hp self) /\ py_lower (pooling (hp self)) <> "max"
  | Keras.BatchNormalization axis _ => axis = norm_axis self
  | Keras.Dropout rate _ => use_dropout (hp self) = true /\ rate = dropout_alpha (hp self)
  | Keras.Flatten _ => True
  | Keras.Dense _ _ => True
  end.

(** [n] filter counts from [f] under an integer growth rate [g]. *)
Fixpoint geometric (f g : Z) (n : nat) : list Z :=
  match n with
  | O => []
  | S n' => f :: geometric (f * g) g n'
  end.

(** The projection flags of channels-last residual stages: a block projects
    when the channel count reaching it differs from its filter count. *)
Fixpoint projection_flags (ch : Z) (fs : list Z) : list bool :=
  match fs with
  | [] => []
  | f :: r => negb (ch =? f) :: projection_flags f r
  end.

(** The number of output units [get_data_shapes] reads off the labels: one
    for a vector of labels, the second axis otherwise. *)
Definition label_units (y_shape : list nat) : Z :=
  if (List.length y_shape =? 1)%nat then 1 else Z.of_nat (nth 1 y_shape O).

(** The arguments [compile_model] binds to the model of [self]. *)
Definition configured_args (self : t) : Keras.compile_args :=
  {| Keras.c_optimizer := the_optimizer self;
     Keras.c_loss := loss (hp self);
     Keras.c_metrics := metrics (hp self) |}.

(** A training call on [x] and [y] with the epochs, verbosity, optimizer,
    loss and metrics of [kw], the validation data of [fit] and batch size
    [b]; any other call. *)
Definition trains_with (kw : hyperparameters) (x y : np.ndarray)
           (vx vy : option np.ndarray) (b : Z) (e : Engine.event) : Prop :=
  match e with
  | Engine.Model_fit m x' y' b' ep vb vd =>
      x' = x /\ y' = y /\ b' = b /\ ep = epochs kw /\ vb = verbose kw /\
      vd = val_data_of vx vy /\
      Keras.compiled m = Some (configured_args (StandardConvNet.__init__ kw))
  | _ => True
  end.

Definition is_fit (e : Engine.event) : bool :=
  match e with Engine.Model_fit _ _ _ _ _ _ _ => true | _ => false end.

Definition is_scope (e : Engine.event) : bool :=
  match e with
  | Engine.device_enter _ | Engine.device_exit _ => true
  | _ => false
  end.

(** The device scopes and training calls of a trace, in order. *)
Definition scopes_and_fits (tr : list Engine.event) : list Engine.event :=
  filter (fun e => is_scope e || is_fit e) tr.

(* ================================================================== *)
(** * Properties *)

(** ** Floats: signs, truncation and floor *)

Lemma binary_round_aux_pos m e l : sf_pos (binary_round_aux prec emax false m e l).
Proof.
  unfold binary_round_aux.
  destruct (shr_fexp prec emax m e l) as [mrs' e'].
  destruct (shr_fexp prec emax _ e' loc_Exact) as [mrs'' e''].
  destruct (shr_m mrs''); simpl; auto.
  destruct (e'' <=? 971); simpl; auto.
Qed.

Lemma binary_round_pos m e : sf_pos (binary_round prec emax false m e).
Proof.
  unfold binary_round.
  destruct (shl_align m e _) as [mz ez]. apply binary_round_aux_pos.
Qed.

Lemma binary_normalize_pos z e : 0 <= z -> sf_pos (binary_normalize prec emax z e false).
Proof.
  intros Hz. destruct z as [|p|p]; simpl; auto.
  - apply binary_round_pos.
  - lia.
Qed.

Lemma SFldexp_pos x e : sf_pos x -> sf_pos (SFldexp prec emax x e).
Proof.
  destruct x as [s|s| |s m ex]; simpl; auto.
  intros ->. apply binary_round_pos.
Qed.

Lemma Prim2SF_SF2Prim_pos x : sf_pos x -> sf_pos (Prim2SF (SF2Prim x)).
Proof.
  destruct x as [s|s| |s m e]; simpl; intros Hs; subst; try (vm_compute; auto; fail).
  rewrite Z_ldexp_spec. apply SFldexp_pos.
  rewrite of_uint63_spec. apply binary_normalize_pos.
  apply Uint63.to_Z_bounded.
Qed.

Lemma SFmul_pos x y : sf_pos x -> sf_pos y -> sf_pos (SFmul prec emax x y).
Proof.
  destruct x as [sx|sx| |sx mx ex], y as [sy|sy| |sy my ey]; simpl; intros; subst; auto.
  apply binary_round_aux_pos.
Qed.

Lemma sf_trunc_floor_pos m e : sf_trunc false m e = sf_floor false m e.
Proof. reflexivity. Qed.

Lemma py_int_floor_of_pos f :
  sf_pos (Prim2SF f) -> py_int_of_float f = py_floor_of_float f.
Proof.
  unfold py_int_of_float, py_floor_of_float.
  destruct (Prim2SF f); simpl; intros; subst; reflexivity.
Qed.

Lemma pynum_nonneg_pos f : pynum_nonneg (PyFloat f) -> sf_pos (Prim2SF f).
Proof. simpl. destruct (Prim2SF f); simpl; tauto. Qed.

(** On the product of two non-negative numbers, [int] is the floor. *)
Lemma py_int_is_floor n g p :
  0 <= n -> pynum_nonneg g -> py_mul_int n g = Ok p -> py_int p = py_floor p.
Proof.
  intros Hn Hg. destruct g as [z|f]; simpl.
  - intros [= <-]. reflexivity.
  - unfold py_float_of_int.
    destruct (is_infinity _); simpl; [discriminate|].
    intros [= <-]. simpl. apply py_int_floor_of_pos.
    rewrite mul_spec. apply SFmul_pos.
    + apply Prim2SF_SF2Prim_pos, binary_normalize_pos, Hn.
    + apply pynum_nonneg_pos, Hg.
Qed.

Lemma py_int_of_pos f z : sf_pos (Prim2SF f) -> py_int_of_float f = Ok z -> 0 <= z.
Proof.
  unfold py_int_of_float.
  destruct (Prim2SF f) as [s|s| |s m e]; simpl; intros Hs [= <-]; subst; try lia.
  unfold sf_trunc. destruct (Z.leb_spec 0 e).
  - apply Z.mul_nonneg_nonneg; [lia | apply Z.pow_nonneg; lia].
  - apply Z.div_pos; [lia | apply Z.pow_pos_nonneg; lia].
Qed.

(** ** The error monad *)

Lemma rbind_Ok {A B} (m : result A) (k : A -> result B) b :
  rbind m k = Ok b -> exists a, m = Ok a /\ k a = Ok b.
Proof. destruct m; simpl; [eauto | discriminate]. Qed.

Lemma rbind_assoc {A B C} (m : result A) (k : A -> result B) (h : B -> result C) :
  rbind (rbind m k) h = rbind m (fun a => rbind (k a) h).
Proof. destruct m; reflexivity. Qed.

(** Split a successful sequence of binds into its steps. *)
Ltac inv_bind H :=
  repeat match type of H with
         | rbind _ _ = Ok _ =>
             let a := fresh "a" in
             let Ha := fresh "Ha" in
             apply rbind_Ok in H; destruct H as (a & Ha & H)
         end.

(** ** The filter sequence *)

Lemma spec_filter_S m g i :
  spec_filter m g (S i) = rbind (spec_step g m) (fun f' => spec_filter f' g i).
Proof.
  induction i as [|i IH].
  - simpl. unfold spec_step. destruct (py_mul_int m g); simpl; [|reflexivity].
    destruct (py_floor a); reflexivity.
  - change (spec_filter m g (S (S i)))
      with (rbind (spec_filter m g (S i)) (spec_step g)).
    rewrite IH, rbind_assoc. reflexivity.
Qed.

Lemma next_filters_spec self f f' :
  0 <= f -> pynum_nonneg (filter_growth_rate (hp self)) ->
  next_filters self f = Ok f' ->
  spec_step (filter_growth_rate (hp self)) f = Ok f' /\ 0 <= f'.
Proof.
  intros Hf Hg H. unfold next_filters in H. unfold spec_step.
  apply rbind_Ok in H. destruct H as (p & Hp & H).
  rewrite Hp. simpl. rewrite <- (py_int_is_floor _ Hf Hg Hp). split; [exact H|].
  destruct (filter_growth_rate (hp self)) as [z|g]; simpl in *.
  - injection Hp as <-. simpl in H. injection H as <-. now apply Z.mul_nonneg_nonneg.
  - unfold py_float_of_int in Hp.
    destruct (is_infinity _); simpl in Hp; [discriminate|].
    injection Hp as <-. simpl in H.
    eapply py_int_of_pos; [|exact H].
    rewrite mul_spec. apply SFmul_pos.
    + apply Prim2SF_SF2Prim_pos, binary_normalize_pos, Hf.
    + destruct (Prim2SF g); simpl in *; tauto.
Qed.

Lemma call_inv l t t' :
  Keras.call l t = Ok t' ->
  Keras.output_shape l (Keras.t_shape t) = Ok (Keras.t_shape t') /\
  Keras.t_node t' = Keras.Apply l (Keras.t_node t).
Proof.
  unfold Keras.call. intros H. apply rbind_Ok in H. destruct H as (sh & Hsh & H).
  injection H as <-. auto.
Qed.

Lemma Add_inv y x t' :
  Keras.Add y x = Ok t' ->
  Keras.elemwise_shape (Keras.t_shape y) (Keras.t_shape x) = Ok (Keras.t_shape t') /\
  Keras.t_node t' = Keras.AddNode (Keras.t_node y) (Keras.t_node x).
Proof.
  unfold Keras.Add. intros H. apply rbind_Ok in H. destruct H as (sh & Hsh & H).
  injection H as <-. auto.
Qed.

Lemma hidden_layer_not_pooling self name : Keras.is_pooling (hidden_layer self name) = false.
Proof. unfold hidden_layer. destruct (_ =? _)%string; reflexivity. Qed.

Lemma hidden_layer_not_conv self name :
  named_conv_filters [hidden_layer self name] = [].
Proof. unfold hidden_layer. destruct (_ =? _)%string; reflexivity. Qed.

Lemma pooling_layer_is_pooling self c : Keras.is_pooling (pooling_layer self c) = true.
Proof. unfold pooling_layer. destruct (_ =? _)%string; reflexivity. Qed.

Lemma pooling_layer_not_conv self c : named_conv_filters [pooling_layer self c] = [].
Proof. unfold pooling_layer. destruct (_ =? _)%string; reflexivity. Qed.

Lemma named_conv_filters_app l1 l2 :
  named_conv_filters (l1 ++ l2) = (named_conv_filters l1 ++ named_conv_filters l2)%list.
Proof. unfold named_conv_filters. apply flat_map_app. Qed.

Lemma poolings_app l1 l2 : poolings (l1 ++ l2) = (poolings l1 + poolings l2)%nat.
Proof. unfold poolings. rewrite filter_app, length_app. reflexivity. Qed.

Lemma plain_stage_adds self : stage_adds 1 (StandardConvNet.stage self) self.
Proof.
  intros c f t f' t' H. unfold StandardConvNet.stage in H.
  inv_bind H. injection H as <- <-.
  apply call_inv in Ha as [_ Hn1]. apply call_inv in Ha0 as [_ Hn2].
  apply call_inv in Ha2 as [_ Hn3].
  split; [assumption|].
  eexists. unfold stage_layers. rewrite Hn3, Hn2, Hn1. simpl.
  rewrite <- !app_assoc. split; [reflexivity|]. simpl.
  split; unfold poolings, hidden_layer, pooling_layer;
    repeat destruct (_ =? _)%string; reflexivity.
Qed.

Lemma residual_block_layers self f t c out :
  ResNet.residual_block self f t c = Ok out ->
  exists ls, stage_layers out = (stage_layers t ++ ls)%list /\
             named_conv_filters ls = [f; f] /\ poolings ls = 0%nat.
Proof.
  unfold ResNet.residual_block. intros H.
  apply rbind_Ok in H. destruct H as (x & Hx & H).
  inv_bind H. apply Add_inv in H as [_ Hout].
  repeat match goal with
         | Hc : Keras.call _ _ = Ok _ |- _ => apply call_inv in Hc as [_ Hc]
         end.
  unfold stage_layers. rewrite Hout. cbn [Keras.layers].
  rewrite Ha4, Ha3, Ha2, Ha1, Ha0, Ha. cbn [Keras.layers].
  destruct (negb _).
  - apply call_inv in Hx as [_ Hx]. rewrite Hx. cbn [Keras.layers].
    rewrite <- !app_assoc. eexists. split; [reflexivity|].
    split; unfold poolings, hidden_layer; cbn [app];
      repeat destruct (_ =? _)%string; reflexivity.
  - injection Hx as <-.
    rewrite <- !app_assoc. eexists. split; [reflexivity|].
    split; unfold poolings, hidden_layer; cbn [app];
      repeat destruct (_ =? _)%string; reflexivity.
Qed.

Lemma residual_stage_adds self : stage_adds 2 (ResNet.stage self) self.
Proof.
  intros c f t f' t' H. unfold ResNet.stage in H.
  inv_bind H. injection H as <- <-.
  apply residual_block_layers in Ha as (ls & Hls & Hnamed & Hpool).
  apply call_inv in Ha1 as [_ Hn].
  split; [assumption|].
  exists (ls ++ [pooling_layer self c])%list.
  unfold stage_layers in *. rewrite Hn. cbn [Keras.layers]. rewrite Hls.
  rewrite <- app_assoc. split; [reflexivity|].
  rewrite named_conv_filters_app, poolings_app, Hnamed, Hpool.
  split; unfold poolings, pooling_layer; destruct (_ =? _)%string; reflexivity.
Qed.

Lemma flat_map_map {A B C} (f : B -> list C) (g : A -> B) l :
  flat_map f (map g l) = flat_map (fun x => f (g x)) l.
Proof. induction l as [|a l IH]; simpl; [reflexivity | now rewrite IH]. Qed.

(** The stages the loop adds carry the specification's filter sequence. *)
Lemma stages_spec per stage self :
  stage_adds per stage self ->
  pynum_nonneg (filter_growth_rate (hp self)) ->
  forall n c f t f' t',
    0 <= f ->
    for_range_from c n stage (f, t) = Ok (f', t') ->
    exists ls,
      stage_layers t' = (stage_layers t ++ ls)%list /\
      map Ok (named_conv_filters ls) =
        flat_map (fun i => repeat (spec_filter f (filter_growth_rate (hp self)) i) per)
                 (seq O n) /\
      poolings ls = n.
Proof.
  intros Hstage Hg. induction n as [|n IH]; intros c f t f' t' Hf H.
  - injection H as <- <-. exists []. rewrite app_nil_r. auto.
  - cbn [for_range_from] in H. apply rbind_Ok in H. destruct H as ([f1 t1] & H1 & H).
    apply Hstage in H1 as (Hnext & ls1 & Hl1 & Hc1 & Hp1).
    apply next_filters_spec in Hnext as [Hstep Hf1]; [|assumption|assumption].
    apply IH in H as (ls & Hl & Hc & Hp); [|assumption].
    exists (ls1 ++ ls)%list. rewrite Hl, Hl1, <- app_assoc. split; [reflexivity|].
    rewrite named_conv_filters_app, poolings_app, map_app, Hc, Hc1, Hp, Hp1.
    split; [|reflexivity].
    cbn [seq flat_map]. f_equal.
    + cbn [spec_filter]. now rewrite map_repeat.
    + rewrite <- seq_shift, flat_map_map.
      apply flat_map_ext. intros i. rewrite spec_filter_S, Hstep. reflexivity.
Qed.

Lemma tail_layers self out t t' :
  StandardConvNet.tail self out t = Ok t' ->
  exists ls, stage_layers t' = (stage_layers t ++ ls)%list /\
             named_conv_filters ls = [] /\ poolings ls = 0%nat /\
             exists pre act, ls = (pre ++ [Keras.Dense out "dense_output";
                                           Keras.Activation act "activation_output"])%list.
Proof.
  unfold StandardConvNet.tail. intros H. inv_bind H.
  apply call_inv in H as [_ H4]. apply call_inv in Ha1 as [_ H3].
  apply call_inv in Ha as [_ H1].
  unfold stage_layers. rewrite H4, H3. cbn [Keras.layers].
  destruct (use_dropout (hp self)).
  - apply call_inv in Ha0 as [_ H2]. rewrite H2. cbn [Keras.layers]. rewrite H1.
    cbn [Keras.layers]. rewrite <- !app_assoc. eexists. split; [reflexivity|].
    repeat split. exists [Keras.Flatten "flatten";
                          Keras.Dropout (dropout_alpha (hp self)) "dense_dropout"].
    eexists. reflexivity.
  - injection Ha0 as <-. rewrite H1. cbn [Keras.layers].
    rewrite <- !app_assoc. eexists. split; [reflexivity|].
    repeat split. exists [Keras.Flatten "flatten"]. eexists. reflexivity.
Qed.

(** The graph a successful build leaves in the object. *)
Lemma build_graph {NP : NumPy} cls self input_shape output_size net :
  build cls self input_shape output_size = Ok net ->
  exists n f' t' out,
    num_conv_layers self input_shape = Ok n /\
    for_range n (match cls with
                 | Plain => StandardConvNet.stage self
                 | Residual => ResNet.stage self
                 end)
              (min_filters (hp self), Keras.Input input_shape "scn_input") = Ok (f', t') /\
    StandardConvNet.tail self output_size t' = Ok out /\
    hp net = hp self /\
    model net = Some {| Keras.net := Keras.Model (Keras.Input input_shape "scn_input") out;
                        Keras.compiled := None |}.
Proof.
  destruct cls; cbn [build];
    unfold StandardConvNet.build_network, ResNet.build_network; intros H;
    apply rbind_Ok in H; destruct H as (n & Hn & H);
    apply rbind_Ok in H; destruct H as ([f' t'] & Hloop & H);
    apply rbind_Ok in H; destruct H as (out & Hout & H);
    injection H as <-; exists n, f', t', out; auto.
Qed.

Lemma stages_count per stage self :
  stage_adds per stage self ->
  forall n c f t f' t',
    for_range_from c n stage (f, t) = Ok (f', t') ->
    exists ls, stage_layers t' = (stage_layers t ++ ls)%list /\ poolings ls = n.
Proof.
  intros Hstage. induction n as [|n IH]; intros c f t f' t' H.
  - injection H as <- <-. exists []. now rewrite app_nil_r.
  - cbn [for_range_from] in H. apply rbind_Ok in H. destruct H as ([f1 t1] & H1 & H).
    apply Hstage in H1 as (_ & l1 & Hl1 & _ & Hp1).
    apply IH in H as (l2 & Hl2 & Hp2). exists (l1 ++ l2)%list.
    rewrite Hl2, Hl1, <- app_assoc, poolings_app. split; [reflexivity | lia].
Qed.

Lemma stage_of_adds cls self : stage_adds (convs_per_stage cls) (stage_of cls self) self.
Proof. destruct cls; [apply plain_stage_adds | apply residual_stage_adds]. Qed.

(** The graph of a built network: the stages, then the tail ending in the
    dense layer and the output activation. *)
Lemma graph_of_built {NP : NumPy} cls self input_shape output_size net :
  build cls self input_shape output_size = Ok net ->
  exists n f' t' tl act,
    num_conv_layers self input_shape = Ok n /\
    for_range_from 0 (Z.to_nat n) (stage_of cls self)
      (min_filters (hp self), Keras.Input input_shape "scn_input") = Ok (f', t') /\
    graph_of net = (stage_layers t' ++ tl ++
                      [Keras.Dense output_size "dense_output";
                       Keras.Activation act "activation_output"])%list /\
    poolings (stage_layers t') = Z.to_nat n /\
    named_conv_filters tl = [] /\ poolings tl = 0%nat.
Proof.
  intros Hb. apply build_graph in Hb as (n & f' & t' & out & Hn & Hloop & Htail & _ & Hm).
  apply tail_layers in Htail as (ls & Hls & Hc & Hp & pre & act & ->).
  assert (Hpre : named_conv_filters pre = [] /\ poolings pre = 0%nat).
  { rewrite named_conv_filters_app in Hc. rewrite poolings_app in Hp.
    apply app_eq_nil in Hc as [Hc _]. split; [assumption | lia]. }
  unfold for_range in Hloop. fold (stage_of cls self) in Hloop.
  exists n, f', t', pre, act.
  destruct (stages_count (stage_of_adds cls self) _ _ _ _ Hloop) as (ls & Hl & Hps).
  cbn [stage_layers Keras.Input Keras.t_node Keras.layers app] in Hl.
  unfold graph_of. rewrite Hm. cbn [Keras.net Keras.output_of].
  fold (stage_layers out). rewrite Hls.
  repeat split; try tauto.
  fold (stage_layers t'). rewrite Hl. exact Hps.
Qed.

Lemma num_stages_built {NP : NumPy} cls self input_shape output_size net :
  build cls self input_shape output_size = Ok net ->
  exists n, num_conv_layers self input_shape = Ok n /\ num_stages net = Z.to_nat n.
Proof.
  intros Hb. apply graph_of_built in Hb as (n & f' & t' & tl & act & Hn & _ & Hg & Hp & _ & Hpt).
  exists n. split; [assumption|]. unfold num_stages. fold (poolings (graph_of net)).
  rewrite Hg, !poolings_app, Hp, Hpt. cbn. lia.
Qed.

(** C3: a built network has as many stages as the depth computed from the
    input, and the filter counts of its stages (its named convolutions: one
    per stage when plain, two when residual) are the sequence
    [filters[0] = min_filters],
    [filters[i+1] = floor(filters[i] * growth_rate)], each term computed from
    the truncated previous one (for non-negative [min_filters] and growth
    rate); with [min_filters = 16], growth rate 2 and depth 4 the stages
    carry 16, 32, 64, 128.  The iteration is not the closed form: with 3 and
    1.5 the fifth term is 13 where [floor(3 * 1.5^4)] is 15. *)
Theorem filter_sequence_iterative {NP : NumPy} cls self input_shape output_size net :
  0 <= min_filters (hp self) ->
  pynum_nonneg (filter_growth_rate (hp self)) ->
  build cls self input_shape output_size = Ok net ->
  exists n,
    num_conv_layers self input_shape = Ok n /\
    num_stages net = Z.to_nat n /\
    map Ok (named_conv_filters (graph_of net)) =
      flat_map (fun i => repeat (spec_filter (min_filters (hp self))
                                   (filter_growth_rate (hp self)) i)
                                (convs_per_stage cls))
               (seq O (Z.to_nat n)) /\
    (min_filters (hp self) = 16 -> filter_growth_rate (hp self) = PyInt 2 -> n = 4 ->
     named_conv_filters (graph_of net) =
       flat_map (fun f => repeat f (convs_per_stage cls)) [16; 32; 64; 128]) /\
    spec_filter 3 (PyFloat 1.5) 4 = Ok 13 /\
    py_floor_of_float (3 * (1.5 * 1.5 * 1.5 * 1.5))%float = Ok 15.
Proof.
  intros Hf Hg Hb.
  destruct (num_stages_built _ _ _ _ Hb) as (n' & Hn' & Hstages).
  apply graph_of_built in Hb as (n & f' & t' & tl & act & Hn & Hloop & Hgr & Hp & Hct & Hpt).
  rewrite Hn in Hn'. injection Hn' as <-.
  destruct (stages_spec (stage_of_adds cls self) Hg _ _ _ Hf Hloop) as (ls & Hl & Hcs & _).
  cbn [stage_layers Keras.Input Keras.t_node Keras.layers app] in Hl.
  assert (Hseq : map Ok (named_conv_filters (graph_of net)) =
                 flat_map (fun i => repeat (spec_filter (min_filters (hp self))
                                              (filter_growth_rate (hp self)) i)
                                           (convs_per_stage cls))
                          (seq O (Z.to_nat n))).
  { rewrite Hgr. fold (stage_layers t'). rewrite Hl, !named_conv_filters_app, Hct.
    cbn [named_conv_filters flat_map app]. rewrite app_nil_r. exact Hcs. }
  exists n. split; [exact Hn|]. split; [exact Hstages|]. split; [exact Hseq|].
  split; [|split; vm_compute; reflexivity].
  intros Hm16 Hg2 ->. rewrite Hm16, Hg2 in Hseq.
  assert (Hinj : forall a b : list Z, map Ok a = map Ok b -> a = b).
  { induction a as [|x a IH]; intros [|y b] H; try discriminate; [reflexivity|].
    cbn [map] in H. injection H as -> H. f_equal. now apply IH. }
  apply Hinj. rewrite Hseq. destruct cls; reflexivity.
Qed.

Lemma filter_sequence_iterative_witness :
  (exists net,
     @build libm Plain (StandardConvNet.__init__ (with_layout "channels_last" 4))
            [64; 64; 1] 1 = Ok net /\
     num_stages net = 4%nat /\
     named_conv_filters (graph_of net) = [16; 32; 64; 128]) /\
  (exists net,
     @build libm Residual (ResNet.__init__ (with_layout "channels_last" 4))
            [64; 64; 1] 1 = Ok net /\
     num_stages net = 4%nat /\
     named_conv_filters (graph_of net) = [16; 16; 32; 32; 64; 64; 128; 128]).
Proof.
  split.
  - destruct (@build libm Plain (StandardConvNet.__init__ (with_layout "channels_last" 4))
                     [64; 64; 1] 1) as [net|e] eqn:Hb.
    + exists net. split; [reflexivity|].
      destruct (@filter_sequence_iterative libm Plain
                  (StandardConvNet.__init__ (with_layout "channels_last" 4))
                  [64; 64; 1] 1 net) as (n & Hn & Hst & _ & H16 & _);
        [simpl; lia | simpl; lia | exact Hb |].
      vm_compute in Hn. injection Hn as <-.
      split; [exact Hst | exact (H16 eq_refl eq_refl eq_refl)].
    + vm_compute in Hb. discriminate Hb.
  - destruct (@build libm Residual (ResNet.__init__ (with_layout "channels_last" 4))
                     [64; 64; 1] 1) as [net|e] eqn:Hb.
    + exists net. split; [reflexivity|].
      destruct (@filter_sequence_iterative libm Residual
                  (ResNet.__init__ (with_layout "channels_last" 4))
                  [64; 64; 1] 1 net) as (n & Hn & Hst & _ & H16 & _);
        [simpl; lia | simpl; lia | exact Hb |].
      vm_compute in Hn. injection Hn as <-.
      split; [exact Hst | exact (H16 eq_refl eq_refl eq_refl)].
    + vm_compute in Hb. discriminate Hb.
Defined.

(** ** Depth of the network *)

(** C1: with [min_data_width = 7] and a 28x28 input, whose width is 7 * 2^2,
    the builder makes one stage, not two: the difference of the two binary64
    logarithms is just below 2 and [int] truncates it. *)
Theorem depth_undercount_28_7 {NP : NumPy} :
  np_log2 28 = 0x1.33abb3faa0216p+2%float ->
  np_log2 7 = 0x1.675767f54042dp+1%float ->
  28 = 7 * 2 ^ 2 /\
  exists net,
    StandardConvNet.build_network
      (StandardConvNet.__init__ (with_layout "channels_last" 7)) [28; 28; 1] 1 = Ok net /\
    num_stages net = 1%nat.
Proof.
  intros H28 H7. split; [reflexivity|].
  unfold StandardConvNet.build_network, num_conv_layers.
  cbn [tuple_index nth_error rbind StandardConvNet.__init__ hp min_data_width with_layout].
  rewrite H28, H7.
  match goal with
  | |- exists net, ?b = Ok net /\ _ =>
      let v := eval vm_compute in b in
      match v with
      | Ok ?n => exists n; split; [vm_compute; reflexivity | vm_compute; reflexivity]
      end
  end.
Qed.

Lemma depth_undercount_28_7_witness :
  28 = 7 * 2 ^ 2 /\
  exists net,
    @StandardConvNet.build_network libm
      (StandardConvNet.__init__ (with_layout "channels_last" 7)) [28; 28; 1] 1 = Ok net /\
    num_stages net = 1%nat.
Proof.
  apply (@depth_undercount_28_7 libm); reflexivity.
Defined.

(** ** The residual block *)

(** C2: under the default [channels_first] layout the block compares the
    last axis, the image width, with the filter count.  With 3 incoming
    channels, 16 target filters and width 16 it takes the identity shortcut
    and the addition of a 16-channel and a 3-channel tensor is rejected; with
    16 incoming channels, 16 target filters and width 8 it inserts the
    projection although the channel counts agree. *)
Theorem residual_block_channels_first :
  let self := ResNet.__init__ defaults in
  ResNet.residual_block self 16 (Keras.Input [3; 16; 16] "scn_input") 0
    = Raise (ValueError "Operands could not be broadcast together")
  /\ exists out,
       ResNet.residual_block self 16 (Keras.Input [16; 8; 8] "scn_input") 0 = Ok out /\
       filter Keras.is_conv (stage_layers out) =
         [Keras.Conv2D 16 5 "channels_first" None;
          Keras.Conv2D 16 5 "channels_first" (Some "res_conv_00_a");
          Keras.Conv2D 16 5 "channels_first" (Some "res_conv_00_b")].
Proof.
  split; [vm_compute; reflexivity|].
  eexists. split; vm_compute; reflexivity.
Qed.

(** ** Running the drivers *)

Lemma log_log w a b : log (log w a) b = log w (a ++ b).
Proof. unfold log. simpl. now rewrite app_assoc. Qed.

Lemma emit_run e w : Engine.emit e w = (Ok tt, log w [e]).
Proof. reflexivity. Qed.

Lemma with_device_run {A} name (body : Engine.Py A) w :
  Engine.with_device name body w =
    (fst (body (log w [Engine.device_enter name])),
     log (snd (body (log w [Engine.device_enter name]))) [Engine.device_exit name]).
Proof.
  unfold Engine.with_device, bind, finally. rewrite emit_run.
  destruct (body _) as [r w']. reflexivity.
Qed.

Lemma build_model {NP : NumPy} cls self xs ys net :
  build cls self xs ys = Ok net ->
  hp net = hp self /\
  exists inp out, model net = Some {| Keras.net := Keras.Model inp out;
                                      Keras.compiled := None |}.
Proof.
  intros H. apply build_graph in H as (n & f & t' & out & _ & _ & _ & Hhp & Hm). eauto.
Qed.

(** A prepared object holds a compiled, unreplicated model and the
    hyperparameters it started from. *)
Lemma prepare_ok {NP : NumPy} cls self x y self' :
  prepare cls self x y = Ok self' ->
  hp self' = hp self /\
  exists inp out args,
    model self' = Some {| Keras.net := Keras.Model inp out; Keras.compiled := Some args |}.
Proof.
  unfold prepare. intros H. apply rbind_Ok in H. destruct H as ([xs ys] & _ & H).
  apply rbind_Ok in H. destruct H as (net & Hb & H).
  apply build_model in Hb as (Hhp & inp & out & Hm).
  unfold compile_model in H. rewrite Hm in H. injection H as <-.
  split; [exact Hhp|]. cbn. do 3 eexists. reflexivity.
Qed.

Lemma fit_run {NP : NumPy} cls self x y vx vy w :
  StandardConvNet.fit_with (build cls) self x y vx vy true w =
    match prepare cls self x y with
    | Raise e => (Raise e, w)
    | Ok self' =>
        match model self' with
        | Some m =>
            (match Engine.fit_error w with
             | Some e => Raise e
             | None => Ok self'
             end, log w [fit_event self' m x y vx vy])
        | None => (no_model, w)
        end
    end.
Proof.
  unfold StandardConvNet.fit_with, bind, lift. fold (prepare cls self x y).
  destruct (prepare cls self x y) as [self'|e] eqn:Hp; [|reflexivity].
  destruct (prepare_ok _ _ _ _ Hp) as (_ & inp & out & args & Hm).
  rewrite Hm. unfold Engine.fit. cbn [Keras.compiled]. unfold bind. rewrite emit_run.
  unfold get, fit_event, val_data_of. cbn [log Engine.fit_error].
  destruct (Engine.fit_error w); reflexivity.
Qed.

Ltac world_eq :=
  unfold log, no_model; cbn [Engine.trace Engine.fit_error fst snd];
  rewrite <- ?app_assoc; cbn [app]; reflexivity.

Lemma train_conv_net_cpu_run {NP : NumPy} x y vx vy kw num_processors seed w :
  train_conv_net_cpu x y vx vy kw num_processors seed w =
    cpu_outcome x y vx vy kw num_processors seed w.
Proof.
  unfold train_conv_net_cpu, cpu_outcome, bind.
  rewrite !emit_run, with_device_run.
  change (@StandardConvNet.fit NP) with (StandardConvNet.fit_with (build Plain)).
  rewrite fit_run.
  destruct (prepare Plain _ x y) as [s|e]; cbn [fst snd]; [|world_eq].
  destruct (model s) as [m|]; cbn [fst snd]; [|world_eq].
  cbn [log Engine.fit_error].
  destruct (Engine.fit_error w); cbn [fst snd]; rewrite ?emit_run; world_eq.
Qed.

Lemma train_conv_net_gpu_run {NP : NumPy} x y vx vy kw num_gpus seed dtype cr cm w :
  train_conv_net_gpu x y vx vy kw num_gpus seed dtype cr cm w =
    gpu_outcome x y vx vy kw num_gpus seed dtype cr cm w.
Proof.
  unfold train_conv_net_gpu, gpu_outcome, fit_save_close, bind.
  rewrite !emit_run.
  destruct (num_gpus =? 1); [|destruct (1 <? num_gpus)].
  - rewrite with_device_run. unfold bind.
    change (@ResNet.fit NP) with (StandardConvNet.fit_with (build Residual)).
    rewrite fit_run.
    destruct (prepare Residual _ x y) as [s|e]; cbn [fst snd]; [|world_eq].
    destruct (model s) as [m|] eqn:Hm; cbn [fst snd]; [|world_eq].
    cbn [log Engine.fit_error].
    destruct (Engine.fit_error w); cbn [fst snd ret]; [world_eq|].
    unfold ret; cbn [fst snd]. rewrite Hm, !emit_run. world_eq.
  - unfold lift. fold (prepare_replicated
                         (set_batch_size (ResNet.__init__ kw)
                            (batch_size (hp (ResNet.__init__ kw)) * num_gpus))
                         x y num_gpus cm cr).
    cbn [ResNet.__init__ StandardConvNet.__init__ hp].
    destruct (prepare_replicated _ x y num_gpus cm cr) as [scn|e]; [|world_eq].
    change (@ResNet.fit NP) with (StandardConvNet.fit_with (build Residual)).
    rewrite fit_run.
    destruct (prepare Residual scn x y) as [s|e]; cbn [fst snd]; [|world_eq].
    destruct (model s) as [m|] eqn:Hm; cbn [fst snd]; [|world_eq].
    cbn [log Engine.fit_error].
    destruct (Engine.fit_error w); cbn [fst snd ret]; [world_eq|].
    unfold ret; cbn [fst snd]. rewrite Hm, !emit_run. world_eq.
  - unfold ret. rewrite !emit_run. world_eq.
Qed.

Lemma build_core {NP : NumPy} cls self xs ys :
  build cls self xs ys = rbind (core cls self xs ys) (fun m => Ok (set_model self m)).
Proof.
  unfold core. destruct cls; cbn [build stage_of];
    unfold StandardConvNet.build_network, ResNet.build_network;
    (destruct (num_conv_layers self xs) as [n|e]; cbn [rbind]; [|reflexivity]);
    (destruct (for_range n _ _) as [[f' t']|e]; cbn [rbind]; [|reflexivity]);
    (destruct (StandardConvNet.tail self ys t'); reflexivity).
Qed.

Lemma core_norm {NP : NumPy} cls self xs ys :
  core cls self xs ys = core cls (norm self) xs ys.
Proof. destruct cls; reflexivity. Qed.

Lemma graph_result_norm {NP : NumPy} cls self x y :
  graph_result cls self x y = graph_result cls (norm self) x y.
Proof.
  unfold graph_result. destruct (get_data_shapes _ _) as [[xs ys]|e]; [|reflexivity].
  cbn [rbind]. apply core_norm.
Qed.

Lemma prepare_graph {NP : NumPy} cls self x y :
  prepare cls self x y =
    rbind (graph_result cls self x y)
          (fun m => Ok (set_model self (compiled_by self m))).
Proof.
  unfold prepare, graph_result.
  destruct (get_data_shapes _ _) as [[xs ys]|e]; [|reflexivity]. cbn [rbind].
  rewrite build_core. destruct (core cls self xs ys); reflexivity.
Qed.

Lemma prepare_replicated_graph {NP : NumPy} self x y n cm cr :
  prepare_replicated self x y n cm cr =
    rbind (graph_result Residual self x y)
          (fun m => Ok (set_model self
                          (compiled_by self
                             {| Keras.net := Keras.multi_gpu_model (Keras.net m) n cm cr;
                                Keras.compiled := None |}))).
Proof.
  unfold prepare_replicated, graph_result.
  destruct (get_data_shapes _ _) as [[xs ys]|e]; [|reflexivity]. cbn [rbind].
  change (@ResNet.build_network NP) with (build Residual).
  rewrite build_core. destruct (core Residual self xs ys); reflexivity.
Qed.

(** ** What the drivers fit, save and close *)

(** C4: with more than one accelerator the driver does replicate and compile
    the model, but [fit] is then called with [build=True]: it rebuilds the
    network, and every model handed to the engine's training call, and every
    model saved, is an unreplicated one. *)
Theorem multi_gpu_fits_rebuilt_model {NP : NumPy}
        x y vx vy kw num_gpus seed dtype cpu_relocation cpu_merge err :
  1 < num_gpus ->
  let tr := Engine.trace (snd (train_conv_net_gpu x y vx vy kw num_gpus seed dtype
                                 cpu_relocation cpu_merge (Engine.start err))) in
  (forall scn,
      prepare_replicated (set_batch_size (ResNet.__init__ kw) (batch_size kw * num_gpus))
                         x y num_gpus cpu_merge cpu_relocation = Ok scn ->
      exists m, model scn = Some m /\ Keras.is_replicated (Keras.net m) = true) /\
  Forall (fun m => Keras.is_replicated (Keras.net m) = false) (Engine.fitted_models tr) /\
  Forall (fun mp => Keras.is_replicated (Keras.net (fst mp)) = false) (Engine.saved tr).
Proof.
  intros Hn tr. split.
  - intros scn Hs. rewrite prepare_replicated_graph in Hs.
    apply rbind_Ok in Hs. destruct Hs as (m & _ & Hs). injection Hs as <-.
    eexists. split; reflexivity.
  - subst tr. rewrite train_conv_net_gpu_run. unfold gpu_outcome.
    replace (num_gpus =? 1) with false by (symmetry; apply Z.eqb_neq; lia).
    replace (1 <? num_gpus) with true by (symmetry; apply Z.ltb_lt; lia).
    destruct (prepare_replicated _ x y num_gpus cpu_merge cpu_relocation) as [scn|e];
      [|split; constructor].
    unfold fit_save_close.
    destruct (prepare Residual scn x y) as [s|e] eqn:Hp; [|split; constructor].
    destruct (prepare_ok _ _ _ _ Hp) as (_ & inp & out & args & Hm). rewrite Hm.
    cbn [log Engine.fit_error Engine.start].
    destruct err; cbn; split; repeat constructor.
Qed.

Lemma multi_gpu_fits_rebuilt_model_witness :
  let tr := Engine.trace (snd (@train_conv_net_gpu libm images labels None None
                                 (with_layout "channels_last" 4) 2 1 "float32"
                                 false false (Engine.start None))) in
  List.length (Engine.fitted_models tr) = 1%nat /\
  Forall (fun m => Keras.is_replicated (Keras.net m) = false) (Engine.fitted_models tr).
Proof.
  split.
  - vm_compute. reflexivity.
  - apply (@multi_gpu_fits_rebuilt_model libm images labels None None
             (with_layout "channels_last" 4) 2 1 "float32" false false None).
    lia.
Defined.

(** C5: on training data for which the residual network can be built, the
    accelerator driver makes exactly one training call with one device and
    exactly one with two; run from the same inputs, the call with two
    devices is handed twice the batch size of the call with one: the
    configured size with one device, its double with two. *)
Theorem two_gpus_double_batch {NP : NumPy}
        x y vx vy kw seed dtype cpu_relocation cpu_merge err x_shape y_size :
  get_data_shapes (map Z.of_nat (np.shape x)) (map Z.of_nat (np.shape y))
    = Ok (x_shape, y_size) ->
  is_ok (ResNet.build_network (ResNet.__init__ kw) x_shape y_size) = true ->
  let tr1 := Engine.trace (snd (train_conv_net_gpu x y vx vy kw 1 seed dtype
                                  cpu_relocation cpu_merge (Engine.start err))) in
  let tr2 := Engine.trace (snd (train_conv_net_gpu x y vx vy kw 2 seed dtype
                                  cpu_relocation cpu_merge (Engine.start err))) in
  Engine.fit_batches tr1 = [batch_size kw] /\
  Engine.fit_batches tr2 = [batch_size kw * 2] /\
  Engine.fit_batches tr2 = map (Z.mul 2) (Engine.fit_batches tr1).
Proof.
  intros Hshapes Hbuild tr1 tr2.
  assert (Hg : exists m, graph_result Residual (norm (ResNet.__init__ kw)) x y = Ok m).
  { rewrite <- graph_result_norm. unfold graph_result. rewrite Hshapes. cbn [rbind].
    change (ResNet.build_network (ResNet.__init__ kw) x_shape y_size)
      with (build Residual (ResNet.__init__ kw) x_shape y_size) in Hbuild.
    rewrite build_core in Hbuild.
    destruct (core Residual (ResNet.__init__ kw) x_shape y_size) as [m|e];
      [eauto | discriminate Hbuild]. }
  destruct Hg as (m & Hg).
  subst tr1 tr2. rewrite !train_conv_net_gpu_run.
  unfold gpu_outcome, fit_save_close. cbn [Z.eqb Z.ltb Z.compare Pos.compare Pos.compare_cont].
  rewrite prepare_replicated_graph, !prepare_graph.
  rewrite (graph_result_norm Residual (ResNet.__init__ kw)).
  rewrite (graph_result_norm Residual (set_batch_size _ _)).
  change (norm (set_batch_size (ResNet.__init__ kw) (batch_size kw * 2)))
    with (norm (ResNet.__init__ kw)).
  rewrite Hg. cbn [rbind].
  rewrite prepare_graph, graph_result_norm.
  change (norm (set_model _ _)) with (norm (ResNet.__init__ kw)).
  rewrite Hg. cbn [rbind set_model model].
  cbn [log Engine.fit_error Engine.start Engine.trace].
  destruct err; cbn -[Z.mul]; (split; [reflexivity|]; split; [reflexivity|]; f_equal; lia).
Qed.

Lemma two_gpus_double_batch_witness :
  let run n := Engine.fit_batches
                 (Engine.trace (snd (@train_conv_net_gpu libm images labels None None
                                       (with_layout "channels_last" 4) n 1 "float32"
                                       false false (Engine.start None)))) in
  run 1 = [256] /\ run 2 = [512].
Proof.
  intros run.
  destruct (@two_gpus_double_batch libm images labels None None
              (with_layout "channels_last" 4) 1 "float32" false false None
              [16; 16; 3] 1) as (H1 & H2 & _).
  - reflexivity.
  - vm_compute. reflexivity.
  - split; [exact H1 | exact H2].
Defined.

(** C6, as amended: each driver closes the session exactly when it returns
    normally; when training (or anything before the close) raises, the
    exception leaves the driver with the session still open. *)
Theorem session_closed_iff_normal_return {NP : NumPy}
        x y vx vy kw num_processors num_gpus seed dtype cpu_relocation cpu_merge err :
  let cpu := train_conv_net_cpu x y vx vy kw num_processors seed (Engine.start err) in
  let gpu := train_conv_net_gpu x y vx vy kw num_gpus seed dtype
                                cpu_relocation cpu_merge (Engine.start err) in
  existsb Engine.is_close (Engine.trace (snd cpu)) = is_ok (fst cpu) /\
  existsb Engine.is_close (Engine.trace (snd gpu)) = is_ok (fst gpu).
Proof.
  intros cpu gpu. subst cpu gpu.
  rewrite train_conv_net_cpu_run, train_conv_net_gpu_run.
  unfold cpu_outcome, gpu_outcome, fit_save_close, no_model. split.
  - destruct (prepare Plain _ x y) as [s|e]; [|reflexivity].
    destruct (model s); [|reflexivity].
    destruct err; reflexivity.
  - destruct (num_gpus =? 1); [|destruct (1 <? num_gpus)].
    + destruct (prepare Residual _ x y) as [s|e]; [|reflexivity].
      destruct (model s); [|reflexivity].
      destruct err; reflexivity.
    + destruct (prepare_replicated _ x y num_gpus cpu_merge cpu_relocation) as [scn|e];
        [|reflexivity].
      destruct (prepare Residual scn x y) as [s|e]; [|reflexivity].
      destruct (model s); [|reflexivity].
      destruct err; reflexivity.
    + reflexivity.
Qed.

(** C6, the claim as stated fails: on training data of rank 3 [fit] raises
    inside the single-device driver, and on an engine failure inside the
    accelerator driver; neither run closes the session (the device scope of
    the first is left, its session is not). *)
Lemma session_left_open_on_error :
  let cpu := @train_conv_net_cpu libm flat_images labels None None
               (with_layout "channels_last" 4) 2 1 (Engine.start None) in
  let gpu := @train_conv_net_gpu libm images labels None None
               (with_layout "channels_last" 4) 1 1 "float32" false false
               (Engine.start (Some (RuntimeError "OOM when allocating tensor"))) in
  (fst cpu = Raise (ValueError "Input data does not have dimensions (examples, y, x, predictor)") /\
   existsb Engine.is_close (Engine.trace (snd cpu)) = false /\
   In (Engine.device_exit "/cpu:0") (Engine.trace (snd cpu))) /\
  (fst gpu = Raise (RuntimeError "OOM when allocating tensor") /\
   existsb Engine.is_close (Engine.trace (snd gpu)) = false).
Proof.
  vm_compute. repeat split. do 5 right. left. reflexivity.
Qed.

Lemma format_02d_two_digits k : 0 <= k <= 99 -> format_02d k = two_digits k.
Proof.
  intros Hk.
  assert (Hall : forallb (fun n => (format_02d (Z.of_nat n) =? two_digits (Z.of_nat n))%string)
                         (seq O 100) = true) by (vm_compute; reflexivity).
  rewrite forallb_forall in Hall.
  specialize (Hall (Z.to_nat k)). rewrite Z2Nat.id in Hall by lia.
  apply String.eqb_eq, Hall, in_seq. lia.
Qed.

(** C7, as amended: the accelerator driver saves exactly when it trained a
    model (one device or more) and training returned: then it saves the model
    it fitted, once, under [goes16_resnet_gpus_NN.h5] with [NN] the device
    count on two digits (for counts below 100); with no accelerator it fits
    and saves nothing.  The single-device driver never saves. *)
Theorem gpu_driver_saves_fitted_model {NP : NumPy}
        x y vx vy kw num_processors num_gpus seed dtype cpu_relocation cpu_merge err :
  let cpu := train_conv_net_cpu x y vx vy kw num_processors seed (Engine.start err) in
  let gpu := train_conv_net_gpu x y vx vy kw num_gpus seed dtype
                                cpu_relocation cpu_merge (Engine.start err) in
  let tr := Engine.trace (snd gpu) in
  Engine.saved tr =
    (if (1 <=? num_gpus) && is_ok (fst gpu)
     then map (fun m => (m, model_path num_gpus)) (Engine.fitted_models tr)
     else []) /\
  ((1 <=? num_gpus) && is_ok (fst gpu) = true ->
   List.length (Engine.fitted_models tr) = 1%nat) /\
  (num_gpus <= 0 -> Engine.fitted_models tr = []) /\
  (1 <= num_gpus <= 99 ->
   model_path num_gpus = "goes16_resnet_gpus_" ++ two_digits num_gpus ++ ".h5") /\
  Engine.saved (Engine.trace (snd cpu)) = [].
Proof.
  intros cpu gpu tr. subst cpu gpu tr.
  rewrite train_conv_net_cpu_run, train_conv_net_gpu_run.
  split; [|split; [|split; [|split]]].
  - unfold gpu_outcome, fit_save_close, no_model.
    destruct (Z.eqb_spec num_gpus 1) as [->|Hne].
    + destruct (prepare Residual _ x y) as [s|e]; [|reflexivity].
      destruct (model s); [|reflexivity].
      destruct err; reflexivity.
    + destruct (Z.ltb_spec 1 num_gpus) as [Hlt|Hge].
      * replace (1 <=? num_gpus) with true by (symmetry; apply Z.leb_le; lia).
        destruct (prepare_replicated _ x y num_gpus cpu_merge cpu_relocation) as [scn|e];
          [|reflexivity].
        destruct (prepare Residual scn x y) as [s|e]; [|reflexivity].
        destruct (model s); [|reflexivity].
        destruct err; reflexivity.
      * replace (1 <=? num_gpus) with false by (symmetry; apply Z.leb_gt; lia).
        reflexivity.
  - unfold gpu_outcome, fit_save_close, no_model.
    destruct (Z.eqb_spec num_gpus 1) as [->|Hne].
    + destruct (prepare Residual _ x y) as [s|e]; [|discriminate].
      destruct (model s); [|discriminate].
      destruct err; [discriminate | reflexivity].
    + destruct (Z.ltb_spec 1 num_gpus) as [Hlt|Hge].
      * destruct (prepare_replicated _ x y num_gpus cpu_merge cpu_relocation) as [scn|e];
          [|rewrite andb_false_r; discriminate].
        destruct (prepare Residual scn x y) as [s|e]; [|rewrite andb_false_r; discriminate].
        destruct (model s); [|rewrite andb_false_r; discriminate].
        destruct err; [rewrite andb_false_r; discriminate | reflexivity].
      * replace (1 <=? num_gpus) with false by (symmetry; apply Z.leb_gt; lia).
        discriminate.
  - intros Hz. unfold gpu_outcome.
    replace (num_gpus =? 1) with false by (symmetry; apply Z.eqb_neq; lia).
    replace (1 <? num_gpus) with false by (symmetry; apply Z.ltb_ge; lia).
    reflexivity.
  - intros Hn. unfold model_path. rewrite format_02d_two_digits by lia. reflexivity.
  - unfold cpu_outcome, no_model.
    destruct (prepare Plain _ x y) as [s|e]; [|reflexivity].
    destruct (model s); [|reflexivity].
    destruct err; reflexivity.
Qed.

Lemma gpu_driver_saves_fitted_model_witness :
  let gpu := @train_conv_net_gpu libm images labels None None
               (with_layout "channels_last" 4) 2 1 "float32" false false
               (Engine.start None) in
  let tr := Engine.trace (snd gpu) in
  map snd (Engine.saved tr) = ["goes16_resnet_gpus_02.h5"] /\
  List.length (Engine.fitted_models tr) = 1%nat.
Proof.
  destruct (@gpu_driver_saves_fitted_model libm images labels None None
              (with_layout "channels_last" 4) 2 2 1 "float32" false false None)
    as (Hsaved & Hlen & _).
  split.
  - vm_compute. reflexivity.
  - apply Hlen. vm_compute. reflexivity.
Defined.

(** C7, the claim as stated fails: on well-formed data the single-device
    driver trains a model and returns, and saves nothing. *)
Lemma cpu_driver_saves_nothing :
  let cpu := @train_conv_net_cpu libm images labels None None
               (with_layout "channels_last" 4) 2 1 (Engine.start None) in
  fst cpu = Ok tt /\
  List.length (Engine.fitted_models (Engine.trace (snd cpu))) = 1%nat /\
  Engine.saved (Engine.trace (snd cpu)) = [].
Proof. vm_compute. repeat split. Qed.

(** ** Arrays *)

Lemma length_imap_from {A B} (f : nat -> A -> B) l i :
  List.length (np.imap_from i f l) = List.length l.
Proof. revert i. induction l as [|a l IH]; intros i; simpl; [reflexivity | now rewrite IH]. Qed.

Lemma nth_imap_from {A B} (f : nat -> A -> B) l i p d d' :
  (p < List.length l)%nat ->
  nth p (np.imap_from i f l) d = f (i + p)%nat (nth p l d').
Proof.
  revert i p. induction l as [|a l IH]; intros i p Hp; simpl in Hp; [lia|].
  destruct p as [|p]; simpl.
  - now rewrite Nat.add_0_r.
  - rewrite IH by lia. f_equal. lia.
Qed.

Lemma length_assign1 dst v rhs :
  List.length (np.data (np.assign1 dst v rhs)) = List.length (np.data dst).
Proof. apply length_imap_from. Qed.

Lemma at_assign1 dst v rhs p :
  (p < List.length (np.data dst))%nat ->
  np.at_ (np.assign1 dst v rhs) p =
    if (np.var_of (np.shape dst) p =? v)%nat
    then np.store (np.dtype_of dst) (rhs p) else np.at_ dst p.
Proof.
  intros Hp. unfold np.at_, np.assign1, np.imap. cbn [np.data].
  now rewrite (nth_imap_from _ _ O (PyInt 0) (PyInt 0) Hp).
Qed.

Lemma at_zeros sh d p :
  (p < np.size_of sh)%nat -> np.at_ (np.zeros sh d) p = np.zero d.
Proof.
  intros Hp. unfold np.at_, np.zeros. cbn [np.data]. apply nth_repeat_lt. exact Hp.
Qed.

(** What is assigned to an array has the dtype of the array. *)
Lemma store_has_dtype d a : np.has_dtype d (np.store d a).
Proof.
  destruct d, a as [z|f]; cbn [np.store np.has_dtype]; try exact I.
  - unfold np.wrap64, np.int64_min, np.int64_max.
    pose proof (Z.mod_pos_bound (z + 2 ^ 63) (2 ^ 64) ltac:(lia)). lia.
  - unfold np.cast_int64, np.truncate.
    destruct (Prim2SF f) as [sg|sg| |sg m e];
      try (unfold np.int64_min, np.int64_max; lia).
    cbv zeta. destruct (_ && _) eqn:Hr; [|unfold np.int64_min, np.int64_max; lia].
    apply andb_true_iff in Hr as [H1 H2]. apply Z.leb_le in H1, H2. lia.
Qed.

Lemma zero_has_dtype d : np.has_dtype d (np.zero d).
Proof. destruct d; cbn; [exact I | unfold np.int64_min, np.int64_max; lia]. Qed.



(** ** The scaler: what [fit] leaves and what [transform] returns *)

Import MinMaxScaler2D.

Lemma length_update_nth {A} n (f : A -> A) l :
  List.length (update_nth n f l) = List.length l.
Proof.
  revert n. induction l as [|a l IH]; intros [|n]; simpl; try reflexivity.
  now rewrite IH.
Qed.

Lemma nth_error_update_nth_eq {A} n (f : A -> A) l a :
  nth_error l n = Some a -> nth_error (update_nth n f l) n = Some (f a).
Proof.
  revert n. induction l as [|b l IH]; intros [|n]; simpl; try discriminate.
  - now intros [= ->].
  - apply IH.
Qed.

Lemma nth_error_update_nth_neq {A} n m (f : A -> A) l :
  n <> m -> nth_error (update_nth n f l) m = nth_error l m.
Proof.
  revert n m. induction l as [|b l IH]; intros [|n] [|m] Hne; simpl; try reflexivity.
  - congruence.
  - apply IH. congruence.
Qed.

Lemma update_nth_twice {A} n (f g : A -> A) l :
  update_nth n g (update_nth n f l) = update_nth n (fun a => g (f a)) l.
Proof.
  revert n. induction l as [|b l IH]; intros [|n]; simpl; try reflexivity.
  now rewrite IH.
Qed.

(** One turn of the loop of [fit]. *)
Lemma fit_turn x v self self' lo hi rg rows r0 :
  self = {| out_min := lo; out_max := hi; out_range := rg; scale_values := Some rows |} ->
  nth_error rows v = Some r0 ->
  (mn <- lift (np.min (np.take1 x v)) ;;
   loc_set v (fun r => {| r_min := mn; r_max := r_max r; r_range := r_range r |}) ;;
   mx <- lift (np.max (np.take1 x v)) ;;
   loc_set v (fun r => {| r_min := r_min r; r_max := mx; r_range := r_range r |}) ;;
   r <- loc v ;;
   loc_set v (fun r' => {| r_min := r_min r'; r_max := r_max r';
                           r_range := Some (np.store np.float_ (np.sub (r_max r) (r_min r))) |}))%py self
  = (Ok tt, self') ->
  exists mn mx,
    np.min (np.take1 x v) = Ok mn /\ np.max (np.take1 x v) = Ok mx /\
    self' = {| out_min := lo; out_max := hi; out_range := rg;
               scale_values :=
                 Some (update_nth v (fun _ => {| r_min := mn; r_max := mx;
                                                 r_range := Some (np.store np.float_ (np.sub mx mn)) |}) rows) |}.
Proof.
  intros -> Hr0.
  cbv beta iota zeta delta [bind lift loc_set loc frame get set_scale_values ret raise
                            scale_values out_min out_max out_range].
  destruct (np.min (np.take1 x v)) as [mn|e]; [|discriminate].
  destruct (np.max (np.take1 x v)) as [mx|e]; [|discriminate].
  rewrite update_nth_twice.
  rewrite (nth_error_update_nth_eq _ _ _ Hr0).
  rewrite update_nth_twice. cbn [r_min r_max]. intros [= <-].
  exists mn, mx. repeat split.
Qed.

Lemma for_each_seq {St} (I : nat -> St -> Prop) (body : nat -> M St unit) bound :
  (forall k s s', (k < bound)%nat -> I k s -> body k s = (Ok tt, s') -> I (S k) s') ->
  forall n a s s',
    (a + n <= bound)%nat -> I a s ->
    for_each (seq a n) body s = (Ok tt, s') -> I (a + n)%nat s'.
Proof.
  intros Hstep. induction n as [|n IH]; intros a s s' Hb Ha H.
  - injection H as <-. now rewrite Nat.add_0_r.
  - cbn [seq for_each] in H. unfold bind in H.
    destruct (body a s) as [[[]|e] s1] eqn:Hbody; [|discriminate].
    replace (a + S n)%nat with (S a + n)%nat by lia.
    apply (IH (S a) s1); [lia | | exact H].
    apply (Hstep a s); [lia | exact Ha | exact Hbody].
Qed.

(** A successful [fit] keeps the output range and leaves the fitted frame. *)
Lemma fit_spec x self self' :
  fit x self = (Ok tt, self') ->
  exists rows,
    self' = {| out_min := out_min self; out_max := out_max self;
               out_range := out_range self; scale_values := Some rows |} /\
    fitted_frame x rows.
Proof.
  unfold fit. intros H. unfold bind at 1 in H. unfold lift at 1 in H.
  destruct (np.shape1 x) as [n|e] eqn:Hn; [|discriminate].
  unfold bind at 1 in H. unfold set_scale_values at 1 in H.
  set (I := fun (k : nat) (s : t) =>
              exists rows,
                s = {| out_min := out_min self; out_max := out_max self;
                       out_range := out_range self; scale_values := Some rows |} /\
                List.length rows = n /\
                forall v, (v < k)%nat ->
                          exists r, nth_error rows v = Some r /\ fitted_row x v r).
  assert (HI : I (0 + n)%nat self').
  { eapply (for_each_seq I _ (bound := n)); [| | | exact H]; [|lia|].
    - intros k s s' Hk (rows & -> & Hlen & Hrows) Hbody.
      destruct (nth_error rows k) as [r0|] eqn:Hr0;
        [|apply nth_error_None in Hr0; lia].
      destruct (fit_turn x k eq_refl Hr0 Hbody) as (mn & mx & Hmn & Hmx & ->).
      eexists. split; [reflexivity|]. split; [now rewrite length_update_nth|].
      intros v Hv. destruct (Nat.eq_dec v k) as [->|Hne].
      + eexists. split; [apply (nth_error_update_nth_eq _ _ _ Hr0)|].
        exists mn, mx. auto.
      + rewrite nth_error_update_nth_neq by congruence. apply Hrows. lia.
    - eexists. split; [reflexivity|]. split; [apply repeat_length|]. intros v Hv. lia. }
  destruct HI as (rows & -> & Hlen & Hrows). exists rows. split; [reflexivity|].
  unfold fitted_frame. rewrite Hlen. split; [exact Hn | exact Hrows].
Qed.

Lemma fitted_frame_ranged x rows : fitted_frame x rows -> ranged rows.
Proof.
  intros [_ Hrows] r Hin. apply In_nth_error in Hin as [v Hv].
  assert (Hlt : (v < List.length rows)%nat) by (apply nth_error_Some; congruence).
  destruct (Hrows v Hlt) as (r' & Hr' & mn & mx & -> & _).
  rewrite Hv in Hr'. injection Hr' as ->. discriminate.
Qed.

(** ** [transform] *)

Lemma transform_var_run x v acc self rows r rg :
  scale_values self = Some rows -> nth_error rows v = Some r -> r_range r = Some rg ->
  transform_var x v acc self = (Ok (scale_slice self x v r rg acc), self).
Proof.
  intros Hs Hr Hrg.
  cbv beta iota zeta delta [transform_var bind loc frame get ret raise].
  rewrite Hs, Hr, Hrg. reflexivity.
Qed.

Lemma for_fold_seq {St B} (J : nat -> B -> Prop) (body : nat -> B -> M St B) s bound :
  (forall k acc, (k < bound)%nat -> J k acc ->
                 exists acc', body k acc s = (Ok acc', s) /\ J (S k) acc') ->
  forall n a acc,
    (a + n <= bound)%nat -> J a acc ->
    exists acc', for_fold (seq a n) body acc s = (Ok acc', s) /\ J (a + n)%nat acc'.
Proof.
  intros Hstep. induction n as [|n IH]; intros a acc Hb Ha.
  - exists acc. rewrite Nat.add_0_r. split; [reflexivity | exact Ha].
  - cbn [seq for_fold]. unfold bind.
    destruct (Hstep a acc) as (acc1 & Hbody & H1); [lia | exact Ha |].
    rewrite Hbody. replace (a + S n)%nat with (S a + n)%nat by lia.
    apply IH; [lia | exact H1].
Qed.

Lemma var_of_lt sh n p :
  tuple_index sh 1 = Ok n -> (p < np.size_of sh)%nat -> (np.var_of sh p < n)%nat.
Proof.
  destruct sh as [|a [|m rest]]; try discriminate. cbn. intros [= ->] Hp.
  unfold np.var_of. cbn [nth].
  destruct n as [|n]; [rewrite Nat.mul_0_r in Hp; lia|].
  apply Nat.mod_upper_bound. lia.
Qed.

Lemma scale_slice_shape self x v r rg acc :
  np.shape (scale_slice self x v r rg acc) = np.shape acc /\
  np.dtype_of (scale_slice self x v r rg acc) = np.dtype_of acc /\
  List.length (np.data (scale_slice self x v r rg acc)) = List.length (np.data acc).
Proof.
  unfold scale_slice. destruct (rescales self); cbn [np.assign1 np.shape np.dtype_of];
    rewrite ?length_assign1; auto.
Qed.

Lemma at_scale_slice self x v r rg acc p :
  (p < List.length (np.data acc))%nat ->
  np.at_ (scale_slice self x v r rg acc) p =
    if (np.var_of (np.shape acc) p =? v)%nat
    then scaled_value self (np.dtype_of acc) r rg (np.at_ x p)
    else np.at_ acc p.
Proof.
  intros Hp. unfold scale_slice, scaled_value, quotient, np.truediv.
  destruct (rescales self).
  - rewrite at_assign1 by (now rewrite length_assign1).
    cbn [np.assign1 np.shape np.dtype_of].
    rewrite (at_assign1 acc) by exact Hp.
    destruct (_ =? _)%nat; reflexivity.
  - now rewrite at_assign1.
Qed.

Lemma transform_reject x self rows n :
  scale_values self = Some rows -> np.shape1 x = Ok n -> n <> List.length rows ->
  transform x self =
    (Raise (ValueError "Input x does not have the correct number of variables"), self).
Proof.
  intros Hs Hn Hne.
  cbv beta iota zeta delta [transform bind lift frame get ret raise].
  rewrite Hn, Hs. apply Nat.eqb_neq in Hne. rewrite Hne. reflexivity.
Qed.

Lemma transform_ok x self rows :
  scale_values self = Some rows -> ranged rows ->
  np.shape1 x = Ok (List.length rows) ->
  exists x_new,
    transform x self = (Ok x_new, self) /\
    np.shape x_new = np.shape x /\
    np.dtype_of x_new = np.dtype_of x /\
    List.length (np.data x_new) = np.size_of (np.shape x) /\
    forall p, (p < np.size_of (np.shape x))%nat -> np.at_ x_new p = expected self x rows p.
Proof.
  intros Hs Hranged Hn.
  cbv beta iota zeta delta [transform bind lift frame get ret raise].
  rewrite Hn, Hs, Nat.eqb_refl. cbn [negb].
  set (J := fun (k : nat) (acc : np.ndarray) =>
              np.shape acc = np.shape x /\
              np.dtype_of acc = np.dtype_of x /\
              List.length (np.data acc) = np.size_of (np.shape x) /\
              forall p, (p < np.size_of (np.shape x))%nat ->
                        np.at_ acc p =
                          if (np.var_of (np.shape x) p <? k)%nat
                          then expected self x rows p else np.zero (np.dtype_of x)).
  assert (Hloop : exists acc',
             for_fold (seq O (List.length rows)) (transform_var x)
                      (np.zeros (np.shape x) (np.dtype_of x)) self = (Ok acc', self) /\
             J (0 + List.length rows)%nat acc');
    [apply (@for_fold_seq t np.ndarray J (transform_var x) self (List.length rows))|].
  - intros k acc Hk (Hsh & Hdt & Hlen & Hat).
    destruct (nth_error rows k) as [r|] eqn:Hr; [|apply nth_error_None in Hr; lia].
    destruct (r_range r) as [rg|] eqn:Hrg;
      [|exfalso; apply (Hranged r); [eapply nth_error_In; eassumption | exact Hrg]].
    exists (scale_slice self x k r rg acc).
    split; [eapply transform_var_run; eassumption|].
    destruct (scale_slice_shape self x k r rg acc) as (Hsh' & Hdt' & Hlen').
    split; [congruence|]. split; [congruence|]. split; [congruence|].
    intros p Hp. rewrite at_scale_slice by lia. rewrite Hsh, Hdt.
    destruct (Nat.eqb_spec (np.var_of (np.shape x) p) k) as [Hv|Hv].
    + replace (np.var_of (np.shape x) p <? S k)%nat with true
        by (symmetry; apply Nat.ltb_lt; lia).
      unfold expected. rewrite Hv, Hr, Hrg. reflexivity.
    + rewrite (Hat p Hp).
      destruct (Nat.ltb_spec (np.var_of (np.shape x) p) k);
        destruct (Nat.ltb_spec (np.var_of (np.shape x) p) (S k)); try lia; reflexivity.
  - lia.
  - unfold J. cbn [np.zeros np.shape np.dtype_of np.data].
    split; [reflexivity|]. split; [reflexivity|]. split; [apply repeat_length|].
    intros p Hp. rewrite at_zeros by exact Hp. reflexivity.
  - destruct Hloop as (x_new & Hrun & Hsh & Hdt & Hlen & Hat).
    exists x_new. split; [exact Hrun|]. repeat split; try assumption.
    intros p Hp. rewrite (Hat p Hp). cbn [Nat.add].
    replace (np.var_of (np.shape x) p <? List.length rows)%nat with true; [reflexivity|].
    symmetry. apply Nat.ltb_lt. apply var_of_lt; assumption.
Qed.

(** C9: on a fitted scaler, and for input that has a variable axis,
    [transform] raises its ValueError exactly when the size of that axis
    differs from the number of fitted variables; it then returns no array,
    and in every case leaves the scaler as it was. *)
Theorem transform_rejects_iff_mismatch x0 self0 self x n :
  fit x0 self0 = (Ok tt, self) ->
  np.shape1 x = Ok n ->
  exists fitted,
    np.shape1 x0 = Ok fitted /\
    (is_ValueError (fst (transform x self)) = true <-> n <> fitted) /\
    (n <> fitted ->
     fst (transform x self) =
       Raise (ValueError "Input x does not have the correct number of variables")) /\
    (n = fitted -> exists x_new, fst (transform x self) = Ok x_new) /\
    snd (transform x self) = self.
Proof.
  intros Hfit Hn. apply fit_spec in Hfit as (rows & Hself & Hframe).
  assert (Hs : scale_values self = Some rows) by (rewrite Hself; reflexivity).
  exists (List.length rows). split; [apply Hframe|].
  destruct (Nat.eq_dec n (List.length rows)) as [Heq|Hne].
  - subst n.
    destruct (@transform_ok x self rows Hs (fitted_frame_ranged Hframe) Hn)
      as (x_new & Hrun & _).
    rewrite Hrun. cbn [fst snd is_ValueError].
    repeat split; try congruence; eauto.
  - rewrite (@transform_reject x self rows n Hs Hn Hne). cbn [fst snd is_ValueError].
    repeat split; try congruence; eauto.
Qed.

Lemma transform_rejects_iff_mismatch_witness :
  let x0 := float_sample in
  let x := np.zeros [1; 3; 1; 1]%nat np.float_ in
  exists self,
    fit x0 default_scaler = (Ok tt, self) /\
    is_ValueError (fst (transform x self)) = true /\
    snd (transform x self) = self.
Proof.
  intros x0 x.
  destruct (fit x0 default_scaler) as [[[]|e] self] eqn:Hfit.
  - exists self. split; [reflexivity|].
    destruct (@transform_rejects_iff_mismatch x0 _ self x 3%nat Hfit eq_refl)
      as (fitted & Hf & Hiff & _ & _ & Hstate).
    split; [|exact Hstate].
    apply Hiff. vm_compute in Hf. injection Hf as <-. lia.
  - vm_compute in Hfit. discriminate Hfit.
Defined.


(** ** Values of the scaled array *)










(** ** [transform] on the store *)

Lemma update_nth_last {A} (h : list A) a (f : A -> A) :
  update_nth (List.length h) f (h ++ [a]) = (h ++ [f a])%list.
Proof. induction h as [|b h IH]; simpl; [reflexivity | now rewrite IH]. Qed.

Lemma deref_old self h acc rx x :
  nth_error h rx = Some x ->
  InStore.deref rx (self, (h ++ [acc])%list) = (Ok x, (self, (h ++ [acc])%list)).
Proof.
  intros Hx. unfold InStore.deref. cbn [snd].
  rewrite nth_error_app1 by (apply nth_error_Some; congruence). now rewrite Hx.
Qed.

Lemma deref_last self h acc :
  InStore.deref (List.length h) (self, (h ++ [acc])%list)
    = (Ok acc, (self, (h ++ [acc])%list)).
Proof.
  unfold InStore.deref. cbn [snd].
  rewrite nth_error_app2, Nat.sub_diag by lia. reflexivity.
Qed.

Lemma assign1_last self h acc v rhs :
  InStore.assign1 (List.length h) v rhs (self, (h ++ [acc])%list)
    = (Ok tt, (self, (h ++ [np.assign1 acc v rhs])%list)).
Proof.
  unfold InStore.assign1, bind. rewrite deref_last. cbn [fst snd].
  now rewrite update_nth_last.
Qed.

(** One turn of the loop on the store does to the array of [x_new] what the
    turn on values does to the local. *)
Lemma store_turn self h acc rx x rows v r rg :
  nth_error h rx = Some x ->
  scale_values self = Some rows -> nth_error rows v = Some r -> r_range r = Some rg ->
  InStore.transform_var rx (List.length h) v (self, (h ++ [acc])%list)
    = (Ok tt, (self, (h ++ [scale_slice self x v r rg acc])%list)).
Proof.
  intros Hx Hs Hr Hrg.
  assert (Hold : forall a, nth_error (h ++ [a]) rx = Some x)
    by (intros a; rewrite nth_error_app1 by (apply nth_error_Some; congruence); exact Hx).
  assert (Hnew : forall a, nth_error (h ++ [a]) (List.length h) = Some a)
    by (intros a; rewrite nth_error_app2, Nat.sub_diag by lia; reflexivity).
  cbv beta iota zeta delta [InStore.transform_var InStore.on_self InStore.deref
                            InStore.assign1 loc frame bind get ret raise fst snd].
  rewrite Hs. cbv beta iota. rewrite Hr. cbv beta iota. rewrite Hrg. cbv beta iota.
  rewrite Hold. cbv beta iota. rewrite Hnew. cbv beta iota.
  rewrite update_nth_last. unfold scale_slice.
  destruct (rescales self); [|reflexivity].
  repeat (rewrite ?Hnew, ?update_nth_last; cbv beta iota). reflexivity.
Qed.

Lemma store_loop self h rx x rows :
  nth_error h rx = Some x ->
  scale_values self = Some rows -> ranged rows ->
  forall n a acc acc',
    (a + n <= List.length rows)%nat ->
    for_fold (seq a n) (transform_var x) acc self = (Ok acc', self) ->
    for_each (seq a n) (InStore.transform_var rx (List.length h))
             (self, (h ++ [acc])%list)
      = (Ok tt, (self, (h ++ [acc'])%list)).
Proof.
  intros Hx Hs Hranged. induction n as [|n IH]; intros a acc acc' Hb Hfold.
  - cbn in Hfold. injection Hfold as <-. reflexivity.
  - cbn [seq for_fold for_each] in *. unfold bind in *.
    destruct (nth_error rows a) as [r|] eqn:Hr; [|apply nth_error_None in Hr; lia].
    destruct (r_range r) as [rg|] eqn:Hrg;
      [|exfalso; apply (Hranged r); [eapply nth_error_In; eassumption | exact Hrg]].
    rewrite (@transform_var_run x a acc self rows r rg Hs Hr Hrg) in Hfold.
    rewrite (@store_turn self h acc rx x rows a r rg Hx Hs Hr Hrg).
    apply IH; [lia | exact Hfold].
Qed.

(** On the store [transform] allocates one array, the result, and writes
    nothing else: the arrays that were there, [x] among them, are as they
    were, and the new array is the one [transform] computes on values. *)
Lemma store_transform_run self h rx x rows x_new :
  nth_error h rx = Some x ->
  scale_values self = Some rows -> ranged rows ->
  np.shape1 x = Ok (List.length rows) ->
  transform x self = (Ok x_new, self) ->
  InStore.transform rx (self, h) = (Ok (List.length h), (self, (h ++ [x_new])%list)).
Proof.
  intros Hx Hs Hranged Hn Hrun.
  cbv beta iota zeta delta [transform bind lift frame get ret raise] in Hrun.
  rewrite Hn, Hs, Nat.eqb_refl in Hrun. cbn [negb] in Hrun.
  cbv beta iota zeta delta [InStore.transform InStore.on_self InStore.deref InStore.alloc
                            lift frame bind get ret raise fst snd].
  rewrite Hx. cbv beta iota. rewrite Hn. cbv beta iota. rewrite Hs. cbv beta iota.
  rewrite Nat.eqb_refl. cbn [negb].
  rewrite (@store_loop self h rx x rows Hx Hs Hranged (List.length rows) O _ _ (Nat.le_refl _) Hrun).
  reflexivity.
Qed.

(** C10: on a fitted scaler whose output range is given by numbers numpy
    takes as scalars, and input with as many variables as were fitted,
    [transform] returns a newly allocated array: a reference that was not in
    the store, to an array with the shape and the dtype of [x], while every
    array that was in the store, [x] included, is left as it was.  Each
    element of the new array is the scaled value stored at the dtype of [x];
    for the integer dtype every element is an int64, and where the quotient
    has an integer part in the int64 range, that integer part (truncation
    toward zero) is what is stored, and what the rescaling starts from when
    the output range is not the default one. *)
Theorem transform_keeps_shape_and_dtype x0 self0 self h rx x :
  fit x0 self0 = (Ok tt, self) ->
  np.scalar (out_min self) -> np.scalar (out_range self) ->
  nth_error h rx = Some x ->
  np.wf x ->
  np.shape1 x = np.shape1 x0 ->
  exists x_new rows,
    InStore.transform rx (self, h) = (Ok (List.length h), (self, (h ++ [x_new])%list)) /\
    nth_error h (List.length h) = None /\
    nth_error (h ++ [x_new]) rx = Some x /\
    transform x self = (Ok x_new, self) /\
    scale_values self = Some rows /\
    np.shape x_new = np.shape x /\
    np.dtype_of x_new = np.dtype_of x /\
    np.wf x_new /\
    forall p r rg,
      (p < np.size_of (np.shape x))%nat ->
      nth_error rows (np.var_of (np.shape x) p) = Some r ->
      r_range r = Some rg ->
      np.at_ x_new p = scaled_value self (np.dtype_of x) r rg (np.at_ x p) /\
      (np.dtype_of x = np.int_ ->
       (exists z, np.at_ x_new p = PyInt z /\ np.int64_min <= z <= np.int64_max) /\
       forall z, np.truncate (quotient r rg (np.at_ x p)) = Some z ->
                 np.at_ x_new p =
                   if rescales self
                   then np.store np.int_ (np.add (np.mul (PyInt z) (out_range self))
                                                 (out_min self))
                   else PyInt z).
Proof.
  intros Hfit _ _ Hx Hwf Hcompat. apply fit_spec in Hfit as (rows & Hself & Hframe).
  assert (Hs : scale_values self = Some rows) by (rewrite Hself; reflexivity).
  assert (Hn : np.shape1 x = Ok (List.length rows))
    by (rewrite Hcompat; apply Hframe).
  destruct (@transform_ok x self rows Hs (fitted_frame_ranged Hframe) Hn)
    as (x_new & Hrun & Hsh & Hdt & Hlen & Hat).
  assert (Hval : forall p r rg,
             (p < np.size_of (np.shape x))%nat ->
             nth_error rows (np.var_of (np.shape x) p) = Some r ->
             r_range r = Some rg ->
             np.at_ x_new p = scaled_value self (np.dtype_of x) r rg (np.at_ x p)).
  { intros p r rg Hp Hr Hrg. rewrite (Hat p Hp). unfold expected.
    rewrite Hr, Hrg. reflexivity. }
  assert (Htyped : forall p, (p < np.size_of (np.shape x))%nat ->
                             np.has_dtype (np.dtype_of x) (np.at_ x_new p)).
  { intros p Hp. rewrite (Hat p Hp). unfold expected.
    destruct (nth_error rows _) as [r|]; [|apply zero_has_dtype].
    destruct (r_range r) as [rg|]; [|apply zero_has_dtype].
    unfold scaled_value. destruct (rescales self); apply store_has_dtype. }
  exists x_new, rows.
  split; [apply (@store_transform_run self h rx x rows x_new Hx Hs (fitted_frame_ranged Hframe) Hn Hrun)|].
  split; [apply nth_error_None; lia|].
  split; [rewrite nth_error_app1 by (apply nth_error_Some; congruence); exact Hx|].
  split; [exact Hrun|]. split; [exact Hs|]. split; [exact Hsh|]. split; [exact Hdt|].
  split.
  - split; [now rewrite Hsh|]. rewrite Hdt. apply Forall_forall. intros q Hq.
    apply (In_nth _ _ (PyInt 0)) in Hq as (p & Hp & <-). rewrite Hlen in Hp.
    apply (Htyped p Hp).
  - intros p r rg Hp Hr Hrg. split; [now apply Hval|].
    intros Hint. split.
    + specialize (Htyped p Hp). rewrite Hint in Htyped.
      destruct (np.at_ x_new p) as [z|f]; [|contradiction]. exists z. split; [reflexivity|].
      exact Htyped.
    + intros z Hz. rewrite (Hval p r rg Hp Hr Hrg). unfold scaled_value.
      rewrite Hint. cbn [np.store]. unfold np.cast_int64. rewrite Hz. reflexivity.
Qed.

Lemma transform_keeps_shape_and_dtype_witness :
  exists self x_new,
    fit int_sample default_scaler = (Ok tt, self) /\
    InStore.transform 1%nat (self, [float_sample; int_sample])
      = (Ok 2%nat, (self, [float_sample; int_sample; x_new])) /\
    np.shape x_new = [2; 2; 1; 2]%nat /\
    np.dtype_of x_new = np.int_ /\
    np.data x_new = map PyInt [0; 0; 0; 0; 0; 1; 0; 1].
Proof.
  destruct (fit int_sample default_scaler) as [[[]|e] self] eqn:Hfit.
  - assert (Hmin : out_min self = PyInt 0)
      by (vm_compute in Hfit; injection Hfit as <-; reflexivity).
    assert (Hrange : out_range self = PyInt 1)
      by (vm_compute in Hfit; injection Hfit as <-; reflexivity).
    destruct (@transform_keeps_shape_and_dtype int_sample _ self
                [float_sample; int_sample] 1%nat int_sample Hfit)
      as (x_new & rows & Hstore & _ & _ & Hrun & _ & Hsh & Hdt & _).
    + rewrite Hmin. vm_compute. split; discriminate.
    + rewrite Hrange. vm_compute. split; discriminate.
    + reflexivity.
    + split; [reflexivity|]. repeat constructor; vm_compute; discriminate.
    + reflexivity.
    + exists self, x_new. split; [reflexivity|]. split; [exact Hstore|].
      split; [exact Hsh|]. split; [exact Hdt|].
      vm_compute in Hfit. injection Hfit as <-.
      vm_compute in Hrun. injection Hrun as <-. reflexivity.
  - vm_compute in Hfit. discriminate Hfit.
Defined.

(** ** Where the depth and the residual block do follow the specification *)

Lemma tail_shape self out t t' :
  StandardConvNet.tail self out t = Ok t' -> Keras.t_shape t' = [out].
Proof.
  unfold StandardConvNet.tail. intros H. inv_bind H.
  apply call_inv in H as [H4 _]. apply call_inv in Ha1 as [H3 _].
  apply call_inv in Ha as [H1 _].
  cbn [Keras.output_shape] in H4, H3, H1. injection H4 as <-.
  destruct (List.length (Keras.t_shape t) <? 2)%nat; [discriminate|].
  injection H1 as H1.
  assert (H2 : Keras.t_shape a0 = Keras.t_shape a).
  { destruct (use_dropout (hp self)).
    - apply call_inv in Ha0 as [H2 _]. cbn [Keras.output_shape] in H2. congruence.
    - congruence. }
  rewrite H2, <- H1 in H3. cbn in H3. congruence.
Qed.

(** Whenever a network is built, its last two layers are the dense layer
    with [output_size] units and the output activation, and its output has
    [output_size] features. *)
Lemma built_output_units {NP : NumPy} cls self input_shape output_size net :
  build cls self input_shape output_size = Ok net ->
  exists m pre act,
    model net = Some m /\
    Keras.t_shape (Keras.output_of (Keras.net m)) = [output_size] /\
    graph_of net = (pre ++ [Keras.Dense output_size "dense_output";
                            Keras.Activation act "activation_output"])%list.
Proof.
  intros Hb.
  destruct (graph_of_built _ _ _ _ Hb) as (n & f' & t' & tl & act & _ & _ & Hg & _).
  apply build_graph in Hb as (n' & f'' & t'' & out & _ & _ & Htail & _ & Hm).
  eexists. exists (stage_layers t' ++ tl)%list, act. split; [exact Hm|].
  cbn [Keras.net Keras.output_of]. split; [apply (tail_shape _ _ _ Htail)|].
  rewrite Hg, app_assoc. reflexivity.
Qed.

Lemma small_difference_exact j k :
  0 <= j -> 0 <= k -> j + k <= 62 ->
  py_int_of_float (of_uint63 (Uint63.of_Z (j + k)) - of_uint63 (Uint63.of_Z j))%float = Ok k.
Proof.
  intros Hj Hk Hjk.
  assert (Hall : forallb (fun a =>
                   forallb (fun b =>
                     match py_int_of_float
                             (of_uint63 (Uint63.of_Z (Z.of_nat a + Z.of_nat b))
                              - of_uint63 (Uint63.of_Z (Z.of_nat a)))%float with
                     | Ok z => z =? Z.of_nat b
                     | Raise _ => false
                     end) (seq O 63)) (seq O 63) = true) by (vm_compute; reflexivity).
  rewrite forallb_forall in Hall.
  specialize (Hall (Z.to_nat j)). rewrite forallb_forall in Hall by (apply in_seq; lia).
  specialize (Hall ltac:(apply in_seq; lia) (Z.to_nat k) ltac:(apply in_seq; lia)).
  rewrite !Z2Nat.id in Hall by lia.
  destruct (py_int_of_float _) as [z|e]; [|discriminate].
  apply Z.eqb_eq in Hall. now subst.
Qed.

(** With a minimum data width that is a power of two, where the logarithms
    are exact, an input width [min_data_width * 2^k] gives depth [k], and a
    network that is built has [k] stages. *)
Lemma depth_exact_on_powers_of_two {NP : NumPy} cls self input_shape output_size j k :
  log2_exact_on_powers ->
  0 <= j -> 0 <= k -> j + k <= 62 ->
  min_data_width (hp self) = 2 ^ j ->
  tuple_index input_shape 1 = Ok (min_data_width (hp self) * 2 ^ k) ->
  num_conv_layers self input_shape = Ok k /\
  forall net, build cls self input_shape output_size = Ok net ->
              num_stages net = Z.to_nat k.
Proof.
  intros Hlog Hj Hk Hjk Hm Hw.
  assert (Hn : num_conv_layers self input_shape = Ok k).
  { unfold num_conv_layers. rewrite Hw. cbn [rbind]. rewrite Hm, <- Z.pow_add_r by lia.
    rewrite !Hlog by lia. now apply small_difference_exact. }
  split; [exact Hn|]. intros net Hb.
  destruct (num_stages_built _ _ _ _ Hb) as (n & Hn' & ->). congruence.
Qed.

Lemma broadcast_aligned_same s : Keras.broadcast_aligned s s = Ok s.
Proof.
  induction s as [|i s IH]; [reflexivity|]. cbn [Keras.broadcast_aligned].
  rewrite Z.eqb_refl. destruct (i =? 1); cbn [rbind]; rewrite IH; reflexivity.
Qed.

Lemma elemwise_shape_same s : Keras.elemwise_shape s s = Ok s.
Proof.
  unfold Keras.elemwise_shape. rewrite Nat.ltb_irrefl, Nat.sub_diag.
  cbn [skipn firstn]. rewrite broadcast_aligned_same. reflexivity.
Qed.

(** Under the [channels_last] layout the block is the one specified: the
    shortcut is projected exactly when the incoming channel count differs
    from the filter count, and the output keeps the spatial size and has
    [filters] channels. *)
Lemma residual_block_channels_last self filters h w c name layer_number :
  data_format (hp self) = "channels_last" ->
  exists out,
    ResNet.residual_block self filters (Keras.Input [h; w; c] name) layer_number = Ok out /\
    Keras.t_shape out = [h; w; filters] /\
    projections (stage_layers out) = if c =? filters then 0%nat else 1%nat.
Proof.
  intros Hdf. unfold ResNet.residual_block. rewrite !Hdf.
  assert (Hnorm : Keras.normalize_data_format "channels_last" = Ok "channels_last")
    by reflexivity.
  unfold Keras.last_dim_value, Keras.call, Keras.Add, projections, stage_layers,
    hidden_layer.
  cbn [Keras.Input Keras.t_shape Keras.t_node map last].
  destruct (c =? filters) eqn:Hc; cbn [negb];
    [apply Z.eqb_eq in Hc; subst c|];
    destruct (hidden_activation (hp self) =? "leaky")%string;
    repeat (cbn -[Keras.elemwise_shape Keras.normalize_data_format]; rewrite Hnorm);
    cbn -[Keras.elemwise_shape Keras.normalize_data_format];
    rewrite elemwise_shape_same; cbn; eexists; repeat split.
Qed.

(** Under the default layout the defect of the block makes the whole build
    fail on 16x16 images with 3 channels. *)
Lemma ResNet_default_build_raises :
  @ResNet.build_network libm (ResNet.__init__ defaults) [3; 16; 16] 1
    = Raise (ValueError "Operands could not be broadcast together").
Proof. vm_compute. reflexivity. Qed.

(** ** [fit] and [fit_transform] return on non-empty arrays *)






(** ** The plain builder returns on channels-last images *)

Lemma hidden_layer_shape self name sh :
  Keras.output_shape (hidden_layer self name) sh = Ok sh.
Proof. unfold hidden_layer. destruct (_ =? _)%string; reflexivity. Qed.

Lemma pooling_layer_shape self c h w ch :
  data_format (hp self) = "channels_last" -> 2 <= h -> 2 <= w ->
  Keras.output_shape (pooling_layer self c) [h; w; ch] = Ok [h / 2; w / 2; ch].
Proof.
  intros Hdf Hh Hw.
  assert (Hpool : Keras.pool_shape "channels_last" [h; w; ch] = Ok [h / 2; w / 2; ch]).
  { unfold Keras.pool_shape.
    change (Keras.normalize_data_format "channels_last") with (Ok "channels_last").
    cbn [rbind String.eqb Ascii.eqb Bool.eqb]. unfold Keras.pool_length.
    destruct (Z.ltb_spec h 2); [lia|]. destruct (Z.ltb_spec w 2); [lia|]. reflexivity. }
  unfold pooling_layer. rewrite Hdf.
  destruct (_ =? _)%string; cbn [Keras.output_shape]; exact Hpool.
Qed.

Lemma plain_stage_returns self c f g t h w ch :
  data_format (hp self) = "channels_last" ->
  filter_growth_rate (hp self) = PyInt g ->
  Keras.t_shape t = [h; w; ch] -> 2 <= h -> 2 <= w ->
  exists t', StandardConvNet.stage self c (f, t) = Ok (f * g, t') /\
             Keras.t_shape t' = [h / 2; w / 2; f].
Proof.
  intros Hdf Hg Hsh Hh Hw. unfold StandardConvNet.stage, Keras.call, next_filters.
  rewrite Hsh, Hg. cbn [Keras.output_shape]. rewrite Hdf.
  change (Keras.normalize_data_format "channels_last") with (Ok "channels_last").
  cbn [rbind String.eqb Ascii.eqb Bool.eqb Keras.t_shape py_mul_int py_int].
  rewrite hidden_layer_shape. cbn [rbind Keras.t_shape].
  rewrite (pooling_layer_shape self c f Hdf Hh Hw). cbn [rbind].
  eexists. split; reflexivity.
Qed.

Lemma plain_stages_return self g :
  data_format (hp self) = "channels_last" ->
  filter_growth_rate (hp self) = PyInt g ->
  forall n c f t h w ch,
    Keras.t_shape t = [h; w; ch] ->
    2 ^ Z.of_nat n <= h -> 2 ^ Z.of_nat n <= w ->
    exists f' t' ch',
      for_range_from c n (StandardConvNet.stage self) (f, t) = Ok (f', t') /\
      Keras.t_shape t' = [h / 2 ^ Z.of_nat n; w / 2 ^ Z.of_nat n; ch'].
Proof.
  intros Hdf Hg. induction n as [|n IH]; intros c f t h w ch Hsh Hh Hw.
  - exists f, t, ch. split; [reflexivity|]. now rewrite !Z.div_1_r.
  - rewrite Nat2Z.inj_succ, Z.pow_succ_r in * by lia.
    assert (Hp : 0 < 2 ^ Z.of_nat n) by (apply Z.pow_pos_nonneg; lia).
    destruct (@plain_stage_returns self c f g t h w ch) as (t1 & Hst & Hsh1);
      try assumption; try lia.
    destruct (IH (c + 1) (f * g) t1 (h / 2) (w / 2) f Hsh1) as (f' & t' & ch' & Hrun & Hsh');
      [apply Z.div_le_lower_bound; lia | apply Z.div_le_lower_bound; lia |].
    exists f', t', ch'. cbn [for_range_from]. rewrite Hst. cbn [rbind].
    split; [exact Hrun|]. rewrite Hsh', !Z.div_div by lia. reflexivity.
Qed.

(** For a power-of-two minimum width and channels-last images at least
    [2^k] high, the plain builder returns a network with exactly [k] stages
    whose dense layer has [output_size] units. *)
Lemma plain_build_returns {NP : NumPy} self h w ch output_size j k g :
  log2_exact_on_powers ->
  0 <= j -> 0 <= k -> j + k <= 62 ->
  min_data_width (hp self) = 2 ^ j ->
  data_format (hp self) = "channels_last" ->
  filter_growth_rate (hp self) = PyInt g ->
  w = min_data_width (hp self) * 2 ^ k -> 2 ^ k <= h ->
  exists net pre act,
    StandardConvNet.build_network self [h; w; ch] output_size = Ok net /\
    num_stages net = Z.to_nat k /\
    graph_of net = (pre ++ [Keras.Dense output_size "dense_output";
                            Keras.Activation act "activation_output"])%list.
Proof.
  intros Hlog Hj Hk Hjk Hm Hdf Hg Hw Hh.
  destruct (@depth_exact_on_powers_of_two NP Plain self [h; w; ch] output_size j k)
    as [Hn Hstages]; try assumption; [cbn; now rewrite Hw|].
  assert (Hwk : 2 ^ k <= w).
  { rewrite Hw, Hm. rewrite <- (Z.mul_1_l (2 ^ k)) at 1.
    apply Z.mul_le_mono_nonneg_r; [apply Z.pow_nonneg; lia|].
    assert (0 < 2 ^ j) by (apply Z.pow_pos_nonneg; lia). lia. }
  destruct (@plain_stages_return self g Hdf Hg (Z.to_nat k) 0 (min_filters (hp self))
              (Keras.Input [h; w; ch] "scn_input") h w ch eq_refl)
    as (f' & t' & ch' & Hloop & Hsh'); [rewrite Z2Nat.id by lia; exact Hh
                                      | rewrite Z2Nat.id by lia; exact Hwk |].
  assert (Hbuild : exists net, StandardConvNet.build_network self [h; w; ch] output_size
                               = Ok net).
  { unfold StandardConvNet.build_network. rewrite Hn. cbn [rbind].
    unfold for_range. rewrite Hloop. cbn [rbind].
    unfold StandardConvNet.tail, Keras.call. cbn [Keras.output_shape]. rewrite Hsh'.
    cbn [List.length Nat.ltb Nat.leb rbind Keras.t_shape].
    destruct (use_dropout (hp self)); cbn; eexists; reflexivity. }
  destruct Hbuild as (net & Hb).
  destruct (@built_output_units NP Plain self [h; w; ch] output_size net Hb)
    as (m & pre & act & _ & _ & Hgraph).
  exists net, pre, act. split; [exact Hb|]. split; [|exact Hgraph].
  apply (Hstages net Hb).
Qed.

(* ================================================================== *)
(** * Further properties of the code *)

(** ** The exact graph of a built network *)

Lemma tail_exact self out t t' :
  StandardConvNet.tail self out t = Ok t' ->
  stage_layers t' = (stage_layers t ++ tail_list self out)%list /\
  additions (Keras.t_node t') = additions (Keras.t_node t).
Proof.
  unfold StandardConvNet.tail, tail_list. intros H. inv_bind H.
  apply call_inv in H as [_ H4]. apply call_inv in Ha1 as [_ H3].
  apply call_inv in Ha as [_ H1].
  unfold stage_layers. rewrite H4, H3. cbn [Keras.layers additions].
  destruct (use_dropout (hp self)).
  - apply call_inv in Ha0 as [_ H2]. rewrite H2. cbn [Keras.layers additions].
    rewrite H1. cbn [Keras.layers additions]. rewrite <- !app_assoc. split; reflexivity.
  - injection Ha0 as <-. rewrite H1. cbn [Keras.layers additions].
    rewrite <- !app_assoc. split; reflexivity.
Qed.

Lemma plain_stage_exact self c f t f' t' :
  StandardConvNet.stage self c (f, t) = Ok (f', t') ->
  next_filters self f = Ok f' /\
  stage_layers t' = (stage_layers t ++ plain_stage_list self c f)%list /\
  additions (Keras.t_node t') = additions (Keras.t_node t).
Proof.
  intros H. unfold StandardConvNet.stage in H. inv_bind H. injection H as <- <-.
  apply call_inv in Ha as [_ Hn1]. apply call_inv in Ha0 as [_ Hn2].
  apply call_inv in Ha2 as [_ Hn3].
  split; [assumption|]. unfold stage_layers, plain_stage_list.
  rewrite Hn3, Hn2, Hn1. cbn [Keras.layers additions]. rewrite <- !app_assoc.
  split; reflexivity.
Qed.

Lemma residual_block_exact self f t c out :
  ResNet.residual_block self f t c = Ok out ->
  stage_layers out =
    (stage_layers t ++ removelast (residual_stage_list self c f (projects f t)))%list /\
  additions (Keras.t_node out) = S (additions (Keras.t_node t)).
Proof.
  unfold ResNet.residual_block. fold (norm_axis self). fold (projects f t). intros H.
  apply rbind_Ok in H. destruct H as (x & Hx & H).
  inv_bind H. apply Add_inv in H as [_ Hout].
  repeat match goal with
         | Hc : Keras.call _ _ = Ok _ |- _ => apply call_inv in Hc as [_ Hc]
         end.
  unfold stage_layers, residual_stage_list. rewrite Hout. cbn [Keras.layers additions].
  rewrite Ha4, Ha3, Ha2, Ha1, Ha0, Ha. cbn [Keras.layers additions].
  destruct (projects f t).
  - apply call_inv in Hx as [_ Hx]. rewrite Hx. cbn [Keras.layers additions app removelast].
    rewrite <- !app_assoc. split; reflexivity.
  - injection Hx as <-. cbn [app removelast]. rewrite <- !app_assoc. split; reflexivity.
Qed.

Lemma residual_stage_exact self c f t f' t' :
  ResNet.stage self c (f, t) = Ok (f', t') ->
  next_filters self f = Ok f' /\
  stage_layers t' = (stage_layers t ++ residual_stage_list self c f (projects f t))%list /\
  additions (Keras.t_node t') = S (additions (Keras.t_node t)).
Proof.
  intros H. unfold ResNet.stage in H. inv_bind H. injection H as <- <-.
  apply residual_block_exact in Ha as [Hls Hadd].
  apply call_inv in Ha1 as [_ Hn].
  split; [assumption|]. unfold stage_layers in *. rewrite Hn.
  cbn [Keras.layers additions]. rewrite Hls, Hadd, <- app_assoc.
  split; [|reflexivity]. f_equal.
  unfold residual_stage_list. destruct (projects f t); reflexivity.
Qed.

(** The plain loop adds the plain stage lists of a filter chain. *)
Lemma plain_stages_exact self n :
  forall c f t f' t',
    for_range_from c n (StandardConvNet.stage self) (f, t) = Ok (f', t') ->
    exists fs,
      List.length fs = n /\ filter_chain self f fs /\
      stage_layers t' =
        (stage_layers t ++
         flat_map (fun cf => plain_stage_list self (fst cf) (snd cf)) (numbered c fs))%list /\
      additions (Keras.t_node t') = additions (Keras.t_node t).
Proof.
  induction n as [|n IH]; intros c f t f' t' H.
  - injection H as <- <-. exists []. cbn. rewrite app_nil_r. auto.
  - cbn [for_range_from] in H. apply rbind_Ok in H. destruct H as ([f1 t1] & H1 & H).
    apply plain_stage_exact in H1 as (Hnext & Hl1 & Ha1).
    apply IH in H as (fs & Hlen & Hchain & Hl & Ha).
    exists (f :: fs). cbn [List.length filter_chain numbered flat_map fst snd].
    split; [now rewrite Hlen|]. split; [eauto|].
    rewrite Hl, Hl1, Ha, Ha1, <- app_assoc. split; reflexivity.
Qed.

(** The residual loop adds the residual stage lists of a filter chain, one
    addition per stage. *)
Lemma residual_stages_exact self n :
  forall c f t f' t',
    for_range_from c n (ResNet.stage self) (f, t) = Ok (f', t') ->
    exists fs ps,
      List.length fs = n /\ List.length ps = n /\ filter_chain self f fs /\
      stage_layers t' =
        (stage_layers t ++
         flat_map (fun s => residual_stage_list self (fst (fst s)) (snd (fst s)) (snd s))
                  (flagged c fs ps))%list /\
      additions (Keras.t_node t') = (additions (Keras.t_node t) + n)%nat.
Proof.
  induction n as [|n IH]; intros c f t f' t' H.
  - injection H as <- <-. exists [], []. cbn. rewrite app_nil_r, Nat.add_0_r. auto.
  - cbn [for_range_from] in H. apply rbind_Ok in H. destruct H as ([f1 t1] & H1 & H).
    apply residual_stage_exact in H1 as (Hnext & Hl1 & Ha1).
    apply IH in H as (fs & ps & Hlen & Hlenp & Hchain & Hl & Ha).
    exists (f :: fs), (projects f t :: ps).
    cbn [List.length filter_chain flagged flat_map fst snd].
    split; [now rewrite Hlen|]. split; [now rewrite Hlenp|]. split; [eauto|].
    rewrite Hl, Hl1, Ha, Ha1, <- app_assoc. split; [reflexivity | lia].
Qed.

Lemma graph_of_model self m :
  model self = Some m ->
  graph_of self = stage_layers (Keras.output_of (Keras.net m)).
Proof. intros H. unfold graph_of. now rewrite H. Qed.

Lemma plain_graph_layers {NP : NumPy} self input_shape output_size net :
  StandardConvNet.build_network self input_shape output_size = Ok net ->
  exists fs,
    List.length fs = num_stages net /\
    filter_chain self (min_filters (hp self)) fs /\
    graph_of net =
      (flat_map (fun cf => plain_stage_list self (fst cf) (snd cf)) (numbered 0 fs)
       ++ tail_list self output_size)%list.
Proof.
  intros Hb.
  destruct (@num_stages_built NP Plain _ _ _ _ Hb) as (n & Hn & Hstages).
  apply (@build_graph NP Plain) in Hb as (n' & f' & t' & out & Hn' & Hloop & Htail & _ & Hm).
  rewrite Hn in Hn'. injection Hn' as <-.
  unfold for_range in Hloop.
  apply plain_stages_exact in Hloop as (fs & Hlen & Hchain & Hl & _).
  apply tail_exact in Htail as [Hlt _].
  exists fs. split; [congruence|]. split; [exact Hchain|].
  rewrite (graph_of_model _ Hm). cbn [Keras.net Keras.output_of].
  rewrite Hlt, Hl. reflexivity.
Qed.

(** X1: The graph of a plain network is, stage by stage, a convolution named
    [conv_NN] with the stage's filter count, the hidden activation and the
    pooling layer, then flatten, the optional dropout, the dense layer and
    the output activation; the filter counts are chained by
    [int(num_filters * filter_growth_rate)] and there is no addition. *)
Theorem plain_graph_exact {NP : NumPy} self input_shape output_size net :
  StandardConvNet.build_network self input_shape output_size = Ok net ->
  exists fs,
    List.length fs = num_stages net /\
    filter_chain self (min_filters (hp self)) fs /\
    graph_of net =
      (flat_map (fun cf => plain_stage_list self (fst cf) (snd cf)) (numbered 0 fs)
       ++ tail_list self output_size)%list /\
    (forall m, model net = Some m ->
               additions (Keras.t_node (Keras.output_of (Keras.net m))) = O).
Proof.
  intros Hb.
  destruct (@num_stages_built NP Plain _ _ _ _ Hb) as (n & Hn & Hstages).
  apply (@build_graph NP Plain) in Hb as (n' & f' & t' & out & Hn' & Hloop & Htail & _ & Hm).
  rewrite Hn in Hn'. injection Hn' as <-.
  unfold for_range in Hloop.
  apply plain_stages_exact in Hloop as (fs & Hlen & Hchain & Hl & Ha).
  apply tail_exact in Htail as [Hlt Hat].
  exists fs. split; [congruence|]. split; [exact Hchain|]. split.
  - rewrite (graph_of_model _ Hm). cbn [Keras.net Keras.output_of].
    rewrite Hlt, Hl. reflexivity.
  - intros m Hm'. rewrite Hm in Hm'. injection Hm' as <-.
    cbn [Keras.net Keras.output_of]. rewrite Hat, Ha. reflexivity.
Qed.

Lemma plain_graph_exact_witness :
  exists net,
    @StandardConvNet.build_network libm
      (StandardConvNet.__init__ (with_layout "channels_last" 4)) [16; 16; 3] 1 = Ok net /\
    exists fs, List.length fs = num_stages net /\
               graph_of net =
                 (flat_map (fun cf => plain_stage_list
                                        (StandardConvNet.__init__ (with_layout "channels_last" 4))
                                        (fst cf) (snd cf)) (numbered 0 fs)
                  ++ tail_list (StandardConvNet.__init__ (with_layout "channels_last" 4)) 1)%list.
Proof.
  destruct (@StandardConvNet.build_network libm
              (StandardConvNet.__init__ (with_layout "channels_last" 4)) [16; 16; 3] 1)
    as [net|e] eqn:Hb.
  - exists net. split; [reflexivity|].
    destruct (@plain_graph_exact libm _ _ _ _ Hb) as (fs & Hlen & _ & Hg & _).
    exists fs. split; assumption.
  - vm_compute in Hb. discriminate Hb.
Defined.

Lemma residual_graph_layers {NP : NumPy} self input_shape output_size net :
  ResNet.build_network self input_shape output_size = Ok net ->
  exists fs ps,
    List.length fs = num_stages net /\ List.length ps = num_stages net /\
    filter_chain self (min_filters (hp self)) fs /\
    graph_of net =
      (flat_map (fun s => residual_stage_list self (fst (fst s)) (snd (fst s)) (snd s))
                (flagged 0 fs ps)
       ++ tail_list self output_size)%list.
Proof.
  intros Hb.
  destruct (@num_stages_built NP Residual _ _ _ _ Hb) as (n & Hn & Hstages).
  apply (@build_graph NP Residual) in Hb
    as (n' & f' & t' & out & Hn' & Hloop & Htail & _ & Hm).
  rewrite Hn in Hn'. injection Hn' as <-.
  unfold for_range in Hloop.
  apply residual_stages_exact in Hloop as (fs & ps & Hlen & Hlenp & Hchain & Hl & _).
  apply tail_exact in Htail as [Hlt _].
  exists fs, ps. split; [congruence|]. split; [congruence|]. split; [exact Hchain|].
  rewrite (graph_of_model _ Hm). cbn [Keras.net Keras.output_of].
  rewrite Hlt, Hl. reflexivity.
Qed.

(** X2: The graph of a residual network is, stage by stage, the optional
    unnamed projection, two rounds of batch normalisation, hidden activation
    and convolution ([res_conv_NN_a], [res_conv_NN_b]) and the pooling layer,
    then the same tail; it has exactly one addition per stage. *)
Theorem residual_graph_exact {NP : NumPy} self input_shape output_size net :
  ResNet.build_network self input_shape output_size = Ok net ->
  exists fs ps,
    List.length fs = num_stages net /\ List.length ps = num_stages net /\
    filter_chain self (min_filters (hp self)) fs /\
    graph_of net =
      (flat_map (fun s => residual_stage_list self (fst (fst s)) (snd (fst s)) (snd s))
                (flagged 0 fs ps)
       ++ tail_list self output_size)%list /\
    (forall m, model net = Some m ->
               additions (Keras.t_node (Keras.output_of (Keras.net m))) = num_stages net).
Proof.
  intros Hb.
  destruct (@num_stages_built NP Residual _ _ _ _ Hb) as (n & Hn & Hstages).
  apply (@build_graph NP Residual) in Hb
    as (n' & f' & t' & out & Hn' & Hloop & Htail & _ & Hm).
  rewrite Hn in Hn'. injection Hn' as <-.
  unfold for_range in Hloop.
  apply residual_stages_exact in Hloop as (fs & ps & Hlen & Hlenp & Hchain & Hl & Ha).
  apply tail_exact in Htail as [Hlt Hat].
  exists fs, ps. split; [congruence|]. split; [congruence|]. split; [exact Hchain|]. split.
  - rewrite (graph_of_model _ Hm). cbn [Keras.net Keras.output_of].
    rewrite Hlt, Hl. reflexivity.
  - intros m Hm'. rewrite Hm in Hm'. injection Hm' as <-.
    cbn [Keras.net Keras.output_of]. rewrite Hat, Ha, Hstages. reflexivity.
Qed.

Lemma residual_graph_exact_witness :
  exists net m,
    @ResNet.build_network libm
      (ResNet.__init__ (with_layout "channels_last" 4)) [16; 16; 3] 1 = Ok net /\
    model net = Some m /\
    additions (Keras.t_node (Keras.output_of (Keras.net m))) = 2%nat.
Proof.
  destruct (@ResNet.build_network libm
              (ResNet.__init__ (with_layout "channels_last" 4)) [16; 16; 3] 1)
    as [net|e] eqn:Hb.
  - destruct (@residual_graph_exact libm _ _ _ _ Hb) as (fs & ps & _ & _ & _ & _ & Hadd).
    destruct (model net) as [m|] eqn:Hm.
    + exists net, m. split; [reflexivity|]. split; [exact Hm|].
      rewrite (Hadd m eq_refl). vm_compute in Hb. injection Hb as <-. reflexivity.
    + vm_compute in Hb. injection Hb as <-. discriminate Hm.
  - vm_compute in Hb. discriminate Hb.
Defined.

Lemma hidden_layer_configured self name : configured self (hidden_layer self name).
Proof.
  unfold hidden_layer. destruct (String.eqb_spec (hidden_activation (hp self)) "leaky");
    cbn [configured]; auto.
Qed.

Lemma pooling_layer_configured self c : configured self (pooling_layer self c).
Proof.
  unfold pooling_layer. destruct (String.eqb_spec (py_lower (pooling (hp self))) "max");
    cbn [configured]; auto.
Qed.

Lemma tail_list_configured self out : Forall (configured self) (tail_list self out).
Proof.
  unfold tail_list. apply Forall_app. split; [repeat constructor|].
  apply Forall_app. split.
  - destruct (use_dropout (hp self)) eqn:Hd; constructor; [|constructor].
    cbn [configured]. auto.
  - constructor; [exact I|]. constructor; [|constructor].
    cbn [configured]. right. auto.
Qed.

Lemma plain_stage_list_configured self c f :
  Forall (configured self) (plain_stage_list self c f).
Proof.
  unfold plain_stage_list. constructor; [cbn [configured]; auto|].
  constructor; [apply hidden_layer_configured|].
  constructor; [apply pooling_layer_configured|constructor].
Qed.

Lemma residual_stage_list_configured self c f p :
  Forall (configured self) (residual_stage_list self c f p).
Proof.
  unfold residual_stage_list. apply Forall_app. split.
  - destruct p; constructor; [cbn [configured]; auto|constructor].
  - repeat (apply Forall_cons || apply Forall_nil);
      first [apply hidden_layer_configured | apply pooling_layer_configured
            | cbn [configured]; auto].
Qed.

(** X3: Every layer of a built network, plain or residual, is configured by the
    hyperparameters: in particular a hidden activation named "leaky" becomes
    [LeakyReLU(leaky_alpha)], every pooling layer is a [MaxPool2D] exactly
    when [pooling.lower()] is "max" and an [AveragePooling2D] for any other
    string, and a [Dropout] layer occurs only when [use_dropout] is set. *)
Theorem built_layers_configured {NP : NumPy} cls self input_shape output_size net :
  build cls self input_shape output_size = Ok net ->
  Forall (configured self) (graph_of net).
Proof.
  destruct cls; cbn [build]; intros Hb.
  - apply plain_graph_layers in Hb as (fs & _ & _ & ->).
    apply Forall_app. split; [|apply tail_list_configured].
    apply Forall_flat_map, Forall_forall. intros cf _. apply plain_stage_list_configured.
  - apply residual_graph_layers in Hb as (fs & ps & _ & _ & _ & ->).
    apply Forall_app. split; [|apply tail_list_configured].
    apply Forall_flat_map, Forall_forall. intros s _. apply residual_stage_list_configured.
Qed.

Lemma built_layers_configured_witness :
  exists net,
    @build libm Residual
      (ResNet.__init__
         {| min_filters := 8; filter_growth_rate := PyFloat 1.5; filter_width := 3;
            min_data_width := 4; hidden_activation := "leaky";
            output_activation := "sigmoid"; pooling := "MAX"; use_dropout := true;
            dropout_alpha := PyFloat 0.1; data_format := "channels_last";
            optimizer := "sgd"; loss := "mse"; leaky_alpha := PyFloat 0.1;
            metrics := None; learning_rate := PyFloat 0.001; batch_size := 32;
            epochs := 1; verbose := 0 |})
      [16; 16; 3] 1 = Ok net /\
    count_layers is_max_pool (graph_of net) = 2%nat /\
    count_layers is_average_pool (graph_of net) = 0%nat /\
    Forall (configured
              (ResNet.__init__
                 {| min_filters := 8; filter_growth_rate := PyFloat 1.5; filter_width := 3;
                    min_data_width := 4; hidden_activation := "leaky";
                    output_activation := "sigmoid"; pooling := "MAX"; use_dropout := true;
                    dropout_alpha := PyFloat 0.1; data_format := "channels_last";
                    optimizer := "sgd"; loss := "mse"; leaky_alpha := PyFloat 0.1;
                    metrics := None; learning_rate := PyFloat 0.001; batch_size := 32;
                    epochs := 1; verbose := 0 |})) (graph_of net).
Proof.
  match goal with
  | |- exists net, ?b = Ok net /\ _ => destruct b as [net|e] eqn:Hb
  end.
  - exists net. split; [reflexivity|].
    pose proof (@built_layers_configured libm Residual _ _ _ _ Hb) as Hconf.
    split; [|split; [|exact Hconf]];
      vm_compute in Hb; injection Hb as <-; vm_compute; reflexivity.
  - vm_compute in Hb. discriminate Hb.
Defined.

(** ** Residual networks over channels-last images *)

Lemma libm_exact_on_powers : @log2_exact_on_powers libm.
Proof.
  intros a Ha. cbn [np_log2 libm]. unfold log2_table.
  assert (Hl : Z.log2 (2 ^ a) = a) by (apply Z.log2_pow2; lia).
  destruct (Z.eqb_spec (2 ^ a) 28) as [E|_].
  { rewrite E in Hl. cbn in Hl. subst a. discriminate E. }
  destruct (Z.eqb_spec (2 ^ a) 7) as [E|_].
  { rewrite E in Hl. cbn in Hl. subst a. discriminate E. }
  assert (Hp : 0 < 2 ^ a) by (apply Z.pow_pos_nonneg; lia).
  destruct (Z.ltb_spec 0 (2 ^ a)); [|lia]. rewrite Hl, Z.eqb_refl. reflexivity.
Qed.

Lemma residual_block_returns self filters t h w c layer_number :
  data_format (hp self) = "channels_last" ->
  Keras.t_shape t = [h; w; c] ->
  exists out,
    ResNet.residual_block self filters t layer_number = Ok out /\
    Keras.t_shape out = [h; w; filters] /\
    projects filters t = negb (c =? filters).
Proof.
  intros Hdf Hsh. destruct t as [sh nd]. cbn [Keras.t_shape] in Hsh. subst sh.
  unfold ResNet.residual_block, projects. rewrite !Hdf.
  assert (Hnorm : Keras.normalize_data_format "channels_last" = Ok "channels_last")
    by reflexivity.
  unfold Keras.last_dim_value, Keras.call, Keras.Add, hidden_layer.
  cbn [Keras.t_shape Keras.t_node map last].
  destruct (c =? filters) eqn:Hc; cbn [negb];
    [apply Z.eqb_eq in Hc; subst c|];
    destruct (hidden_activation (hp self) =? "leaky")%string;
    repeat (cbn -[Keras.elemwise_shape Keras.normalize_data_format]; rewrite Hnorm);
    cbn -[Keras.elemwise_shape Keras.normalize_data_format];
    rewrite elemwise_shape_same; cbn; eexists; repeat split.
Qed.

Lemma residual_stage_returns self c f g t h w ch :
  data_format (hp self) = "channels_last" ->
  filter_growth_rate (hp self) = PyInt g ->
  Keras.t_shape t = [h; w; ch] -> 2 <= h -> 2 <= w ->
  exists t', ResNet.stage self c (f, t) = Ok (f * g, t') /\
             Keras.t_shape t' = [h / 2; w / 2; f] /\
             projects f t = negb (ch =? f).
Proof.
  intros Hdf Hg Hsh Hh Hw. unfold ResNet.stage.
  destruct (@residual_block_returns self f t h w ch c Hdf Hsh) as (out & Hb & Hso & Hp).
  rewrite Hb. cbn [rbind]. unfold next_filters. rewrite Hg.
  cbn [rbind py_mul_int py_int]. unfold Keras.call. rewrite Hso.
  rewrite (pooling_layer_shape self c f Hdf Hh Hw). cbn [rbind].
  eexists. split; [reflexivity|]. split; [reflexivity | exact Hp].
Qed.

Lemma residual_stages_return self g :
  data_format (hp self) = "channels_last" ->
  filter_growth_rate (hp self) = PyInt g ->
  forall n c f t h w ch,
    Keras.t_shape t = [h; w; ch] ->
    2 ^ Z.of_nat n <= h -> 2 ^ Z.of_nat n <= w ->
    exists f' t' ch',
      for_range_from c n (ResNet.stage self) (f, t) = Ok (f', t') /\
      Keras.t_shape t' = [h / 2 ^ Z.of_nat n; w / 2 ^ Z.of_nat n; ch'] /\
      stage_layers t' =
        (stage_layers t ++
         flat_map (fun s => residual_stage_list self (fst (fst s)) (snd (fst s)) (snd s))
                  (flagged c (geometric f g n)
                           (projection_flags ch (geometric f g n))))%list.
Proof.
  intros Hdf Hg. induction n as [|n IH]; intros c f t h w ch Hsh Hh Hw.
  - exists f, t, ch. split; [reflexivity|]. split; [now rewrite !Z.div_1_r|].
    cbn. now rewrite app_nil_r.
  - rewrite Nat2Z.inj_succ, Z.pow_succ_r in * by lia.
    assert (Hp : 0 < 2 ^ Z.of_nat n) by (apply Z.pow_pos_nonneg; lia).
    destruct (@residual_stage_returns self c f g t h w ch) as (t1 & Hst & Hsh1 & Hpr);
      try assumption; try lia.
    destruct (IH (c + 1) (f * g) t1 (h / 2) (w / 2) f Hsh1)
      as (f' & t' & ch' & Hrun & Hsh' & Hl');
      [apply Z.div_le_lower_bound; lia | apply Z.div_le_lower_bound; lia |].
    exists f', t', ch'. cbn [for_range_from]. rewrite Hst. cbn [rbind].
    split; [exact Hrun|]. split; [rewrite Hsh', !Z.div_div by lia; reflexivity|].
    rewrite Hl'. apply residual_stage_exact in Hst as (_ & Hl1 & _).
    rewrite Hl1, Hpr, <- app_assoc. reflexivity.
Qed.

(** X5: For a power-of-two minimum width, an integer growth rate [g] and
    channels-last images of width [min_data_width * 2^k] at least [2^k]
    high, a residual network that the builder returns has exactly [k]
    stages with filter counts [min_filters * g^i]; stage 0 projects its
    shortcut exactly when the image channel count differs from
    [min_filters], and a later stage exactly when its filter count differs
    from the previous one. *)
Theorem residual_build_geometric {NP : NumPy} self h w ch output_size j k g net :
  log2_exact_on_powers ->
  0 <= j -> 0 <= k -> j + k <= 62 ->
  min_data_width (hp self) = 2 ^ j ->
  data_format (hp self) = "channels_last" ->
  filter_growth_rate (hp self) = PyInt g ->
  w = min_data_width (hp self) * 2 ^ k -> 2 ^ k <= h ->
  ResNet.build_network self [h; w; ch] output_size = Ok net ->
  num_stages net = Z.to_nat k /\
  graph_of net =
    (flat_map (fun s => residual_stage_list self (fst (fst s)) (snd (fst s)) (snd s))
              (flagged 0 (geometric (min_filters (hp self)) g (Z.to_nat k))
                 (projection_flags ch (geometric (min_filters (hp self)) g (Z.to_nat k))))
     ++ tail_list self output_size)%list.
Proof.
  intros Hlog Hj Hk Hjk Hm Hdf Hg Hw Hh Hb.
  destruct (@depth_exact_on_powers_of_two NP Residual self [h; w; ch] output_size j k)
    as [Hn Hstages]; try assumption; [cbn; now rewrite Hw|].
  split; [exact (Hstages _ Hb)|].
  assert (Hpj : 0 < 2 ^ j) by (apply Z.pow_pos_nonneg; lia).
  assert (Hpk : 0 < 2 ^ k) by (apply Z.pow_pos_nonneg; lia).
  destruct (@residual_stages_return self g Hdf Hg (Z.to_nat k) 0 (min_filters (hp self))
              (Keras.Input [h; w; ch] "scn_input") h w ch eq_refl)
    as (f1 & t1 & ch' & Hrun & _ & Hl).
  { rewrite Z2Nat.id by lia. exact Hh. }
  { rewrite Z2Nat.id by lia. rewrite Hw, Hm. nia. }
  apply (@build_graph NP Residual) in Hb
    as (n' & f' & t' & out & Hn' & Hloop & Htail & _ & Hmodel).
  rewrite Hn in Hn'. injection Hn' as <-.
  unfold for_range in Hloop. rewrite Hrun in Hloop. injection Hloop as <- <-.
  apply tail_exact in Htail as [Hlt _].
  rewrite (graph_of_model _ Hmodel). cbn [Keras.net Keras.output_of].
  rewrite Hlt, Hl. reflexivity.
Qed.

Lemma residual_build_geometric_witness :
  exists net,
    @ResNet.build_network libm (ResNet.__init__ (with_layout "channels_last" 4))
      [16; 16; 3] 1 = Ok net /\
    num_stages net = 2%nat /\
    projections (graph_of net) = 2%nat.
Proof.
  destruct (@ResNet.build_network libm (ResNet.__init__ (with_layout "channels_last" 4))
              [16; 16; 3] 1) as [net|e] eqn:Hb.
  - exists net. split; [reflexivity|].
    destruct (@residual_build_geometric libm
                (ResNet.__init__ (with_layout "channels_last" 4)) 16 16 3 1 2 2 2 net)
      as (Hs & Hg); try reflexivity; try lia; try exact Hb.
    + exact libm_exact_on_powers.
    + split; [exact Hs|]. rewrite Hg. reflexivity.
  - vm_compute in Hb. discriminate Hb.
Defined.

(** ** Inputs no wider than the minimum data width *)

Lemma difference_exact a b :
  0 <= a <= 62 -> 0 <= b <= 62 ->
  py_int_of_float (of_uint63 (Uint63.of_Z a) - of_uint63 (Uint63.of_Z b))%float
    = Ok (a - b).
Proof.
  intros Ha Hb.
  assert (Hall : forallb (fun a =>
                   forallb (fun b =>
                     match py_int_of_float
                             (of_uint63 (Uint63.of_Z (Z.of_nat a))
                              - of_uint63 (Uint63.of_Z (Z.of_nat b)))%float with
                     | Ok z => z =? Z.of_nat a - Z.of_nat b
                     | Raise _ => false
                     end) (seq O 63)) (seq O 63) = true) by (vm_compute; reflexivity).
  rewrite forallb_forall in Hall.
  specialize (Hall (Z.to_nat a)). rewrite forallb_forall in Hall by (apply in_seq; lia).
  specialize (Hall ltac:(apply in_seq; lia) (Z.to_nat b) ltac:(apply in_seq; lia)).
  rewrite !Z2Nat.id in Hall by lia.
  destruct (py_int_of_float _) as [z|e]; [|discriminate].
  apply Z.eqb_eq in Hall. now subst.
Qed.

(** X6: When the image width and the minimum data width are powers of two and
    the image is no wider than the minimum, [range(num_conv_layers)] is
    empty for a zero or negative count: a network that either builder
    returns, under any data layout, has no convolution or pooling stage and
    is made of the flatten layer, the optional dropout, the dense layer and
    the output activation only. *)
Theorem narrow_input_builds_no_stage {NP : NumPy}
        cls self input_shape output_size a b net :
  log2_exact_on_powers ->
  0 <= a -> a <= b -> b <= 62 ->
  min_data_width (hp self) = 2 ^ b ->
  tuple_index input_shape 1 = Ok (2 ^ a) ->
  build cls self input_shape output_size = Ok net ->
  graph_of net = tail_list self output_size /\
  num_stages net = O.
Proof.
  intros Hlog Ha Hab Hb Hm Hw Hbuild.
  assert (Hn : num_conv_layers self input_shape = Ok (a - b)).
  { unfold num_conv_layers. rewrite Hw. cbn [rbind]. rewrite Hm, !Hlog by lia.
    apply difference_exact; lia. }
  assert (Hz : Z.to_nat (a - b) = O) by lia.
  assert (Hstage : List.length (filter Keras.is_pooling (tail_list self output_size)) = O).
  { unfold tail_list. destruct (use_dropout (hp self)); reflexivity. }
  apply build_graph in Hbuild as (n' & f' & t' & out & Hn' & Hloop & Htail & _ & Hmodel).
  rewrite Hn in Hn'. injection Hn' as <-.
  unfold for_range in Hloop. rewrite Hz in Hloop. cbn [for_range_from] in Hloop.
  injection Hloop as _ <-.
  apply tail_exact in Htail as [Hlt _].
  cbn [stage_layers Keras.Input Keras.t_node Keras.layers app] in Hlt.
  assert (Hgraph : graph_of net = tail_list self output_size).
  { rewrite (graph_of_model _ Hmodel). cbn [Keras.net Keras.output_of]. exact Hlt. }
  split; [exact Hgraph|]. unfold num_stages. rewrite Hgraph. exact Hstage.
Qed.

Lemma narrow_input_builds_no_stage_witness :
  exists net,
    @build libm Residual (ResNet.__init__ (with_layout "channels_first" 32)) [3; 16; 16] 1
      = Ok net /\
    graph_of net = [Keras.Flatten "flatten"; Keras.Dense 1 "dense_output";
                    Keras.Activation "sigmoid" "activation_output"].
Proof.
  destruct (@build libm Residual (ResNet.__init__ (with_layout "channels_first" 32))
              [3; 16; 16] 1) as [net|e] eqn:Hb.
  - exists net. split; [reflexivity|].
    destruct (@narrow_input_builds_no_stage libm Residual
                (ResNet.__init__ (with_layout "channels_first" 32)) [3; 16; 16] 1 4 5 net)
      as (Hg & _); try reflexivity; try lia; try exact Hb.
    + exact libm_exact_on_powers.
    + rewrite Hg. reflexivity.
  - vm_compute in Hb. discriminate Hb.
Defined.

(** ** [fit], [get_data_shapes] and [compile_model] *)

Lemma get_data_shapes_Ok x_shape y_shape xs u :
  get_data_shapes (map Z.of_nat x_shape) (map Z.of_nat y_shape) = Ok (xs, u) ->
  List.length x_shape = 4%nat /\ xs = List.tl (map Z.of_nat x_shape) /\
  u = label_units y_shape.
Proof.
  unfold get_data_shapes, label_units. rewrite !length_map.
  destruct (Nat.eqb_spec (List.length x_shape) 4); cbn [negb]; [|discriminate].
  intros H. apply rbind_Ok in H. destruct H as (u' & Hu & H). injection H as <- <-.
  split; [assumption|]. split; [reflexivity|].
  destruct (List.length y_shape =? 1)%nat; [injection Hu as <-; reflexivity|].
  unfold tuple_index in Hu. destruct y_shape as [|a [|b r]]; cbn in Hu; try discriminate.
  injection Hu as <-. reflexivity.
Qed.

Lemma build_set_model {NP : NumPy} cls self xs ys net :
  build cls self xs ys = Ok net -> exists m, net = set_model self m.
Proof.
  rewrite build_core. intros H. apply rbind_Ok in H. destruct H as (m & _ & H).
  injection H as <-. eauto.
Qed.

Lemma prepare_spec {NP : NumPy} cls self x y s :
  prepare cls self x y = Ok s ->
  List.length (np.shape x) = 4%nat /\
  hp s = hp self /\ parallel_model s = parallel_model self /\
  exists out,
    model s = Some {| Keras.net :=
                        Keras.Model (Keras.Input (List.tl (map Z.of_nat (np.shape x)))
                                                 "scn_input") out;
                      Keras.compiled := Some (configured_args self) |} /\
    Keras.t_shape out = [label_units (np.shape y)].
Proof.
  unfold prepare. intros H. apply rbind_Ok in H. destruct H as ([xs u] & Hs & H).
  apply get_data_shapes_Ok in Hs as (Hlen & -> & ->).
  apply rbind_Ok in H. destruct H as (net & Hb & H).
  destruct (build_set_model _ _ _ _ Hb) as (m0 & Hnet).
  apply build_graph in Hb as (n & f' & t' & out & _ & _ & Htail & Hhp & Hm).
  unfold compile_model in H. rewrite Hm in H. injection H as <-.
  split; [exact Hlen|]. subst net. cbn [set_model hp model parallel_model].
  split; [reflexivity|]. split; [reflexivity|].
  exists out. split; [reflexivity | apply (tail_shape _ _ _ Htail)].
Qed.

(** X7: When [fit] returns with [build=True], the training data had four axes,
    the object holds a model whose input has the shape of one example, whose
    output has one unit for a vector of labels and [y.shape[1]] units
    otherwise, compiled with Adam when the optimizer is named "adam" and SGD
    with momentum 0.99 otherwise; the engine was called once, on that model,
    with the configured batch size, epochs and verbosity, and with
    validation data only when [val_x] was given. *)
Theorem fit_trains_model_built_from_data {NP : NumPy} cls self x y vx vy w s w' :
  StandardConvNet.fit_with (build cls) self x y vx vy true w = (Ok s, w') ->
  List.length (np.shape x) = 4%nat /\
  hp s = hp self /\
  exists m out,
    model s = Some m /\
    Keras.net m = Keras.Model (Keras.Input (List.tl (map Z.of_nat (np.shape x)))
                                           "scn_input") out /\
    Keras.t_shape out = [label_units (np.shape y)] /\
    Keras.compiled m =
      Some {| Keras.c_optimizer :=
                if (optimizer (hp self) =? "adam")%string
                then Keras.Adam (learning_rate (hp self))
                else Keras.SGD (learning_rate (hp self)) (PyFloat 0.99);
              Keras.c_loss := loss (hp self);
              Keras.c_metrics := metrics (hp self) |} /\
    Engine.trace w' =
      (Engine.trace w ++
       [Engine.Model_fit m x y (batch_size (hp self)) (epochs (hp self))
                         (verbose (hp self))
                         (match vx with None => None | Some v => Some (v, vy) end)])%list.
Proof.
  rewrite fit_run. destruct (prepare cls self x y) as [s'|e] eqn:Hp; [|discriminate].
  destruct (prepare_spec _ _ _ _ Hp) as (Hlen & Hhp & _ & out & Hm & Hout).
  rewrite Hm. destruct (Engine.fit_error w); [discriminate|].
  intros H. injection H as <- <-.
  split; [exact Hlen|]. split; [exact Hhp|].
  eexists. exists out. split; [exact Hm|]. cbn [Keras.net Keras.compiled].
  split; [reflexivity|]. split; [exact Hout|]. split; [reflexivity|].
  unfold fit_event, val_data_of. cbn [log Engine.trace]. rewrite Hhp. reflexivity.
Qed.

Lemma fit_trains_model_built_from_data_witness :
  exists s w' m,
    @StandardConvNet.fit_with (@build libm Plain)
      (StandardConvNet.__init__ (with_layout "channels_last" 4))
      images labels None (Some labels) true (Engine.start None) = (Ok s, w') /\
    model s = Some m /\
    Keras.t_shape (Keras.output_of (Keras.net m)) = [1] /\
    Engine.trace w' = [Engine.Model_fit m images labels 256 10 0 None].
Proof.
  destruct (@StandardConvNet.fit_with (@build libm Plain)
              (StandardConvNet.__init__ (with_layout "channels_last" 4))
              images labels None (Some labels) true (Engine.start None))
    as [[s|e] w'] eqn:Hfit.
  - destruct (@fit_trains_model_built_from_data libm Plain _ _ _ _ _ _ _ _ Hfit)
      as (_ & _ & m & out & Hm & Hnet & Hout & _ & Htr).
    exists s, w', m. split; [reflexivity|]. split; [exact Hm|].
    split; [rewrite Hnet; exact Hout | exact Htr].
  - vm_compute in Hfit. discriminate Hfit.
Defined.

(** X8: A second [fit] with [build=False] continues with the model the first
    [fit] built and compiled: nothing is rebuilt, the engine is called once
    more on that same model with the new data, and the object is returned
    as the first [fit] left it. *)
Theorem refit_without_build_keeps_model {NP : NumPy}
        cls self x y vx vy w s w' x2 y2 vx2 vy2 :
  StandardConvNet.fit_with (build cls) self x y vx vy true w = (Ok s, w') ->
  exists m,
    model s = Some m /\
    Engine.trace w' =
      (Engine.trace w ++
       [Engine.Model_fit m x y (batch_size (hp self)) (epochs (hp self))
                         (verbose (hp self)) (val_data_of vx vy)])%list /\
    StandardConvNet.fit_with (build cls) s x2 y2 vx2 vy2 false w' =
      (Ok s,
       {| Engine.trace :=
            (Engine.trace w' ++
             [Engine.Model_fit m x2 y2 (batch_size (hp self)) (epochs (hp self))
                               (verbose (hp self)) (val_data_of vx2 vy2)])%list;
          Engine.fit_error := Engine.fit_error w' |}).
Proof.
  rewrite fit_run. destruct (prepare cls self x y) as [s'|e] eqn:Hp; [|discriminate].
  destruct (prepare_spec _ _ _ _ Hp) as (_ & Hhp & _ & out & Hm & _).
  rewrite Hm. destruct (Engine.fit_error w) eqn:Herr; [discriminate|].
  intros H. injection H as <- <-.
  eexists. split; [exact Hm|]. split.
  - unfold fit_event. cbn [log Engine.trace]. rewrite Hhp. reflexivity.
  - unfold StandardConvNet.fit_with, bind, ret. rewrite Hm.
    unfold Engine.fit. cbn [Keras.compiled]. unfold bind. rewrite emit_run.
    unfold get, val_data_of, log, raise, ret. cbn [Engine.fit_error Engine.trace].
    rewrite Herr, Hhp. reflexivity.
Qed.

Lemma refit_without_build_keeps_model_witness :
  exists s w' m,
    @StandardConvNet.fit_with (@build libm Residual)
      (ResNet.__init__ (with_layout "channels_last" 4))
      images labels None None true (Engine.start None) = (Ok s, w') /\
    model s = Some m /\
    Engine.fitted_models
      (Engine.trace
         (snd (@StandardConvNet.fit_with (@build libm Residual) s
                 images labels None None false w'))) = [m; m].
Proof.
  destruct (@StandardConvNet.fit_with (@build libm Residual)
              (ResNet.__init__ (with_layout "channels_last" 4))
              images labels None None true (Engine.start None))
    as [[s|e] w'] eqn:Hfit.
  - destruct (@refit_without_build_keeps_model libm Residual _ _ _ _ _ _ _ _
                images labels None None Hfit) as (m & Hm & Htr & Hrefit).
    exists s, w', m. split; [reflexivity|]. split; [exact Hm|].
    rewrite Hrefit. cbn [snd Engine.trace]. rewrite Htr. reflexivity.
  - vm_compute in Hfit. discriminate Hfit.
Defined.

(** X9: No method assigns [parallel_model]: after any [fit] on an object made by
    the constructor, [compile_parallel_model] raises AttributeError. *)
Theorem compile_parallel_model_raises_after_fit {NP : NumPy}
        cls kw x y vx vy do_build w s w' :
  StandardConvNet.fit_with (build cls) (StandardConvNet.__init__ kw) x y vx vy do_build w
    = (Ok s, w') ->
  compile_parallel_model s = Raise (AttributeError "'NoneType' object has no attribute").
Proof.
  destruct do_build.
  - rewrite fit_run.
    destruct (prepare cls _ x y) as [s'|e] eqn:Hp; [|discriminate].
    destruct (prepare_spec _ _ _ _ Hp) as (_ & _ & Hpar & out & Hm & _).
    rewrite Hm. destruct (Engine.fit_error w); [discriminate|].
    intros H. injection H as <- _. unfold compile_parallel_model. rewrite Hpar. reflexivity.
  - cbv [StandardConvNet.fit_with bind ret lift StandardConvNet.__init__ model no_model].
    discriminate.
Qed.

Lemma compile_parallel_model_raises_after_fit_witness :
  exists s w',
    @StandardConvNet.fit_with (@build libm Residual)
      (StandardConvNet.__init__ (with_layout "channels_last" 4))
      images labels None None true (Engine.start None) = (Ok s, w') /\
    is_ok (compile_model s) = true /\
    compile_parallel_model s = Raise (AttributeError "'NoneType' object has no attribute").
Proof.
  destruct (@StandardConvNet.fit_with (@build libm Residual)
              (StandardConvNet.__init__ (with_layout "channels_last" 4))
              images labels None None true (Engine.start None))
    as [[s|e] w'] eqn:Hfit.
  - exists s, w'. split; [reflexivity|]. split.
    + vm_compute in Hfit. injection Hfit as <- _. reflexivity.
    + exact (@compile_parallel_model_raises_after_fit libm Residual _ _ _ _ _ _ _ _ _ Hfit).
  - vm_compute in Hfit. discriminate Hfit.
Defined.

(** ** What the drivers hand to the engine *)

Lemma configured_args_hp a b : hp a = hp b -> configured_args a = configured_args b.
Proof. unfold configured_args, the_optimizer. intros ->. reflexivity. Qed.

Lemma prepare_trains {NP : NumPy} cls self kw x y vx vy s m b :
  prepare cls self x y = Ok s -> model s = Some m ->
  configured_args self = configured_args (StandardConvNet.__init__ kw) ->
  batch_size (hp self) = b -> epochs (hp self) = epochs kw ->
  verbose (hp self) = verbose kw ->
  trains_with kw x y vx vy b (fit_event s m x y vx vy).
Proof.
  intros Hp Hm Hargs Hb He Hv.
  destruct (prepare_spec _ _ _ _ Hp) as (_ & Hhp & _ & out & Hm' & _).
  rewrite Hm in Hm'. injection Hm' as ->.
  unfold fit_event. cbn [trains_with Keras.compiled]. rewrite Hhp, Hargs.
  repeat split; assumption.
Qed.

Lemma prepare_replicated_hp {NP : NumPy} self x y n cm cr scn :
  prepare_replicated self x y n cm cr = Ok scn -> hp scn = hp self.
Proof.
  rewrite prepare_replicated_graph. intros H. apply rbind_Ok in H.
  destruct H as (m & _ & H). injection H as <-. reflexivity.
Qed.

(** X10: Every training call a driver makes is on the training data and labels,
    with the epochs and verbosity of the hyperparameters, on a model
    compiled with their optimizer, loss and metrics, and with validation
    data only when validation inputs were given; the batch size is the
    configured one, multiplied by the device count when the accelerator
    driver runs on more than one device. *)
Theorem drivers_train_as_configured {NP : NumPy}
        x y vx vy kw num_processors num_gpus seed dtype cpu_relocation cpu_merge err :
  let cpu := train_conv_net_cpu x y vx vy kw num_processors seed (Engine.start err) in
  let gpu := train_conv_net_gpu x y vx vy kw num_gpus seed dtype
                                cpu_relocation cpu_merge (Engine.start err) in
  Forall (trains_with kw x y vx vy (batch_size kw)) (Engine.trace (snd cpu)) /\
  Forall (trains_with kw x y vx vy
            (if 1 <? num_gpus then batch_size kw * num_gpus else batch_size kw))
         (Engine.trace (snd gpu)).
Proof.
  intros cpu gpu. subst cpu gpu.
  rewrite train_conv_net_cpu_run, train_conv_net_gpu_run. split.
  - unfold cpu_outcome.
    destruct (prepare Plain _ x y) as [s|e] eqn:Hp;
      [|cbn; repeat (apply Forall_cons; [exact I|]); apply Forall_nil].
    destruct (model s) as [m|] eqn:Hm;
      [|cbn; repeat (apply Forall_cons; [exact I|]); apply Forall_nil].
    assert (Hfit : trains_with kw x y vx vy (batch_size kw) (fit_event s m x y vx vy))
      by (eapply prepare_trains; eauto).
    destruct err; cbn [Engine.start Engine.fit_error log Engine.trace snd app];
      repeat (apply Forall_cons; [first [exact I | exact Hfit]|]); apply Forall_nil.
  - unfold gpu_outcome, fit_save_close.
    destruct (Z.eqb_spec num_gpus 1) as [->|Hne].
    + cbn [Z.ltb Z.compare Pos.compare].
      destruct (prepare Residual _ x y) as [s|e] eqn:Hp;
        [|cbn; repeat (apply Forall_cons; [exact I|]); apply Forall_nil].
      destruct (model s) as [m|] eqn:Hm;
        [|cbn; repeat (apply Forall_cons; [exact I|]); apply Forall_nil].
      assert (Hfit : trains_with kw x y vx vy (batch_size kw) (fit_event s m x y vx vy))
        by (eapply prepare_trains; eauto).
      destruct err; cbn [Engine.start Engine.fit_error log Engine.trace snd app];
        repeat (apply Forall_cons; [first [exact I | exact Hfit]|]); apply Forall_nil.
    + destruct (1 <? num_gpus);
        [|cbn; repeat (apply Forall_cons; [exact I|]); apply Forall_nil].
      destruct (prepare_replicated _ x y num_gpus cpu_merge cpu_relocation)
        as [scn|e] eqn:Hr;
        [|cbn; repeat (apply Forall_cons; [exact I|]); apply Forall_nil].
      apply prepare_replicated_hp in Hr.
      destruct (prepare Residual scn x y) as [s|e] eqn:Hp;
        [|cbn; repeat (apply Forall_cons; [exact I|]); apply Forall_nil].
      destruct (model s) as [m|] eqn:Hm;
        [|cbn; repeat (apply Forall_cons; [exact I|]); apply Forall_nil].
      assert (Hfit : trains_with kw x y vx vy (batch_size kw * num_gpus)
                                 (fit_event s m x y vx vy)).
      { eapply prepare_trains; eauto.
        - rewrite (configured_args_hp _ _ Hr). reflexivity.
        - rewrite Hr. reflexivity.
        - rewrite Hr. reflexivity.
        - rewrite Hr. reflexivity. }
      destruct err; cbn [Engine.start Engine.fit_error log Engine.trace snd app];
        repeat (apply Forall_cons; [first [exact I | exact Hfit]|]); apply Forall_nil.
Qed.

(** X11: A driver given training data that do not have four axes raises the
    ValueError of [get_data_shapes]: nothing is trained and nothing is
    saved. *)
Theorem drivers_reject_unshaped_data {NP : NumPy}
        x y vx vy kw num_processors num_gpus seed dtype cpu_relocation cpu_merge err :
  List.length (np.shape x) <> 4%nat ->
  let cpu := train_conv_net_cpu x y vx vy kw num_processors seed (Engine.start err) in
  let gpu := train_conv_net_gpu x y vx vy kw num_gpus seed dtype
                                cpu_relocation cpu_merge (Engine.start err) in
  is_ValueError (fst cpu) = true /\
  Engine.fitted_models (Engine.trace (snd cpu)) = [] /\
  (1 <= num_gpus -> is_ValueError (fst gpu) = true) /\
  Engine.fitted_models (Engine.trace (snd gpu)) = [] /\
  Engine.saved (Engine.trace (snd gpu)) = [].
Proof.
  intros Hlen cpu gpu. subst cpu gpu.
  rewrite train_conv_net_cpu_run, train_conv_net_gpu_run.
  assert (Hs : get_data_shapes (map Z.of_nat (np.shape x)) (map Z.of_nat (np.shape y))
               = Raise (ValueError
                   "Input data does not have dimensions (examples, y, x, predictor)")).
  { unfold get_data_shapes. rewrite length_map.
    destruct (Nat.eqb_spec (List.length (np.shape x)) 4); [contradiction | reflexivity]. }
  assert (Hp : forall cls self,
             prepare cls self x y = Raise (ValueError
               "Input data does not have dimensions (examples, y, x, predictor)")).
  { intros cls self. unfold prepare. rewrite Hs. reflexivity. }
  assert (Hr : forall self,
             prepare_replicated self x y num_gpus cpu_merge cpu_relocation =
             Raise (ValueError
               "Input data does not have dimensions (examples, y, x, predictor)")).
  { intros self. unfold prepare_replicated. rewrite Hs. reflexivity. }
  unfold cpu_outcome, gpu_outcome, fit_save_close. rewrite !Hp, Hr.
  split; [reflexivity|]. split; [reflexivity|].
  destruct (Z.eqb_spec num_gpus 1) as [->|Hne].
  - repeat split; reflexivity.
  - destruct (Z.ltb_spec 1 num_gpus).
    + repeat split; reflexivity.
    + split; [intros; lia|]. split; reflexivity.
Qed.

Lemma drivers_reject_unshaped_data_witness :
  let cpu := @train_conv_net_cpu libm flat_images labels None None
               (with_layout "channels_last" 4) 2 1 (Engine.start None) in
  is_ValueError (fst cpu) = true /\ Engine.fitted_models (Engine.trace (snd cpu)) = [].
Proof.
  destruct (@drivers_reject_unshaped_data libm flat_images labels None None
              (with_layout "channels_last" 4) 2 1 1 "float32" false false None)
    as (H1 & H2 & _).
  - cbn. lia.
  - split; assumption.
Defined.

(** ** Set-up and device scopes of the drivers *)

(** X12: Whatever happens later, the single-device driver first seeds numpy and
    the backend, then creates a session with one intra-operation thread and
    [num_processors] inter-operation threads and installs it; the
    accelerator driver seeds numpy, creates a session whose memory may grow,
    installs it, and only then seeds the backend and sets the float type.
    Neither allows soft placement. *)
Theorem drivers_set_up_first {NP : NumPy}
        x y vx vy kw num_processors num_gpus seed dtype cpu_relocation cpu_merge err :
  let cpu := train_conv_net_cpu x y vx vy kw num_processors seed (Engine.start err) in
  let gpu := train_conv_net_gpu x y vx vy kw num_gpus seed dtype
                                cpu_relocation cpu_merge (Engine.start err) in
  firstn 4 (Engine.trace (snd cpu)) =
    [Engine.np_random_seed seed; Engine.tf_set_random_seed seed;
     Engine.Session_create
       {| Engine.allow_soft_placement := false;
          Engine.intra_op_parallelism_threads := Some 1;
          Engine.inter_op_parallelism_threads := Some num_processors;
          Engine.gpu_allow_growth := false |};
     Engine.K_set_session] /\
  firstn 5 (Engine.trace (snd gpu)) =
    [Engine.np_random_seed seed;
     Engine.Session_create
       {| Engine.allow_soft_placement := false;
          Engine.intra_op_parallelism_threads := None;
          Engine.inter_op_parallelism_threads := None;
          Engine.gpu_allow_growth := true |};
     Engine.K_set_session; Engine.tf_set_random_seed seed; Engine.K_set_floatx dtype].
Proof.
  intros cpu gpu. subst cpu gpu.
  rewrite train_conv_net_cpu_run, train_conv_net_gpu_run. split.
  - unfold cpu_outcome.
    destruct (prepare Plain _ x y) as [s|e]; [|reflexivity].
    destruct (model s); [|reflexivity]. destruct err; reflexivity.
  - unfold gpu_outcome, fit_save_close.
    destruct (num_gpus =? 1); [|destruct (1 <? num_gpus)].
    + destruct (prepare Residual _ x y) as [s|e]; [|reflexivity].
      destruct (model s); [|reflexivity]. destruct err; reflexivity.
    + destruct (prepare_replicated _ x y num_gpus cpu_merge cpu_relocation) as [scn|e];
        [|reflexivity].
      destruct (prepare Residual scn x y) as [s|e]; [|reflexivity].
      destruct (model s); [|reflexivity]. destruct err; reflexivity.
    + reflexivity.
Qed.

(** X13: The device scope of a driver is left on every path, also when [fit]
    raises inside it: the single-device driver trains at most once, inside
    the scope of "/cpu:0"; the accelerator driver trains inside the scope of
    "/gpu:0" with one device, and outside any device scope with any other
    device count. *)
Theorem device_scope_always_left {NP : NumPy}
        x y vx vy kw num_processors num_gpus seed dtype cpu_relocation cpu_merge err :
  let cpu := train_conv_net_cpu x y vx vy kw num_processors seed (Engine.start err) in
  let gpu := train_conv_net_gpu x y vx vy kw num_gpus seed dtype
                                cpu_relocation cpu_merge (Engine.start err) in
  exists fits_cpu fits_gpu,
    forallb is_fit fits_cpu = true /\ (List.length fits_cpu <= 1)%nat /\
    forallb is_fit fits_gpu = true /\ (List.length fits_gpu <= 1)%nat /\
    scopes_and_fits (Engine.trace (snd cpu)) =
      (Engine.device_enter "/cpu:0" :: fits_cpu ++ [Engine.device_exit "/cpu:0"])%list /\
    scopes_and_fits (Engine.trace (snd gpu)) =
      if num_gpus =? 1
      then (Engine.device_enter "/gpu:0" :: fits_gpu ++ [Engine.device_exit "/gpu:0"])%list
      else fits_gpu.
Proof.
  intros cpu gpu. subst cpu gpu.
  rewrite train_conv_net_cpu_run, train_conv_net_gpu_run.
  assert (Hcpu : exists fits,
             forallb is_fit fits = true /\ (List.length fits <= 1)%nat /\
             scopes_and_fits
               (Engine.trace (snd (cpu_outcome x y vx vy kw num_processors seed
                                     (Engine.start err)))) =
             (Engine.device_enter "/cpu:0" :: fits ++ [Engine.device_exit "/cpu:0"])%list).
  { unfold cpu_outcome.
    destruct (prepare Plain _ x y) as [s|e];
      [|exists []; repeat split; cbn; lia].
    destruct (model s) as [m|]; [|exists []; repeat split; cbn; lia].
    exists [fit_event s m x y vx vy]. destruct err; repeat split; cbn; lia. }
  assert (Hgpu : exists fits,
             forallb is_fit fits = true /\ (List.length fits <= 1)%nat /\
             scopes_and_fits
               (Engine.trace (snd (gpu_outcome x y vx vy kw num_gpus seed dtype
                                     cpu_relocation cpu_merge (Engine.start err)))) =
             if num_gpus =? 1
             then (Engine.device_enter "/gpu:0" :: fits
                   ++ [Engine.device_exit "/gpu:0"])%list
             else fits).
  { unfold gpu_outcome, fit_save_close.
    destruct (num_gpus =? 1); [|destruct (1 <? num_gpus)].
    - destruct (prepare Residual _ x y) as [s|e];
        [|exists []; repeat split; cbn; lia].
      destruct (model s) as [m|]; [|exists []; repeat split; cbn; lia].
      exists [fit_event s m x y vx vy]. destruct err; repeat split; cbn; lia.
    - destruct (prepare_replicated _ x y num_gpus cpu_merge cpu_relocation) as [scn|e];
        [|exists []; repeat split; cbn; lia].
      destruct (prepare Residual scn x y) as [s|e];
        [|exists []; repeat split; cbn; lia].
      destruct (model s) as [m|]; [|exists []; repeat split; cbn; lia].
      exists [fit_event s m x y vx vy]. destruct err; repeat split; cbn; lia.
    - exists []. repeat split; cbn; lia. }
  destruct Hcpu as (fc & Hc1 & Hc2 & Hc3). destruct Hgpu as (fg & Hg1 & Hg2 & Hg3).
  exists fc, fg. auto 10.
Qed.

(** ** What [fit] records *)

(** X16: [fit] starts by replacing [scale_values]: what it returns does not
    depend on an earlier fit, so refitting on the same array changes
    nothing. *)
Theorem fit_overwrites_previous_fit x self self' sv :
  fit x self = (Ok tt, self') ->
  fit x {| out_min := out_min self; out_max := out_max self;
           out_range := out_range self; scale_values := sv |} = (Ok tt, self') /\
  fit x self' = (Ok tt, self').
Proof.
  intros Hfit.
  assert (Hsame : forall s1 s2,
             out_min s1 = out_min s2 -> out_max s1 = out_max s2 ->
             out_range s1 = out_range s2 ->
             fit x s1 = (Ok tt, self') -> fit x s2 = (Ok tt, self')).
  { intros s1 s2 H1 H2 H3. unfold fit.
    cbv beta delta [bind lift set_scale_values].
    destruct (np.shape1 x) as [n|e]; cbv beta iota; [|discriminate].
    rewrite H1, H2, H3. exact (fun H => H). }
  split.
  - apply (Hsame self); try reflexivity. exact Hfit.
  - apply (Hsame self); try exact Hfit;
      apply fit_spec in Hfit as (rows & -> & _); reflexivity.
Qed.

Lemma fit_overwrites_previous_fit_witness :
  exists self',
    fit float_sample default_scaler = (Ok tt, self') /\
    fit float_sample self' = (Ok tt, self').
Proof.
  destruct (fit float_sample default_scaler) as [[[]|e] self'] eqn:Hfit.
  - exists self'. split; [reflexivity|].
    exact (proj2 (@fit_overwrites_previous_fit float_sample _ self' None Hfit)).
  - vm_compute in Hfit. discriminate Hfit.
Defined.

(** X17: A [fit] that fails on an empty variable has already replaced
    [scale_values] by a frame of zeros without a [range] column: the earlier
    fit is lost, and [transform] on an array with as many variables then
    raises KeyError. *)
Theorem failed_fit_leaves_unfitted_frame x self n x' :
  np.shape1 x = Ok (S n) ->
  np.take1 x 0 = [] ->
  np.shape1 x' = Ok (S n) ->
  let unfitted := {| out_min := out_min self; out_max := out_max self;
                     out_range := out_range self;
                     scale_values := Some (repeat zero_row (S n)) |} in
  fit x self =
    (Raise (ValueError
              "zero-size array to reduction operation minimum which has no identity"),
     unfitted) /\
  transform x' unfitted = (Raise (KeyError "range"), unfitted).
Proof.
  intros Hn Hempty Hn' unfitted. split.
  - unfold fit, bind at 1, lift at 1. rewrite Hn.
    unfold bind at 1, set_scale_values at 1. cbn [seq for_each].
    unfold bind at 1, bind at 1, lift at 1. rewrite Hempty. reflexivity.
  - unfold transform, bind at 1, lift at 1. rewrite Hn'.
    unfold bind at 1, frame, bind at 1, get. cbn [scale_values unfitted ret].
    rewrite repeat_length, Nat.eqb_refl. cbn [negb seq for_fold].
    unfold bind at 1, transform_var, bind at 1, loc, bind at 1, frame, bind at 1, get.
    reflexivity.
Qed.

Lemma failed_fit_leaves_unfitted_frame_witness :
  let fitted :=
    {| out_min := PyInt 0; out_max := PyInt 1; out_range := PyInt 1;
       scale_values :=
         Some [{| r_min := PyFloat 1; r_max := PyFloat 5; r_range := Some (PyFloat 4) |};
               {| r_min := PyFloat 10; r_max := PyFloat 40;
                  r_range := Some (PyFloat 30) |}] |} in
  is_ValueError (fst (fit (np.zeros [0; 2; 4; 4]%nat np.float_) fitted)) = true /\
  fst (transform float_sample
         {| out_min := PyInt 0; out_max := PyInt 1; out_range := PyInt 1;
            scale_values := Some (repeat zero_row 2) |}) = Raise (KeyError "range").
Proof.
  intros fitted.
  destruct (@failed_fit_leaves_unfitted_frame
              (np.zeros [0; 2; 4; 4]%nat np.float_) fitted
              1%nat float_sample eq_refl eq_refl eq_refl) as [Hfit Htr].
  split.
  - rewrite Hfit. reflexivity.
  - cbn [fitted out_min out_max out_range] in Htr. rewrite Htr. reflexivity.
Defined.

(** ** [transform] reads the scaler and never writes it *)

Lemma for_fold_keeps_state {St A B} (body : A -> B -> M St B) :
  (forall v acc s, snd (body v acc s) = s) ->
  forall vs acc s, snd (for_fold vs body acc s) = s.
Proof.
  intros Hbody. induction vs as [|v vs IH]; intros acc s; [reflexivity|].
  cbn [for_fold]. unfold bind. specialize (Hbody v acc s).
  destruct (body v acc s) as [[acc'|e] s']; cbn [snd] in *; subst s'; [apply IH | reflexivity].
Qed.

(** X22: Whether it returns an array or raises (no variable axis, a scaler that
    was never fitted, a wrong number of variables, a frame without ranges),
    [transform] leaves the scaler exactly as it was. *)
Theorem transform_never_changes_scaler x self : snd (transform x self) = self.
Proof.
  cbv beta iota zeta delta [transform bind lift frame get ret raise].
  destruct (np.shape1 x) as [n|e]; [|reflexivity].
  destruct (scale_values self) as [rows|] eqn:Hs; [|reflexivity].
  destruct (negb (n =? List.length rows)%nat); [reflexivity|].
  apply for_fold_keeps_state. intros v acc s.
  cbv beta iota zeta delta [transform_var bind loc frame get ret raise].
  destruct (scale_values s) as [rows'|]; [|reflexivity].
  destruct (nth_error rows' v) as [r|]; [|reflexivity].
  destruct (r_range r); reflexivity.
Qed.


(** ** Plain networks over channels-last images *)

Lemma filter_chain_geometric self g :
  filter_growth_rate (hp self) = PyInt g ->
  forall fs f, filter_chain self f fs -> fs = geometric f g (List.length fs).
Proof.
  intros Hg. induction fs as [|a fs IH]; intros f H; [reflexivity|].
  cbn [filter_chain] in H. destruct H as (-> & f' & Hnext & Hchain).
  unfold next_filters in Hnext. rewrite Hg in Hnext.
  cbn [py_mul_int rbind py_int] in Hnext. injection Hnext as <-.
  cbn [List.length geometric]. f_equal. apply IH. exact Hchain.
Qed.

(** X4: For a power-of-two minimum width, an integer growth rate [g] and an
    input of width [min_data_width * 2^k], a plain network that the builder
    returns has exactly [k] stages: stage [i] is the convolution [conv_0i]
    with [min_filters * g^i] filters, the hidden activation and the pooling
    layer, and the dense head follows. *)
Theorem plain_build_geometric {NP : NumPy} self input_shape output_size j k g net :
  log2_exact_on_powers ->
  0 <= j -> 0 <= k -> j + k <= 62 ->
  min_data_width (hp self) = 2 ^ j ->
  filter_growth_rate (hp self) = PyInt g ->
  tuple_index input_shape 1 = Ok (min_data_width (hp self) * 2 ^ k) ->
  StandardConvNet.build_network self input_shape output_size = Ok net ->
  num_stages net = Z.to_nat k /\
  graph_of net =
    (flat_map (fun cf => plain_stage_list self (fst cf) (snd cf))
              (numbered 0 (geometric (min_filters (hp self)) g (Z.to_nat k)))
     ++ tail_list self output_size)%list.
Proof.
  intros Hlog Hj Hk Hjk Hm Hg Hw Hb.
  destruct (@depth_exact_on_powers_of_two NP Plain self input_shape output_size j k)
    as [_ Hstages]; try assumption.
  specialize (Hstages net Hb). split; [exact Hstages|].
  destruct (plain_graph_layers _ _ _ Hb) as (fs & Hlen & Hchain & Hgraph).
  rewrite Hgraph. rewrite (filter_chain_geometric _ Hg _ _ Hchain), Hlen, Hstages.
  reflexivity.
Qed.

Lemma plain_build_geometric_witness :
  exists net,
    @StandardConvNet.build_network libm
      (StandardConvNet.__init__ (with_layout "channels_first" 4)) [1; 64; 64] 1 = Ok net /\
    named_conv_filters (graph_of net) = [16; 32; 64; 128].
Proof.
  destruct (@StandardConvNet.build_network libm
              (StandardConvNet.__init__ (with_layout "channels_first" 4)) [1; 64; 64] 1)
    as [net|e] eqn:Hb.
  - exists net. split; [reflexivity|].
    destruct (@plain_build_geometric libm
                (StandardConvNet.__init__ (with_layout "channels_first" 4))
                [1; 64; 64] 1 2 4 2 net)
      as (_ & Hg); try reflexivity; try lia; try exact Hb.
    + exact libm_exact_on_powers.
    + rewrite Hg. reflexivity.
  - vm_compute in Hb. discriminate Hb.
Defined.
